(** * Stealth addresses (ERC-5564, scheme 1): the scripts of the repository

    A shallow embedding of the TypeScript scripts

      - [src/scripts/test-stealth-address.ts] (module [TestStealthAddress]),
      - the first draft of that script, which stops at its first curve call
        (module [Draft]),
      - the walkthrough with registry and announcer (module [Announcer],
        and module [AnnouncerWalkthrough] for the functions that use the
        registry and the log of announcements),
      - the walkthrough with the registry only (modules [Registry] and
        [RegistryWalkthrough]),
      - the walkthrough without registry (module [Walkthrough]),

    together with the pieces of the JavaScript runtime, of viem and of
    @noble/secp256k1 they call.  Byte arrays are [list byte], hex strings
    are [string], BigInt values are [Z], exceptions are an explicit
    [completion], and the console is a list of lines threaded through
    every script.  The registry, a plain object used as a map, and the
    log of announcements make up the [Store] of a [Script]. *)

From Stdlib Require Import ZArith List String Ascii Strings.Byte Bool Lia Zmod.
From Stdlib Require Import DecimalString.
From Bignums Require Import BigZ.
Import ListNotations.

Local Open Scope string_scope.
Local Open Scope Z_scope.

(** ** Byte arrays *)

Definition bytes := list byte.

Definition byteZ (b : byte) : Z := Z.of_N (Byte.to_N b).

Definition Zbyte (z : Z) : byte :=
  match Byte.of_N (Z.to_N (z mod 256)) with
  | Some b => b
  | None => x00
  end.

Definition stepBE (acc : Z) (b : byte) : Z := acc * 256 + byteZ b.

(** Big-endian value of a byte array (noble's [bytesToNumberBE]). *)
Definition bytesToNumberBE (bs : bytes) : Z := fold_left stepBE bs 0.

(** Big-endian encoding on [len] bytes (noble's [numberToBytesBE]). *)
Fixpoint numberToBytesBE (len : nat) (z : Z) : bytes :=
  match len with
  | O => []
  | S k => (numberToBytesBE k (z / 256) ++ [Zbyte z])%list
  end.

(** ** Exceptions and completions *)

Inductive Error :=
| InvalidHex          (* viem / noble hexToBytes: a character that is no hex digit *)
| SyntaxError         (* BigInt(string) on a string that is no integer literal *)
| InvalidPrivateKey   (* noble: secret key not 32 bytes, or not in [1, n-1] *)
| InvalidPoint        (* noble Point.fromHex / fromBytes: no point of the curve *)
| BadPoint.           (* noble Point.toBytes / toHex on a point it refuses *)

Inductive completion (A : Type) :=
| Normal (a : A)
| Throw (e : Error).
Arguments Normal {A} a.
Arguments Throw {A} e.

Definition cbind {A B} (c : completion A) (f : A -> completion B) : completion B :=
  match c with
  | Normal a => f a
  | Throw e => Throw e
  end.

Definition orThrow {A} (e : Error) (o : option A) : completion A :=
  match o with
  | Some a => Normal a
  | None => Throw e
  end.

(** ** JavaScript strings and numbers *)

Module JS.

(** The value of a view tag at run time: a number, [undefined] (an index
    past the end of a typed array) or [NaN] (a failed [parseInt]). *)
Inductive number :=
| Num (z : Z)
| Undefined
| NaN.

(** [a === b] *)
Definition strictEq (a b : number) : bool :=
  match a, b with
  | Num x, Num y => Z.eqb x y
  | Undefined, Undefined => true
  | _, _ => false
  end.

Fixpoint drop (k : nat) (s : string) : string :=
  match k, s with
  | O, _ => s
  | S k', String _ r => drop k' r
  | S _, EmptyString => EmptyString
  end.

Fixpoint take (k : nat) (s : string) : string :=
  match k, s with
  | O, _ => EmptyString
  | S k', String c r => String c (take k' r)
  | S _, EmptyString => EmptyString
  end.

(** [s.slice(a)] and [s.substring(a)], for [a >= 0]. *)
Definition sliceFrom (a : nat) (s : string) : string := drop a s.

(** [s.slice(-k)], for [k > 0]. *)
Definition sliceLast (k : nat) (s : string) : string :=
  drop (String.length s - k) s.

(** [s.slice(a, b)], for [0 <= a <= b]. *)
Definition slice (a b : nat) (s : string) : string := take (b - a) (drop a s).

Definition lowerChar (c : ascii) : ascii :=
  let n := nat_of_ascii c in
  if (65 <=? n)%nat && (n <=? 90)%nat then ascii_of_nat (n + 32) else c.

Definition upperChar (c : ascii) : ascii :=
  let n := nat_of_ascii c in
  if (97 <=? n)%nat && (n <=? 122)%nat then ascii_of_nat (n - 32) else c.

Fixpoint toLowerCase (s : string) : string :=
  match s with
  | EmptyString => EmptyString
  | String c r => String (lowerChar c) (toLowerCase r)
  end.

Fixpoint repeatChar (c : ascii) (k : nat) : string :=
  match k with
  | O => EmptyString
  | S k' => String c (repeatChar c k')
  end.

(** [s.padStart(len, c)] with a one-character filler. *)
Definition padStart (len : nat) (c : ascii) (s : string) : string :=
  repeatChar c (len - String.length s) ++ s.

(** The digit of value [d] in ["0123456789abcdef"]. *)
Definition hexDigit (d : Z) : ascii :=
  if d <? 10 then ascii_of_N (Z.to_N (48 + d)) else ascii_of_N (Z.to_N (87 + d)).

(** The value of a hex digit, in either case. *)
Definition digitValue (c : ascii) : option Z :=
  let n := Z.of_N (N_of_ascii c) in
  if (48 <=? n) && (n <=? 57) then Some (n - 48)
  else if (65 <=? n) && (n <=? 70) then Some (n - 55)
  else if (97 <=? n) && (n <=? 102) then Some (n - 87)
  else None.

(** Hex digits of a positive number, most significant first. *)
Fixpoint posDigits (fuel : nat) (z : Z) (acc : string) : string :=
  match fuel with
  | O => acc
  | S k =>
      if z <? 16 then String (hexDigit z) acc
      else posDigits k (z / 16) (String (hexDigit (z mod 16)) acc)
  end.

(** [z.toString(16)] on a BigInt. *)
Definition toString16 (z : Z) : string :=
  if z <? 0 then String "-" (posDigits (Z.to_nat (Z.log2 (- z)) + 1) (- z) EmptyString)
  else posDigits (Z.to_nat (Z.log2 z) + 1) z EmptyString.

(** Value of a string of hex digits; [None] when a character is no digit. *)
Fixpoint hexValue (s : string) (acc : Z) : option Z :=
  match s with
  | EmptyString => Some acc
  | String c r =>
      match digitValue c with
      | Some d => hexValue r (acc * 16 + d)
      | None => None
      end
  end.

(** [BigInt(s)] on the hexadecimal literals the scripts pass it
    (["0x"] or ["0X"] followed by at least one digit); any other string
    is reported as the [SyntaxError] of a malformed literal. *)
Definition BigInt (s : string) : completion Z :=
  match s with
  | String "0" (String x (String c r)) =>
      if (Ascii.eqb x "x" || Ascii.eqb x "X")%bool
      then orThrow SyntaxError (hexValue (String c r) 0)
      else Throw SyntaxError
  | _ => Throw SyntaxError
  end.

Definition isWhiteSpace (c : ascii) : bool :=
  let n := nat_of_ascii c in
  ((9 <=? n)%nat && (n <=? 13)%nat) || (n =? 32)%nat.

Fixpoint trimStart (s : string) : string :=
  match s with
  | String c r => if isWhiteSpace c then trimStart r else s
  | EmptyString => EmptyString
  end.

(** Longest prefix of hex digits: its value, and whether it is non-empty. *)
Fixpoint hexPrefix (s : string) (acc : Z) (seen : bool) : Z * bool :=
  match s with
  | String c r =>
      match digitValue c with
      | Some d => hexPrefix r (acc * 16 + d) true
      | None => (acc, seen)
      end
  | EmptyString => (acc, seen)
  end.

Definition stripSign (s : string) : bool * string :=
  match s with
  | String "-" r => (true, r)
  | String "+" r => (false, r)
  | _ => (false, s)
  end.

Definition strip0x (s : string) : string :=
  match s with
  | String "0" (String x r) =>
      if (Ascii.eqb x "x" || Ascii.eqb x "X")%bool then r else s
  | _ => s
  end.

(** [parseInt(s, 16)] *)
Definition parseInt16 (s : string) : number :=
  let '(neg, s1) := stripSign (trimStart s) in
  let '(v, seen) := hexPrefix (strip0x s1) 0 false in
  if seen then Num (if neg then - v else v) else NaN.

(** [arr[0]] on a Uint8Array. *)
Definition index0 (bs : bytes) : number :=
  match bs with
  | b :: _ => Num (byteZ b)
  | [] => Undefined
  end.

End JS.

(** ** The curve and the hash, as the libraries provide them

    [@noble/secp256k1] supplies the group of the curve and the SEC1 point
    encodings, [@noble/hashes] (through viem) supplies Keccak-256.  Their
    operations are the fields of [Crypto]; what the proofs use of them is
    stated separately in [CryptoLaws]. *)

(** The order of the generator: the script's own constant, and noble's. *)
Definition CURVE_ORDER : Z :=
  0xFFFFFFFFFFFFFFFFFFFFFFFFFFFFFFFEBAAEDCE6AF48A03BBFD25E8CD0364141.

Definition SCHEME_ID : Z := 1.

Class Crypto := {
  Point : Type;
  ZERO : Point;                          (* Point.ZERO, the identity *)
  G : Point;                             (* Point.BASE *)
  add : Point -> Point -> Point;         (* p.add(q) *)
  multiply : Point -> Z -> Point;        (* p.multiply(k) *)
  toBytes : Point -> bool -> option bytes;  (* p.toBytes(isCompressed); None = it throws *)
  fromBytes : bytes -> option Point;     (* Point.fromBytes(b); None = it throws *)
  keccak_256 : bytes -> bytes            (* the raw 32-byte digest *)
}.

Class CryptoLaws (C : Crypto) : Prop := {
  add_assoc : forall P Q R : Point, add P (add Q R) = add (add P Q) R;
  add_comm : forall P Q : Point, add P Q = add Q P;
  add_ZERO_l : forall P : Point, add ZERO P = P;
  multiply_0 : forall P : Point, multiply P 0 = ZERO;
  multiply_succ : forall (P : Point) k, 0 <= k -> multiply P (k + 1) = add P (multiply P k);
  G_order : multiply G CURVE_ORDER = ZERO;
  G_minimal : forall k, 0 < k < CURVE_ORDER -> multiply G k <> ZERO;
  toBytes_defined : forall (P : Point) c, P <> ZERO -> toBytes P c <> None;
  fromBytes_toBytes : forall (P : Point) c bs, toBytes P c = Some bs -> fromBytes bs = Some P;
  keccak_256_length : forall bs, List.length (keccak_256 bs) = 32%nat
}.

(** [Point.toBytes] validates the point before encoding it, so the identity
    has no encoding (the behaviour of @noble/secp256k1 from version 3 on;
    earlier versions encode it as the all-zero coordinates). *)
Definition EncoderValidates (C : Crypto) : Prop :=
  forall c, toBytes ZERO c = None.

(** ** viem *)

Module Viem.

(** [hexes[b]]: the two lower-case hex digits of a byte. *)
Definition hexes (b : byte) : string :=
  String (JS.hexDigit (byteZ b / 16))
    (String (JS.hexDigit (byteZ b mod 16)) EmptyString).

(** The hex digits of a byte array, without prefix. *)
Fixpoint hexOfBytes (bs : bytes) : string :=
  match bs with
  | [] => EmptyString
  | b :: r => hexes b ++ hexOfBytes r
  end.

Definition bytesToHex (bs : bytes) : string := "0x" ++ hexOfBytes bs.

(** Pairs of hex digits to bytes; throws on a character that is no hex
    digit and on a dangling digit. *)
Fixpoint hexPairs (s : string) : completion bytes :=
  match s with
  | EmptyString => Normal []
  | String _ EmptyString => Throw InvalidHex
  | String a (String b r) =>
      match JS.digitValue a, JS.digitValue b with
      | Some l, Some h => cbind (hexPairs r) (fun bs => Normal (Zbyte (l * 16 + h) :: bs))
      | _, _ => Throw InvalidHex
      end
  end.

Definition hexToBytes (hex : string) : completion bytes :=
  let hexString := JS.sliceFrom 2 hex in
  hexPairs (if Nat.odd (String.length hexString) then String "0" hexString else hexString).

Section Hash.
Context {C : Crypto}.

(** [keccak256(bytes)], returning a hex string. *)
Definition keccak256 (value : bytes) : string := bytesToHex (keccak_256 value).

(** [keccak256(hex)]: a hex string is converted to bytes first. *)
Definition keccak256Hex (value : string) : completion string :=
  cbind (hexToBytes value) (fun bs => Normal (keccak256 bs)).

Definition nibbles (bs : bytes) : list Z :=
  flat_map (fun b => [byteZ b / 16; byteZ b mod 16]) bs.

Fixpoint applyCase (ns : list Z) (address : string) : string :=
  match address, ns with
  | String c r, n :: ns' =>
      String (if 8 <=? n then JS.upperChar c else c) (applyCase ns' r)
  | _, _ => address
  end.

(** EIP-55: a digit of the address is upper-cased when the matching
    nibble of the hash of the lower-case address is 8 or more. *)
Definition checksumAddress (address_ : string) : string :=
  let hexAddress := JS.toLowerCase (JS.sliceFrom 2 address_) in
  let hash := keccak_256 (list_byte_of_string hexAddress) in
  "0x" ++ applyCase (firstn 40 (nibbles hash)) hexAddress.

Definition publicKeyToAddress (publicKey : string) : completion string :=
  cbind (keccak256Hex ("0x" ++ JS.sliceFrom 4 publicKey)) (fun h =>
  Normal (checksumAddress ("0x" ++ JS.sliceFrom 26 h))).
End Hash.

End Viem.

(** ** @noble/secp256k1 *)

Module Noble.
Section Noble.
Context {C : Crypto}.

(** A secret key is 32 bytes whose big-endian value lies in [1, n-1]. *)
Definition secretKeyToScalar (secretKey : bytes) : completion Z :=
  if (List.length secretKey =? 32)%nat then
    let k := bytesToNumberBE secretKey in
    if (0 <? k) && (k <? CURVE_ORDER) then Normal k else Throw InvalidPrivateKey
  else Throw InvalidPrivateKey.

Definition getPublicKey (secretKey : bytes) (isCompressed : bool) : completion bytes :=
  cbind (secretKeyToScalar secretKey) (fun k =>
  orThrow BadPoint (toBytes (multiply G k) isCompressed)).

Definition getSharedSecret (secretKeyA publicKeyB : bytes) (isCompressed : bool)
  : completion bytes :=
  cbind (orThrow InvalidPoint (fromBytes publicKeyB)) (fun B =>
  cbind (secretKeyToScalar secretKeyA) (fun k =>
  orThrow BadPoint (toBytes (multiply B k) isCompressed))).

(** [Point.fromHex(hex)], on hex digits without prefix. *)
Definition fromHex (hex : string) : completion Point :=
  cbind (Viem.hexPairs hex) (fun bs => orThrow InvalidPoint (fromBytes bs)).

(** [p.toHex(isCompressed)], hex digits without prefix. *)
Definition toHex (p : Point) (isCompressed : bool) : completion string :=
  cbind (orThrow BadPoint (toBytes p isCompressed)) (fun bs =>
  Normal (Viem.hexOfBytes bs)).
End Noble.
End Noble.

Module ViemAccounts.
Section Accounts.
Context {C : Crypto}.

(** [privateKeyToAddress(privateKey)]: the key, 64 hex digits after the
    prefix, goes to the curve library; the uncompressed public key is
    hashed and the address check-summed. *)
Definition privateKeyToAddress (privateKey : string) : completion string :=
  let key := JS.sliceFrom 2 privateKey in
  if (String.length key =? 64)%nat then
    cbind (Viem.hexPairs key) (fun sk =>
    cbind (Noble.getPublicKey sk false) (fun publicKey =>
    Viem.publicKeyToAddress (Viem.bytesToHex publicKey)))
  else Throw InvalidPrivateKey.
End Accounts.
End ViemAccounts.

(** ** The console, and scripts that write to it

    A script threads the console, the list of lines written so far, and
    ends with a value or with an exception thrown by a library call. *)

Inductive Value :=
| Str (s : string)
| Number (n : JS.number).

Inductive Console :=
| log (args : list Value)        (* console.log(...) *)
| error (args : list Value).     (* console.error(...) *)

Definition IO (A : Type) : Type := list Console -> list Console * completion A.

Definition ret {A} (a : A) : IO A := fun out => (out, Normal a).

Definition bind {A B} (m : IO A) (f : A -> IO B) : IO B :=
  fun out =>
    match m out with
    | (out1, Normal a) => f a out1
    | (out1, Throw e) => (out1, Throw e)
    end.

(** A library call: writes nothing, may throw. *)
Definition call {A} (c : completion A) : IO A := fun out => (out, c).

Definition console_log (args : list Value) : IO unit :=
  fun out => ((out ++ [log args])%list, Normal tt).

Definition console_error (args : list Value) : IO unit :=
  fun out => ((out ++ [error args])%list, Normal tt).

(** [await sleep(ms)]: the walkthroughs pause between steps; a pause
    writes nothing and computes nothing. *)
Definition sleep (ms : Z) : IO unit := ret tt.

Notation "x <- m ;; k" := (bind m (fun x => k))
  (at level 61, m at next level, right associativity).
Notation "m ;;; k" := (bind m (fun _ => k))
  (at level 61, right associativity).

(** A run from an empty console: what was written, and how it ended. *)
Definition run {A} (m : IO A) : list Console * completion A := m [].
Definition output {A} (m : IO A) : list Console := fst (run m).
Definition result {A} (m : IO A) : completion A := snd (run m).

(** The line feed of ["\n"]. *)
Definition nl : string := String (ascii_of_nat 10) EmptyString.

(** [`${n}`] for a number. *)
Definition numberToString (n : JS.number) : string :=
  match n with
  | JS.Num z => NilZero.string_of_int (Z.to_int z)
  | JS.Undefined => "undefined"
  | JS.NaN => "NaN"
  end.

(** The random bytes [crypto.getRandomValues] writes into a typed array:
    [random i] is the byte that lands at index [i]. *)
Definition Entropy := nat -> byte.

Definition getRandomValues (random : Entropy) (len : nat) : bytes :=
  map random (seq 0 len).

Record MetaAddress := {
  spendingPubKey : string;
  viewingPubKey : string
}.

(** The [recipientKeys] object; its fields [spendingPubKey] and
    [viewingPubKey] carry the prefix [recipient] here, the plain names
    being those of [MetaAddress]. *)
Record RecipientKeys := {
  spendingPrivKey : string;
  viewingPrivKey : string;
  recipientSpendingPubKey : string;
  recipientViewingPubKey : string
}.

(** ** src/scripts/test-stealth-address.ts *)

Module TestStealthAddress.
Section Script.
Context {C : Crypto}.

Definition generatePrivateKey (random : Entropy) : string :=
  Viem.bytesToHex (getRandomValues random 32).

Definition getPublicKey (privateKey : string) : completion string :=
  cbind (Viem.hexToBytes privateKey) (fun sk =>
  cbind (Noble.getPublicKey sk true) (fun pubKey =>
  Normal (Viem.bytesToHex pubKey))).

Definition computeSharedSecret (privateKey publicKey : string) : completion string :=
  cbind (Viem.hexToBytes privateKey) (fun sk =>
  cbind (Viem.hexToBytes publicKey) (fun pk =>
  cbind (Noble.getSharedSecret sk pk true) (fun sharedSecret =>
  Normal (Viem.bytesToHex sharedSecret)))).

(** What the sender returns. *)
Record Generated := {
  stealthAddress : string;
  ephemeralPubKey : string;
  viewTag : JS.number;
  ciphertext : string
}.

(** What the recipient is handed. *)
Record Announcement := {
  annEphemeralPubKey : string;
  annViewTag : JS.number;
  annStealthAddress : string
}.

Definition generateStealthAddress (random : Entropy) (recipientMetaAddress : MetaAddress)
  : IO Generated :=
  console_log [Str (nl ++ "--- Sender: Generating Stealth Address ---")] ;;;
  (* 1. Generate Ephemeral Key Pair *)
  let ephemeralPrivKey := generatePrivateKey random in
  ephemeralPubKey <- call (getPublicKey ephemeralPrivKey) ;;
  console_log [Str "Sender Ephemeral PubKey:"; Str ephemeralPubKey] ;;;
  (* 2. Compute Shared Secret (using Viewing Key) *)
  sharedSecret <- call (computeSharedSecret ephemeralPrivKey
                          (viewingPubKey recipientMetaAddress)) ;;
  console_log [Str "Shared Secret (Sender):"; Str sharedSecret] ;;;
  (* 3. Compute View Tag *)
  sharedSecretBytes <- call (Viem.hexToBytes sharedSecret) ;;
  let hashedSharedSecret := Viem.keccak256 sharedSecretBytes in
  hashedBytes <- call (Viem.hexToBytes hashedSharedSecret) ;;
  let viewTag := JS.index0 hashedBytes in
  console_log [Str "View Tag:"; Number viewTag] ;;;
  (* 4. Derive Stealth Public Key: P_stealth = P_spending + s * G *)
  s_scalar <- call (Viem.hexToBytes hashedSharedSecret) ;;
  let p_spending_hex := JS.sliceFrom 2 (spendingPubKey recipientMetaAddress) in
  p_spending_point <- call (Noble.fromHex p_spending_hex) ;;
  s_G_pubKey <- call (Noble.getPublicKey s_scalar true) ;;
  let s_G_hex := JS.sliceFrom 2 (Viem.bytesToHex s_G_pubKey) in
  s_G_point <- call (Noble.fromHex s_G_hex) ;;
  let p_stealth_point := add p_spending_point s_G_point in
  stealthPubKey <- call (Noble.toHex p_stealth_point true) ;;
  (* 5. Convert to Ethereum Address *)
  uncompressedPubKey <- call (Noble.toHex p_stealth_point false) ;;
  uncompressedBytes <- call (Viem.hexToBytes ("0x" ++ uncompressedPubKey)) ;;
  let pubKeyBytes := tl uncompressedBytes in
  let addressHash := Viem.keccak256 pubKeyBytes in
  let stealthAddress := "0x" ++ JS.sliceLast 40 addressHash in
  console_log [Str "Generated Stealth Address:"; Str stealthAddress] ;;;
  ret {| stealthAddress := stealthAddress;
         ephemeralPubKey := ephemeralPubKey;
         viewTag := viewTag;
         ciphertext := "0x..." |}.

(** [(d_spending + s_scalar) % CURVE_ORDER] on BigInt values; [%] is
    the remainder of the truncating division. *)
Definition d_stealth_big (d_spending s_scalar : Z) : Z :=
  Z.rem (d_spending + s_scalar) CURVE_ORDER.

Definition scanAndRecover (announcement : Announcement) (recipientKeys : RecipientKeys)
  : IO unit :=
  console_log [Str (nl ++ "--- Recipient: Scanning & Recovering ---")] ;;;
  (* 1. Check View Tag *)
  sharedSecret <- call (computeSharedSecret (viewingPrivKey recipientKeys)
                          (annEphemeralPubKey announcement)) ;;
  sharedSecretBytes <- call (Viem.hexToBytes sharedSecret) ;;
  let hashedSharedSecret := Viem.keccak256 sharedSecretBytes in
  hashedBytes <- call (Viem.hexToBytes hashedSharedSecret) ;;
  let calculatedViewTag := JS.index0 hashedBytes in
  console_log [Str "Calculated View Tag:"; Number calculatedViewTag] ;;;
  if negb (JS.strictEq calculatedViewTag (annViewTag announcement)) then
    console_log [Str "View Tag Mismatch! Not for us."] ;;;
    ret tt
  else
    console_log [Str "View Tag Match! Proceeding to recover..."] ;;;
    (* 2. Derive Stealth Private Key: d_stealth = d_spending + s *)
    s_scalar <- call (JS.BigInt hashedSharedSecret) ;;
    d_spending <- call (JS.BigInt (spendingPrivKey recipientKeys)) ;;
    let d_stealth :=
      "0x" ++ JS.padStart 64 "0" (JS.toString16 (d_stealth_big d_spending s_scalar)) in
    console_log [Str "Derived Stealth Private Key:"; Str d_stealth] ;;;
    (* 3. Verify Address *)
    derivedAddress <- call (ViemAccounts.privateKeyToAddress d_stealth) ;;
    console_log [Str "Derived Stealth Address:"; Str derivedAddress] ;;;
    if String.eqb (JS.toLowerCase derivedAddress)
                  (JS.toLowerCase (annStealthAddress announcement))
    then console_log
           [Str "SUCCESS: Stealth Address Verified and Private Key Recovered!"]
    else console_error
           [Str "FAILURE: Derived address does not match announcement."].

(** The object literal [main] passes from the sender to the recipient. *)
Definition announcementOf (g : Generated) : Announcement :=
  {| annEphemeralPubKey := ephemeralPubKey g;
     annViewTag := viewTag g;
     annStealthAddress := stealthAddress g |}.

(** [main]: the recipient's two keys, the sender's run, the recipient's
    scan.  An exception ends [main]; the script prints it with
    [console.error]. *)
Definition main (random1 random2 random3 : Entropy) : IO unit :=
  console_log [Str ("=== ERC-5564 Stealth Address Simulation ===" ++ nl)] ;;;
  (* 1. Setup Recipient Keys *)
  let spendingPrivKey := generatePrivateKey random1 in
  let viewingPrivKey := generatePrivateKey random2 in
  spendingPubKey <- call (getPublicKey spendingPrivKey) ;;
  viewingPubKey <- call (getPublicKey viewingPrivKey) ;;
  let recipientKeys :=
    {| spendingPrivKey := spendingPrivKey;
       viewingPrivKey := viewingPrivKey;
       recipientSpendingPubKey := spendingPubKey;
       recipientViewingPubKey := viewingPubKey |} in
  console_log [Str "Recipient Meta-Address:"] ;;;
  console_log [Str ("  Spending PubKey: " ++ spendingPubKey)] ;;;
  console_log [Str ("  Viewing PubKey:  " ++ viewingPubKey)] ;;;
  (* 2. Sender Generates Stealth Address *)
  announcementData <- generateStealthAddress random3
                        {| spendingPubKey := spendingPubKey;
                           viewingPubKey := viewingPubKey |} ;;
  (* 3. Recipient Scans and Recovers *)
  scanAndRecover (announcementOf announcementData) recipientKeys.

End Script.
End TestStealthAddress.

(** ** Keccak-256, as computed by @noble/hashes

    The sponge over Keccak-f[1600]: rate 136 bytes, the padding
    [0x01 .. 0x80] of the original Keccak, 32 bytes of output.  The state is
    the list of the 25 lanes, lane (x, y) at index [x + 5 y]. *)

Module Keccak.

Definition mask64 : Z := 0xFFFFFFFFFFFFFFFF.

Definition rotl (x n : Z) : Z :=
  Z.land (Z.lor (Z.shiftl x n) (Z.shiftr x (64 - n))) mask64.

Definition RC : list Z :=
  [0x0000000000000001; 0x0000000000008082; 0x800000000000808A; 0x8000000080008000;
   0x000000000000808B; 0x0000000080000001; 0x8000000080008081; 0x8000000000008009;
   0x000000000000008A; 0x0000000000000088; 0x0000000080008009; 0x000000008000000A;
   0x000000008000808B; 0x800000000000008B; 0x8000000000008089; 0x8000000000008003;
   0x8000000000008002; 0x8000000000000080; 0x000000000000800A; 0x800000008000000A;
   0x8000000080008081; 0x8000000000008080; 0x0000000080000001; 0x8000000080008008].

(** Rotation offset of the lane at index [x + 5 y]. *)
Definition rho : list Z :=
  [ 0;  1; 62; 28; 27;
   36; 44;  6; 55; 20;
    3; 10; 43; 25; 39;
   41; 45; 15; 21;  8;
   18;  2; 61; 56; 14].

Definition lane (st : list Z) (x y : nat) : Z :=
  nth (x mod 5 + 5 * (y mod 5)) st 0.

Definition lanes (f : nat -> nat -> Z) : list Z :=
  map (fun i => f (i mod 5)%nat (i / 5)%nat) (seq 0 25).

Definition theta (st : list Z) : list Z :=
  let c x := Z.lxor (lane st x 0) (Z.lxor (lane st x 1) (Z.lxor (lane st x 2)
               (Z.lxor (lane st x 3) (lane st x 4)))) in
  let cs := map c (seq 0 5) in
  let d x := Z.lxor (nth ((x + 4) mod 5) cs 0) (rotl (nth ((x + 1) mod 5) cs 0) 1) in
  let ds := map d (seq 0 5) in
  lanes (fun x y => Z.lxor (lane st x y) (nth x ds 0)).

Definition rhoPi (st : list Z) : list Z :=
  lanes (fun x y =>
    let x0 := ((x + 3 * y) mod 5)%nat in
    rotl (lane st x0 x) (nth (x0 + 5 * x) rho 0)).

Definition chi (st : list Z) : list Z :=
  lanes (fun x y =>
    Z.lxor (lane st x y)
      (Z.land (Z.lxor (lane st (x + 1) y) mask64) (lane st (x + 2) y))).

Definition iota (rc : Z) (st : list Z) : list Z :=
  match st with
  | a :: r => Z.lxor a rc :: r
  | [] => []
  end.

Definition round (st : list Z) (rc : Z) : list Z :=
  iota rc (chi (rhoPi (theta st))).

Definition keccakF (st : list Z) : list Z := fold_left round RC st.

Definition rate : nat := 136.

(** Lanes are little-endian. *)
Definition laneOfBytes (bs : bytes) : Z := bytesToNumberBE (rev bs).
Definition bytesOfLane (z : Z) : bytes := rev (numberToBytesBE 8 z).

Fixpoint chunks (fuel k : nat) (bs : bytes) : list bytes :=
  match fuel with
  | O => []
  | S f =>
      match bs with
      | [] => []
      | _ => firstn k bs :: chunks f k (skipn k bs)
      end
  end.

Definition pad (msg : bytes) : bytes :=
  let q := (rate - List.length msg mod rate)%nat in
  if (q =? 1)%nat then (msg ++ [x81])%list
  else (msg ++ x01 :: repeat x00 (q - 2) ++ [x80])%list.

Definition absorb (st : list Z) (block : bytes) : list Z :=
  let ls := map laneOfBytes (chunks 17 8 block) in
  keccakF (map (fun i => Z.lxor (nth i st 0) (nth i ls 0)) (seq 0 25)).

Definition keccak_256 (msg : bytes) : bytes :=
  let padded := pad msg in
  let st := fold_left absorb (chunks (List.length padded) rate padded) (repeat 0 25) in
  flat_map (fun i => bytesOfLane (nth i st 0)) (seq 0 4).

End Keccak.

(** ** The curve secp256k1, as computed by @noble/secp256k1

    y^2 = x^3 + 7 over the field of [P] elements.  Points are affine, the
    arithmetic runs in Jacobian coordinates on machine-word integers. *)

Module Secp256k1.

Definition P : Z := 0xFFFFFFFFFFFFFFFFFFFFFFFFFFFFFFFFFFFFFFFFFFFFFFFFFFFFFFFEFFFFFC2F.
Definition Gx : Z := 0x79BE667EF9DCBBAC55A06295CE870B07029BFCDB2DCE28D959F2815B16F81798.
Definition Gy : Z := 0x483ADA7726A3C4655DA4FBFC0E1108A8FD17B448A68554199C47D08FFB10D4B8.

Inductive point :=
| Infinity
| Affine (x y : Z).

Definition p : bigZ := BigZ.of_Z P.
Definition fmul (a b : bigZ) : bigZ := BigZ.modulo (BigZ.mul a b) p.
Definition fsub (a b : bigZ) : bigZ := BigZ.modulo (BigZ.sub a b) p.
Definition small (k : Z) : bigZ := BigZ.of_Z k.

Fixpoint powPos (b : bigZ) (e : positive) : bigZ :=
  match e with
  | xH => BigZ.modulo b p
  | xO e' => let r := powPos b e' in fmul r r
  | xI e' => let r := powPos b e' in fmul (fmul r r) b
  end.

Definition pow (b : bigZ) (e : Z) : bigZ :=
  match e with
  | Zpos e' => powPos b e'
  | _ => small 1
  end.

Definition invert (a : bigZ) : bigZ := pow a (P - 2).
Definition sqrt (a : bigZ) : bigZ := pow a ((P + 1) / 4).

(** Jacobian coordinates (X, Y, Z); Z = 0 is the identity. *)
Definition jac := (bigZ * bigZ * bigZ)%type.
Definition zeroJ : jac := (small 0, small 1, small 0).

Definition toJac (q : point) : jac :=
  match q with
  | Infinity => zeroJ
  | Affine x y => (BigZ.of_Z x, BigZ.of_Z y, small 1)
  end.

Definition toAffine (j : jac) : point :=
  let '(x, y, z) := j in
  if BigZ.eqb z (small 0) then Infinity
  else
    let iz := invert z in
    let iz2 := fmul iz iz in
    Affine (BigZ.to_Z (fmul x iz2)) (BigZ.to_Z (fmul y (fmul iz2 iz))).

Definition double (j : jac) : jac :=
  let '(x, y, z) := j in
  if BigZ.eqb z (small 0) || BigZ.eqb y (small 0) then zeroJ
  else
    let yy := fmul y y in
    let s := fmul (small 4) (fmul x yy) in
    let m := fmul (small 3) (fmul x x) in
    let x' := fsub (fmul m m) (BigZ.mul (small 2) s) in
    let y' := fsub (fmul m (fsub s x')) (BigZ.mul (small 8) (fmul yy yy)) in
    (x', y', fmul (small 2) (fmul y z)).

Definition addJ (a b : jac) : jac :=
  let '(x1, y1, z1) := a in
  let '(x2, y2, z2) := b in
  if BigZ.eqb z1 (small 0) then b
  else if BigZ.eqb z2 (small 0) then a
  else
    let z1z1 := fmul z1 z1 in
    let z2z2 := fmul z2 z2 in
    let u1 := fmul x1 z2z2 in
    let u2 := fmul x2 z1z1 in
    let s1 := fmul y1 (fmul z2 z2z2) in
    let s2 := fmul y2 (fmul z1 z1z1) in
    if BigZ.eqb u1 u2 then (if BigZ.eqb s1 s2 then double a else zeroJ)
    else
      let h := fsub u2 u1 in
      let r := fsub s2 s1 in
      let hh := fmul h h in
      let hhh := fmul h hh in
      let v := fmul u1 hh in
      let x3 := fsub (fsub (fmul r r) hhh) (BigZ.mul (small 2) v) in
      let y3 := fsub (fmul r (fsub v x3)) (fmul s1 hhh) in
      (x3, y3, fmul h (fmul z1 z2)).

Fixpoint mulPos (j : jac) (k : positive) : jac :=
  match k with
  | xH => j
  | xO k' => double (mulPos j k')
  | xI k' => addJ (double (mulPos j k')) j
  end.

Definition add (a b : point) : point := toAffine (addJ (toJac a) (toJac b)).

Definition multiply (a : point) (k : Z) : point :=
  match k with
  | Zpos k' => toAffine (mulPos (toJac a) k')
  | _ => Infinity
  end.

Definition G : point := Affine Gx Gy.

Definition isFieldElement (x : Z) : bool := (0 <? x) && (x <? P).

Definition onCurve (x y : Z) : bool :=
  BigZ.eqb (fmul (BigZ.of_Z y) (BigZ.of_Z y))
           (BigZ.modulo (BigZ.add (fmul (BigZ.of_Z x) (fmul (BigZ.of_Z x) (BigZ.of_Z x)))
                                  (small 7)) p).

(** SEC1: [02|03 x] compressed, [04 x y] uncompressed; the identity is
    refused. *)
Definition toBytes (q : point) (isCompressed : bool) : option bytes :=
  match q with
  | Infinity => None
  | Affine x y =>
      Some (if isCompressed
            then (if Z.even y then x02 else x03) :: numberToBytesBE 32 x
            else x04 :: (numberToBytesBE 32 x ++ numberToBytesBE 32 y)%list)
  end.

Definition liftX (x : Z) (odd : bool) : option point :=
  if isFieldElement x then
    let bx := BigZ.of_Z x in
    let y2 := BigZ.modulo (BigZ.add (fmul bx (fmul bx bx)) (small 7)) p in
    let y := sqrt y2 in
    if BigZ.eqb (fmul y y) y2 then
      let yz := BigZ.to_Z y in
      Some (Affine x (if Bool.eqb (Z.odd yz) odd then yz else P - yz))
    else None
  else None.

Definition fromBytes (bs : bytes) : option point :=
  match bs with
  | head :: tail =>
      if (List.length tail =? 32)%nat && (Byte.eqb head x02 || Byte.eqb head x03) then
        liftX (bytesToNumberBE tail) (Byte.eqb head x03)
      else if (List.length tail =? 64)%nat && Byte.eqb head x04 then
        let x := bytesToNumberBE (firstn 32 tail) in
        let y := bytesToNumberBE (skipn 32 tail) in
        if isFieldElement x && isFieldElement y && onCurve x y
        then Some (Affine x y) else None
      else None
  | [] => None
  end.

End Secp256k1.

(** The libraries as they are: secp256k1 and Keccak-256. *)
Definition Real : Crypto := {|
  Point := Secp256k1.point;
  ZERO := Secp256k1.Infinity;
  G := Secp256k1.G;
  add := Secp256k1.add;
  multiply := Secp256k1.multiply;
  toBytes := Secp256k1.toBytes;
  fromBytes := Secp256k1.fromBytes;
  keccak_256 := Keccak.keccak_256
|}.

(** ** The same group, through discrete logarithms

    secp256k1 is cyclic of order [CURVE_ORDER], so its points correspond to
    the residues modulo [CURVE_ORDER], the point [k G] to the residue [k].
    In this presentation the group laws are theorems of modular arithmetic.
    A point is encoded by its residue on 32 bytes behind the SEC1 header. *)

Module DLog.

Definition point : Type := Zmod CURVE_ORDER.

Definition multiply (a : point) (k : Z) : point :=
  Zmod.of_Z CURVE_ORDER (Zmod.to_Z a * k).

Definition toBytes (a : point) (isCompressed : bool) : option bytes :=
  if Zmod.to_Z a =? 0 then None
  else Some (if isCompressed
             then x02 :: numberToBytesBE 32 (Zmod.to_Z a)
             else x04 :: (numberToBytesBE 32 (Zmod.to_Z a)
                           ++ numberToBytesBE 32 (Zmod.to_Z a))%list).

Definition ofResidue (k : Z) : option point :=
  if (0 <? k) && (k <? CURVE_ORDER) then Some (Zmod.of_Z CURVE_ORDER k) else None.

Definition fromBytes (bs : bytes) : option point :=
  match bs with
  | head :: tail =>
      if (List.length tail =? 32)%nat && Byte.eqb head x02 then
        ofResidue (bytesToNumberBE tail)
      else if (List.length tail =? 64)%nat && Byte.eqb head x04 then
        ofResidue (bytesToNumberBE (firstn 32 tail))
      else None
  | [] => None
  end.

End DLog.

Definition Residues : Crypto := {|
  Point := DLog.point;
  ZERO := Zmod.zero;
  G := Zmod.one;
  add := Zmod.add;
  multiply := DLog.multiply;
  toBytes := DLog.toBytes;
  fromBytes := DLog.fromBytes;
  keccak_256 := Keccak.keccak_256
|}.

(** ** The walkthrough with the registry only

    Its crypto is that of [TestStealthAddress]; it prints the meta-address
    in a colon-separated form. *)

Module Registry.

Definition metaAddressString (recipientMetaAddress : MetaAddress) : string :=
  "st:eth:" ++ spendingPubKey recipientMetaAddress
    ++ ":" ++ viewingPubKey recipientMetaAddress.

End Registry.

(** ** The walkthrough with registry and announcer *)

Module Announcer.

Record Announcement := {
  schemeId : Z;
  stealthAddress : string;
  caller : string;
  ephemeralPubKey : string;
  metadata : string      (* first byte is the view tag, rest is optional data *)
}.

(** The meta-address in its official form: the two keys concatenated
    behind one prefix. *)
Definition metaAddressString (recipientMetaAddress : MetaAddress) : string :=
  "st:eth:0x" ++ JS.sliceFrom 2 (spendingPubKey recipientMetaAddress)
    ++ JS.sliceFrom 2 (viewingPubKey recipientMetaAddress).

Definition rule : string :=
  "==================================================================================".

(** The three characters the source file holds between the brackets of
    the tag-match line. *)
Definition tick : string :=
  string_of_list_byte [xc3; xa2; xc5; x93; xe2; x80; x9c].

Section Script.
Context {C : Crypto}.

Definition computeSharedSecret := @TestStealthAddress.computeSharedSecret C.

Definition scanAndRecover (announcement : Announcement) (recipientKeys : RecipientKeys)
  : IO unit :=
  console_log [Str (nl ++ nl ++ rule)] ;;;
  console_log [Str "                           RECIPIENT SIDE (Scanning & Recovering)                  "] ;;;
  console_log [Str rule] ;;;
  sleep 800 ;;;
  (* Extract viewTag from metadata (first byte per ERC-5564 spec) *)
  let viewTagFromMetadata := JS.parseInt16 (JS.slice 2 4 (metadata announcement)) in
  console_log [Str "Recipient sees an Announcement event on-chain from ERC5564Announcer:"] ;;;
  console_log [Str ("   [Public] schemeId:        "
                    ++ numberToString (JS.Num (schemeId announcement)))] ;;;
  console_log [Str ("   [Public] Ephemeral PubKey: " ++ ephemeralPubKey announcement)] ;;;
  console_log [Str ("   [Public] Stealth Address: " ++ stealthAddress announcement)] ;;;
  console_log [Str ("   [Public] Metadata:        " ++ metadata announcement)] ;;;
  console_log [Str ("   [Parsed] View Tag (byte 0): "
                    ++ numberToString viewTagFromMetadata)] ;;;
  console_log [Str (nl ++ "   [CLARIFICATION] Does Recipient scan every transaction?")] ;;;
  console_log [Str "   YES. The Recipient performs ECDH on EVERY announcement to check the View Tag."] ;;;
  console_log [Str "   - If View Tag doesn't match: STOP (Saves 99.6% of work)."] ;;;
  console_log [Str "   - If View Tag matches: Proceed to full address derivation (The expensive part)."] ;;;
  sleep 2500 ;;;
  (* 1. Check View Tag *)
  console_log [Str (nl ++ "1. Recipient checks 'View Tag' to see if this is for them:")] ;;;
  console_log [Str "   Formula: Recipient_Viewing_PrivKey * Ephemeral_PubKey"] ;;;
  sharedSecret <- call (computeSharedSecret (viewingPrivKey recipientKeys)
                          (ephemeralPubKey announcement)) ;;
  console_log [Str ("   Re-computed Shared Secret (S): " ++ sharedSecret)] ;;;
  sharedSecretBytes <- call (Viem.hexToBytes sharedSecret) ;;
  let hashedSharedSecret := Viem.keccak256 sharedSecretBytes in
  hashedBytes <- call (Viem.hexToBytes hashedSharedSecret) ;;
  let calculatedViewTag := JS.index0 hashedBytes in
  console_log [Str ("   Calculated View Tag: " ++ numberToString calculatedViewTag)] ;;;
  if negb (JS.strictEq calculatedViewTag viewTagFromMetadata) then
    console_log [Str "   [X] View Tag Mismatch! Ignoring transaction."] ;;;
    ret tt
  else
    console_log [Str ("   [" ++ tick ++ "] View Tag Match! This transaction is for us.")] ;;;
    sleep 1500 ;;;
    (* 2. Derive Stealth Private Key *)
    console_log [Str (nl ++ "2. Recipient derives the 'Stealth Private Key' to spend funds:")] ;;;
    console_log [Str "   Formula: Recipient_Spending_PrivKey + Hashed_Secret (mod curve order)"] ;;;
    s_scalar <- call (JS.BigInt hashedSharedSecret) ;;
    d_spending <- call (JS.BigInt (spendingPrivKey recipientKeys)) ;;
    let d_stealth :=
      "0x" ++ JS.padStart 64 "0"
                (JS.toString16 (TestStealthAddress.d_stealth_big d_spending s_scalar)) in
    console_log [Str ("   Recipient Spending PrivKey: " ++ spendingPrivKey recipientKeys)] ;;;
    console_log [Str ("   Hashed Secret (scalar):     " ++ hashedSharedSecret)] ;;;
    console_log [Str "   ------------------------------------------------------------------"] ;;;
    console_log [Str ("   Stealth Private Key:        " ++ d_stealth
                      ++ " (THE KEY TO THE FUNDS)")] ;;;
    sleep 1500 ;;;
    (* 3. Verify Address *)
    derivedAddress <- call (ViemAccounts.privateKeyToAddress d_stealth) ;;
    console_log [Str (nl ++ "3. Verification:")] ;;;
    console_log [Str ("   Derived Address from Key:   " ++ derivedAddress)] ;;;
    console_log [Str ("   Actual Stealth Address:     " ++ stealthAddress announcement)] ;;;
    if String.eqb (JS.toLowerCase derivedAddress)
                  (JS.toLowerCase (stealthAddress announcement))
    then console_log
           [Str (nl ++ "   [SUCCESS] The derived key controls the stealth address!")]
    else console_error
           [Str (nl ++ "   [FAILURE] Something went wrong.")].

End Script.
End Announcer.

(** ** A plain object used as a map

    [MockRegistry] starts as [{}] and is indexed by arbitrary strings.  A
    read [o[key]] finds an own property, or else what the prototype chain
    holds under that name; a write [o[key] = m] creates or replaces an own
    property, except under the name [__proto__], where the setter inherited
    from [Object.prototype] makes [m] the prototype of [o]. *)

Module JSObject.

Record t := {
  own : list (string * MetaAddress);    (* own properties, the latest first *)
  proto : option MetaAddress            (* the object an assignment to [__proto__] has put
                                           between [o] and [Object.prototype] *)
}.

(** [{}] *)
Definition empty : t := {| own := []; proto := None |}.

(** What a read can return. *)
Inductive value :=
| Keys (m : MetaAddress)   (* a stored object [{ spendingPubKey, viewingPubKey }] *)
| Text (s : string)        (* a field of the stored object that has become the prototype *)
| Builtin                  (* a function of [Object.prototype], or [Object.prototype] itself *)
| Undefined.

(** The property names of [Object.prototype]. *)
Definition objectPrototypeNames : list string :=
  ["constructor"; "__defineGetter__"; "__defineSetter__"; "hasOwnProperty";
   "__lookupGetter__"; "__lookupSetter__"; "isPrototypeOf"; "propertyIsEnumerable";
   "toString"; "valueOf"; "__proto__"; "toLocaleString"].

Fixpoint assoc (key : string) (l : list (string * MetaAddress)) : option MetaAddress :=
  match l with
  | [] => None
  | (k, m) :: r => if String.eqb key k then Some m else assoc key r
  end.

(** A read that reaches [Object.prototype]. *)
Definition inherited (key : string) : value :=
  if existsb (String.eqb key) objectPrototypeNames then Builtin else Undefined.

(** [o[key]] *)
Definition get (o : t) (key : string) : value :=
  if String.eqb key "__proto__" then
    match proto o with
    | Some m => Keys m
    | None => Builtin
    end
  else
    match assoc key (own o) with
    | Some m => Keys m
    | None =>
        match proto o with
        | Some m =>
            if String.eqb key "spendingPubKey" then Text (spendingPubKey m)
            else if String.eqb key "viewingPubKey" then Text (viewingPubKey m)
            else inherited key
        | None => inherited key
        end
    end.

(** [o[key] = m] *)
Definition set (o : t) (key : string) (m : MetaAddress) : t :=
  if String.eqb key "__proto__" then {| own := own o; proto := Some m |}
  else {| own := (key, m) :: own o; proto := proto o |}.

(** The value in a condition: objects and functions count as true, a
    string unless it is empty, [undefined] never. *)
Definition truthy (v : value) : bool :=
  match v with
  | Keys _ => true
  | Text s => negb (String.eqb s EmptyString)
  | Builtin => true
  | Undefined => false
  end.

(** [v.spendingPubKey] and [v.viewingPubKey]: the fields of a stored
    object; a string, a function and [Object.prototype] have neither. *)
Definition fields (v : value) : option MetaAddress :=
  match v with
  | Keys m => Some m
  | _ => None
  end.

End JSObject.

(** ** Scripts with a store

    The walkthroughs keep a registry and a log of announcements next to the
    console, and throw errors of their own. *)

Inductive Exception :=
| Library (e : Error)               (* thrown by viem or noble *)
| TypeError                         (* a method called on [undefined] *)
| ErrorMessage (message : string).  (* [new Error(message)] *)

Inductive outcome (A : Type) :=
| Returned (a : A)
| Raised (e : Exception).
Arguments Returned {A} a.
Arguments Raised {A} e.

Record Store := {
  console : list Console;
  MockRegistry : JSObject.t;
  AnnouncementLog : list Announcer.Announcement
}.

Definition Script (A : Type) : Type := Store -> Store * outcome A.

Module Script.

Definition withConsole (st : Store) (out : list Console) : Store :=
  {| console := out;
     MockRegistry := MockRegistry st;
     AnnouncementLog := AnnouncementLog st |}.

(** A computation that neither reads nor writes the store. *)
Definition eval {A} (o : outcome A) : Script A := fun st => (st, o).

Definition ret {A} (a : A) : Script A := fun st => (st, Returned a).

Definition bind {A B} (m : Script A) (f : A -> Script B) : Script B :=
  fun st =>
    match m st with
    | (st1, Returned a) => f a st1
    | (st1, Raised e) => (st1, Raised e)
    end.

Definition throw {A} (e : Exception) : Script A := fun st => (st, Raised e).

(** A script that only writes to the console. *)
Definition lift {A} (m : IO A) : Script A :=
  fun st =>
    let '(out, c) := m (console st) in
    (withConsole st out,
     match c with
     | Normal a => Returned a
     | Throw e => Raised (Library e)
     end).

(** [MockRegistry[identifier]] *)
Definition member (identifier : string) : Script JSObject.value :=
  fun st => (st, Returned (JSObject.get (MockRegistry st) identifier)).

(** [MockRegistry[identifier] = keys] *)
Definition assign (identifier : string) (keys : MetaAddress) : Script unit :=
  fun st =>
    ({| console := console st;
        MockRegistry := JSObject.set (MockRegistry st) identifier keys;
        AnnouncementLog := AnnouncementLog st |},
     Returned tt).

(** [AnnouncementLog.push(announcement)] *)
Definition push (announcement : Announcer.Announcement) : Script unit :=
  fun st =>
    ({| console := console st;
        MockRegistry := MockRegistry st;
        AnnouncementLog := (AnnouncementLog st ++ [announcement])%list |},
     Returned tt).

End Script.

Coercion Script.lift : IO >-> Script.

Declare Scope script_scope.
Notation "x <- m ;; k" := (Script.bind m (fun x => k))
  (at level 61, m at next level, right associativity) : script_scope.
Notation "m ;;; k" := (Script.bind m (fun _ => k))
  (at level 61, right associativity) : script_scope.

(** The store a script starts from: nothing written, [{}], [[]]. *)
Definition initial : Store :=
  {| console := []; MockRegistry := JSObject.empty; AnnouncementLog := [] |}.

(** [n.toString(16)] on a number. *)
Definition numberToString16 (n : JS.number) : outcome string :=
  match n with
  | JS.Num z => Returned (JS.toString16 z)
  | JS.Undefined => Raised TypeError
  | JS.NaN => Returned "NaN"
  end.

(** ** The first draft of the script

    The draft asks viem for the name [secp256k1], and viem exports no such
    name.  Where the import is compiled to a property read (CommonJS) the
    name is bound to [undefined], and the script runs until it reads a
    property of it; an ES module loader refuses the script before its first
    line.  The model is of the first, in which the functions of the script
    run. *)

Module Draft.

(** What [import { secp256k1, ... } from 'viem'] binds the name to. *)
Inductive Binding := undefined.

Definition secp256k1 : Binding := undefined.

(** [object.property], the object being [undefined]: a [TypeError], thrown
    before the arguments of a call are evaluated.  No value comes out of
    the read, so it has every type; each use gives it the type the script
    expects of the property. *)
Definition get {A} (object : Binding) (property : string) : Script A :=
  match object with
  | undefined => Script.throw TypeError
  end.

Section Script.
Context {C : Crypto}.
Local Open Scope script_scope.

Definition generatePrivateKey := TestStealthAddress.generatePrivateKey.

Definition getPublicKey (privateKey : string) : Script string :=
  method <- (get secp256k1 "getPublicKey" : Script (bytes -> bool -> completion bytes)) ;;
  secretKey <- call (Viem.hexToBytes privateKey) ;;
  pubKey <- call (method secretKey true) ;;
  Script.ret (Viem.bytesToHex pubKey).

Definition computeSharedSecret (privateKey publicKey : string) : Script string :=
  method <- (get secp256k1 "getSharedSecret" : Script (bytes -> bytes -> completion bytes)) ;;
  secretKey <- call (Viem.hexToBytes privateKey) ;;
  pointBytes <- call (Viem.hexToBytes publicKey) ;;
  sharedPoint <- call (method secretKey pointBytes) ;;
  let sharedPointBytes := firstn 32 (skipn 1 sharedPoint) in   (* not used *)
  Script.ret (Viem.keccak256 sharedPoint).

(** The sender.  What follows the read of [secp256k1.ProjectivePoint] needs
    a point to work on, and the read gives none. *)
Definition generateStealthAddress (random : Entropy) (recipientMetaAddress : MetaAddress)
  : Script TestStealthAddress.Generated :=
  console_log [Str (nl ++ "--- Sender: Generating Stealth Address ---")] ;;;
  (* 1. Generate Ephemeral Key Pair *)
  let ephemeralPrivKey := generatePrivateKey random in
  ephemeralPubKey <- getPublicKey ephemeralPrivKey ;;
  console_log [Str "Sender Ephemeral PubKey:"; Str ephemeralPubKey] ;;;
  (* 2. Compute Shared Secret (using Viewing Key) *)
  sharedSecret <- computeSharedSecret ephemeralPrivKey
                    (viewingPubKey recipientMetaAddress) ;;
  console_log [Str "Shared Secret (Sender):"; Str sharedSecret] ;;;
  (* 3. Compute View Tag (first byte of shared secret) *)
  tagBytes <- call (Viem.hexToBytes sharedSecret) ;;
  let viewTag := JS.index0 tagBytes in
  console_log [Str "View Tag:"; Number viewTag] ;;;
  (* 4. Derive Stealth Public Key *)
  hashedBytes <- call (Viem.hexToBytes sharedSecret) ;;
  let hashedSharedSecret := Viem.keccak256 (List.concat [hashedBytes]) in   (* not used *)
  scalar <- call (Viem.hexToBytes sharedSecret) ;;                          (* not used *)
  scalarBytes <- call (Viem.hexToBytes sharedSecret) ;;
  let s_scalar := Viem.keccak256 scalarBytes in
  ProjectivePoint <- (get secp256k1 "ProjectivePoint" : Script Empty_set) ;;
  match ProjectivePoint with end.

Definition scanAndRecover (announcement : TestStealthAddress.Announcement)
    (recipientKeys : RecipientKeys) : Script unit :=
  console_log [Str (nl ++ "--- Recipient: Scanning & Recovering ---")] ;;;
  (* 1. Check View Tag (Optimization) *)
  sharedSecret <- computeSharedSecret (viewingPrivKey recipientKeys)
                    (TestStealthAddress.annEphemeralPubKey announcement) ;;
  tagBytes <- call (Viem.hexToBytes sharedSecret) ;;
  let calculatedViewTag := JS.index0 tagBytes in
  console_log [Str "Calculated View Tag:"; Number calculatedViewTag] ;;;
  if negb (JS.strictEq calculatedViewTag (TestStealthAddress.annViewTag announcement)) then
    console_log [Str "View Tag Mismatch! Not for us."] ;;;
    Script.ret tt
  else
    console_log [Str "View Tag Match! Proceeding to recover..."] ;;;
    (* 2. Derive Stealth Private Key *)
    scalarBytes <- call (Viem.hexToBytes sharedSecret) ;;
    let s_scalar := Viem.keccak256 scalarBytes in
    d_spending_big <- call (JS.BigInt (spendingPrivKey recipientKeys)) ;;
    s_scalar_big <- call (JS.BigInt s_scalar) ;;
    let d_stealth :=
      "0x" ++ JS.padStart 64 "0"
                (JS.toString16 (TestStealthAddress.d_stealth_big d_spending_big s_scalar_big)) in
    console_log [Str "Derived Stealth Private Key:"; Str d_stealth] ;;;
    (* 3. Verify Address *)
    derivedAddress <- call (ViemAccounts.privateKeyToAddress d_stealth) ;;
    console_log [Str "Derived Stealth Address:"; Str derivedAddress] ;;;
    if String.eqb (JS.toLowerCase derivedAddress)
                  (JS.toLowerCase (TestStealthAddress.annStealthAddress announcement))
    then console_log
           [Str "SUCCESS: Stealth Address Verified and Private Key Recovered!"]
    else console_error
           [Str "FAILURE: Derived address does not match announcement."].

(** [main]; an exception ends it, and the script prints it with
    [console.error]. *)
Definition main (random1 random2 random3 : Entropy) : Script unit :=
  console_log [Str ("=== ERC-5564 Stealth Address Simulation ===" ++ nl)] ;;;
  (* 1. Setup Recipient Keys (Meta-Address) *)
  let spendingPrivKey := generatePrivateKey random1 in
  let viewingPrivKey := generatePrivateKey random2 in
  spendingPubKey <- getPublicKey spendingPrivKey ;;
  viewingPubKey <- getPublicKey viewingPrivKey ;;
  let recipientKeys :=
    {| spendingPrivKey := spendingPrivKey;
       viewingPrivKey := viewingPrivKey;
       recipientSpendingPubKey := spendingPubKey;
       recipientViewingPubKey := viewingPubKey |} in
  console_log [Str "Recipient Meta-Address:"] ;;;
  console_log [Str ("  Spending PubKey: " ++ spendingPubKey)] ;;;
  console_log [Str ("  Viewing PubKey:  " ++ viewingPubKey)] ;;;
  (* 2. Sender Generates Stealth Address *)
  announcementData <- generateStealthAddress random3
                        {| spendingPubKey := spendingPubKey;
                           viewingPubKey := viewingPubKey |} ;;
  (* 3. Recipient Scans and Recovers *)
  scanAndRecover (TestStealthAddress.announcementOf announcementData) recipientKeys.

End Script.
End Draft.

Module AnnouncerWalkthrough.
Section Script.
Context {C : Crypto}.
Local Open Scope script_scope.

Definition emitAnnouncement (announcement : Announcer.Announcement) : Script unit :=
  console_log [Str (nl ++ "[ERC-5564 Announcer] Emitting Announcement event...")] ;;;
  Script.push announcement ;;;
  sleep 500 ;;;
  console_log [Str "[ERC-5564 Announcer] Announcement emitted!"] ;;;
  console_log [Str ("   schemeId: "
                    ++ numberToString (JS.Num (Announcer.schemeId announcement)))] ;;;
  console_log [Str ("   stealthAddress: " ++ Announcer.stealthAddress announcement)] ;;;
  console_log [Str ("   ephemeralPubKey: " ++ Announcer.ephemeralPubKey announcement)] ;;;
  console_log [Str ("   metadata (viewTag in first byte): "
                    ++ Announcer.metadata announcement)].

Definition registerKeys (identifier spendingPubKey viewingPubKey : string) : Script unit :=
  console_log [Str (nl ++ "[ERC-6538 Registry] Registering keys for '" ++ identifier
                       ++ "'...")] ;;;
  Script.assign identifier (Build_MetaAddress spendingPubKey viewingPubKey) ;;;
  sleep 500 ;;;
  console_log [Str "[ERC-6538 Registry] Keys registered successfully!"].

Definition lookupKeys (identifier : string) : Script JSObject.value :=
  console_log [Str (nl ++ "[ERC-6538 Registry] Looking up keys for '" ++ identifier
                       ++ "'...")] ;;;
  sleep 800 ;;;
  keys <- Script.member identifier ;;
  if negb (JSObject.truthy keys) then
    Script.throw (ErrorMessage "Recipient not found in registry!")
  else
    console_log [Str ("[ERC-6538 Registry] Found Stealth Meta-Address for '" ++ identifier
                        ++ "'")] ;;;
    Script.ret keys.

(** The sender, who looks the recipient up in the registry and announces
    the result. *)
Definition generateStealthAddress (random : Entropy) (recipientIdentifier : string)
  : Script Announcer.Announcement :=
  console_log [Str (nl ++ Announcer.rule)] ;;;
  console_log [Str "                           SENDER SIDE (Generating Address)                        "] ;;;
  console_log [Str Announcer.rule] ;;;
  sleep 800 ;;;
  (* 1. Lookup Recipient Keys (ERC-6538) *)
  console_log [Str ("1. Sender needs Recipient's Meta-Address (for '" ++ recipientIdentifier
                      ++ "'):")] ;;;
  keys <- lookupKeys recipientIdentifier ;;
  (* [keys.spendingPubKey.slice(2)]: the first use of a field of [keys] *)
  match JSObject.fields keys with
  | None => Script.throw TypeError
  | Some recipientMetaAddress =>
  let metaAddressString := Announcer.metaAddressString recipientMetaAddress in
  console_log [Str ("   [String] Full Meta-Address: " ++ metaAddressString)] ;;;
  console_log [Str ("   [Public] Spending Key:      "
                    ++ spendingPubKey recipientMetaAddress)] ;;;
  console_log [Str ("   [Public] Viewing Key:       "
                    ++ viewingPubKey recipientMetaAddress)] ;;;
  sleep 1500 ;;;
  (* 2. Generate Ephemeral Key Pair *)
  let ephemeralPrivKey := TestStealthAddress.generatePrivateKey random in
  ephemeralPubKey <- call (TestStealthAddress.getPublicKey ephemeralPrivKey) ;;
  console_log [Str (nl ++ "2. Sender generates a temporary 'Ephemeral Key Pair':")] ;;;
  console_log [Str ("   [Private] Ephemeral Key: " ++ ephemeralPrivKey
                    ++ " (Kept Secret, thrown away after)")] ;;;
  console_log [Str ("   [Public]  Ephemeral Key: " ++ ephemeralPubKey
                    ++ " (Broadcasted to network)")] ;;;
  sleep 1500 ;;;
  (* 3. Compute Shared Secret *)
  sharedSecret <- call (Announcer.computeSharedSecret ephemeralPrivKey
                          (viewingPubKey recipientMetaAddress)) ;;
  console_log [Str (nl ++ "3. Sender computes 'Shared Secret' (ECDH):")] ;;;
  console_log [Str "   Formula: Ephemeral_PrivKey * Recipient_Viewing_PubKey"] ;;;
  console_log [Str ("   Result (S): " ++ sharedSecret)] ;;;
  sleep 1500 ;;;
  (* 4. Compute View Tag *)
  sharedSecretBytes <- call (Viem.hexToBytes sharedSecret) ;;
  let hashedSharedSecret := Viem.keccak256 sharedSecretBytes in
  hashedBytes <- call (Viem.hexToBytes hashedSharedSecret) ;;
  let viewTag := JS.index0 hashedBytes in
  console_log [Str (nl ++ "4. Sender computes 'View Tag' (for filtering):")] ;;;
  console_log [Str "   Formula: First byte of keccak256(S)"] ;;;
  console_log [Str ("   Hashed Secret (s): " ++ hashedSharedSecret)] ;;;
  console_log [Str ("   View Tag: " ++ numberToString viewTag ++ " (Broadcasted)")] ;;;
  sleep 1500 ;;;
  (* 5. Derive Stealth Public Key: P_stealth = P_spending + s * G *)
  s_scalar <- call (Viem.hexToBytes hashedSharedSecret) ;;
  let p_spending_hex := JS.sliceFrom 2 (spendingPubKey recipientMetaAddress) in
  p_spending_point <- call (Noble.fromHex p_spending_hex) ;;
  s_G_pubKey <- call (Noble.getPublicKey s_scalar true) ;;
  let s_G_hex := JS.sliceFrom 2 (Viem.bytesToHex s_G_pubKey) in
  s_G_point <- call (Noble.fromHex s_G_hex) ;;
  let p_stealth_point := add p_spending_point s_G_point in
  stealthPubKey <- call (Noble.toHex p_stealth_point true) ;;
  console_log [Str (nl ++ "5. Sender derives 'Stealth Public Key':")] ;;;
  console_log [Str "   Formula: Recipient_Spending_PubKey + (Hashed_Secret * G)"] ;;;
  console_log [Str ("   Stealth PubKey: 0x" ++ stealthPubKey)] ;;;
  sleep 1500 ;;;
  (* 6. Convert to Ethereum Address *)
  uncompressedPubKey <- call (Noble.toHex p_stealth_point false) ;;
  uncompressedBytes <- call (Viem.hexToBytes ("0x" ++ uncompressedPubKey)) ;;
  let pubKeyBytes := tl uncompressedBytes in
  let addressHash := Viem.keccak256 pubKeyBytes in
  let stealthAddress := "0x" ++ JS.sliceLast 40 addressHash in
  console_log [Str (nl ++ "6. Sender converts Stealth PubKey to Ethereum Address:")] ;;;
  console_log [Str ("   Stealth Address: " ++ stealthAddress ++ " (Where funds are sent)")] ;;;
  sleep 2000 ;;;
  (* 7. Emit Announcement via ERC-5564 Announcer *)
  digits <- Script.eval (numberToString16 viewTag) ;;
  let metadata := "0x" ++ JS.padStart 2 "0" digits in
  let announcement :=
    {| Announcer.schemeId := SCHEME_ID;
       Announcer.stealthAddress := stealthAddress;
       Announcer.caller := "0x0000000000000000000000000000000000000001";
       Announcer.ephemeralPubKey := ephemeralPubKey;
       Announcer.metadata := metadata |} in
  emitAnnouncement announcement ;;;
  Script.ret announcement
  end.

Definition main (random1 random2 random3 : Entropy) : Script unit :=
  console_log [Str ("=== ERC-5564 Stealth Address Detailed Walkthrough ===" ++ nl)] ;;;
  sleep 500 ;;;
  (* 1. Setup Recipient Keys *)
  let spendingPrivKey := TestStealthAddress.generatePrivateKey random1 in
  let viewingPrivKey := TestStealthAddress.generatePrivateKey random2 in
  spendingPubKey <- call (TestStealthAddress.getPublicKey spendingPrivKey) ;;
  viewingPubKey <- call (TestStealthAddress.getPublicKey viewingPrivKey) ;;
  let recipientKeys :=
    {| spendingPrivKey := spendingPrivKey;
       viewingPrivKey := viewingPrivKey;
       recipientSpendingPubKey := spendingPubKey;
       recipientViewingPubKey := viewingPubKey |} in
  console_log [Str "0. Recipient generates their 'Stealth Meta-Address' (Keys):"] ;;;
  let metaAddressString :=
    Announcer.metaAddressString (Build_MetaAddress spendingPubKey viewingPubKey) in
  console_log [Str ("   [String] Full Meta-Address: " ++ metaAddressString)] ;;;
  console_log [Str ("   [Private] Spending Key:     " ++ spendingPrivKey
                    ++ " (KEPT SECRET)")] ;;;
  console_log [Str ("   [Private] Viewing Key:      " ++ viewingPrivKey
                    ++ "  (KEPT SECRET)")] ;;;
  console_log [Str ("   [Public]  Spending Key:     " ++ spendingPubKey ++ " (SHARED)")] ;;;
  console_log [Str ("   [Public]  Viewing Key:      " ++ viewingPubKey ++ "  (SHARED)")] ;;;
  (* SCENARIO A: ENS Handle *)
  console_log [Str (nl ++ "--- SCENARIO A: Using ENS Handle (alice.eth) ---")] ;;;
  let ensHandle := "alice.eth" in
  registerKeys ensHandle spendingPubKey viewingPubKey ;;;
  sleep 1000 ;;;
  (* SCENARIO B: Raw Address *)
  console_log [Str (nl ++ "--- SCENARIO B: Using Raw Address (0x123...) ---")] ;;;
  let rawAddress := "0x1234567890123456789012345678901234567890" in
  registerKeys rawAddress spendingPubKey viewingPubKey ;;;
  sleep 1000 ;;;
  console_log [Str (nl ++ "[NOTE] ERC-6538 Registry supports BOTH! You don't need ENS.")] ;;;
  sleep 2000 ;;;
  (* 2. Sender Generates Stealth Address *)
  console_log [Str (nl ++ ">>> Sender chooses to send to the RAW ADDRESS (No ENS required) <<<")] ;;;
  announcementData <- generateStealthAddress random3 rawAddress ;;
  (* 3. Recipient Scans and Recovers *)
  Announcer.scanAndRecover announcementData recipientKeys.

End Script.
End AnnouncerWalkthrough.

(** ** The walkthrough with the registry only: the scripts

    Its registry is the announcer walkthrough's, function for function;
    it keeps no log of announcements, and hands the recipient the view tag
    as a number. *)

Module RegistryWalkthrough.

(** What the sender returns. *)
Record Generated := {
  stealthAddress : string;
  ephemeralPubKey : string;
  viewTag : JS.number
}.

(** [`${v}`] for a string that may be [undefined]. *)
Definition shown (v : option string) : string :=
  match v with
  | Some s => s
  | None => "undefined"
  end.

Section Script.
Context {C : Crypto}.
Local Open Scope script_scope.

Definition computeSharedSecret := @TestStealthAddress.computeSharedSecret C.

Definition registerKeys := AnnouncerWalkthrough.registerKeys.

Definition lookupKeys := AnnouncerWalkthrough.lookupKeys.

Definition generateStealthAddress (random : Entropy) (recipientIdentifier : string)
  : Script Generated :=
  console_log [Str (nl ++ Announcer.rule)] ;;;
  console_log [Str "                           SENDER SIDE (Generating Address)                        "] ;;;
  console_log [Str Announcer.rule] ;;;
  sleep 800 ;;;
  (* 1. Lookup Recipient Keys (ERC-6538) *)
  console_log [Str ("1. Sender needs Recipient's Meta-Address (for '" ++ recipientIdentifier
                      ++ "'):")] ;;;
  keys <- lookupKeys recipientIdentifier ;;
  (* the two fields of [keys], undefined when [keys] is no stored object *)
  let spendingKey := option_map spendingPubKey (JSObject.fields keys) in
  let viewingKey := option_map viewingPubKey (JSObject.fields keys) in
  let metaAddressString :=
    Registry.metaAddressString
      {| spendingPubKey := shown spendingKey; viewingPubKey := shown viewingKey |} in
  console_log [Str ("   [String] Full Meta-Address: " ++ metaAddressString)] ;;;
  console_log [Str ("   [Public] Spending Key:      " ++ shown spendingKey)] ;;;
  console_log [Str ("   [Public] Viewing Key:       " ++ shown viewingKey)] ;;;
  sleep 1500 ;;;
  (* 2. Generate Ephemeral Key Pair *)
  let ephemeralPrivKey := TestStealthAddress.generatePrivateKey random in
  ephemeralPubKey <- call (TestStealthAddress.getPublicKey ephemeralPrivKey) ;;
  console_log [Str (nl ++ "2. Sender generates a temporary 'Ephemeral Key Pair':")] ;;;
  console_log [Str ("   [Private] Ephemeral Key: " ++ ephemeralPrivKey
                    ++ " (Kept Secret, thrown away after)")] ;;;
  console_log [Str ("   [Public]  Ephemeral Key: " ++ ephemeralPubKey
                    ++ " (Broadcasted to network)")] ;;;
  sleep 1500 ;;;
  (* 3. Compute Shared Secret *)
  match JSObject.fields keys with
  | None =>
      (* [hexToBytes(privateKey)], then [hexToBytes(undefined)] *)
      call (Viem.hexToBytes ephemeralPrivKey) ;;;
      Script.throw TypeError
  | Some recipientMetaAddress =>
  sharedSecret <- call (computeSharedSecret ephemeralPrivKey
                          (viewingPubKey recipientMetaAddress)) ;;
  console_log [Str (nl ++ "3. Sender computes 'Shared Secret' (ECDH):")] ;;;
  console_log [Str "   Formula: Ephemeral_PrivKey * Recipient_Viewing_PubKey"] ;;;
  console_log [Str ("   Result (S): " ++ sharedSecret)] ;;;
  sleep 1500 ;;;
  (* 4. Compute View Tag *)
  sharedSecretBytes <- call (Viem.hexToBytes sharedSecret) ;;
  let hashedSharedSecret := Viem.keccak256 sharedSecretBytes in
  hashedBytes <- call (Viem.hexToBytes hashedSharedSecret) ;;
  let viewTag := JS.index0 hashedBytes in
  console_log [Str (nl ++ "4. Sender computes 'View Tag' (for filtering):")] ;;;
  console_log [Str "   Formula: First byte of keccak256(S)"] ;;;
  console_log [Str ("   Hashed Secret (s): " ++ hashedSharedSecret)] ;;;
  console_log [Str ("   View Tag: " ++ numberToString viewTag ++ " (Broadcasted)")] ;;;
  sleep 1500 ;;;
  (* 5. Derive Stealth Public Key: P_stealth = P_spending + s * G *)
  s_scalar <- call (Viem.hexToBytes hashedSharedSecret) ;;
  let p_spending_hex := JS.sliceFrom 2 (spendingPubKey recipientMetaAddress) in
  p_spending_point <- call (Noble.fromHex p_spending_hex) ;;
  s_G_pubKey <- call (Noble.getPublicKey s_scalar true) ;;
  let s_G_hex := JS.sliceFrom 2 (Viem.bytesToHex s_G_pubKey) in
  s_G_point <- call (Noble.fromHex s_G_hex) ;;
  let p_stealth_point := add p_spending_point s_G_point in
  stealthPubKey <- call (Noble.toHex p_stealth_point true) ;;
  console_log [Str (nl ++ "5. Sender derives 'Stealth Public Key':")] ;;;
  console_log [Str "   Formula: Recipient_Spending_PubKey + (Hashed_Secret * G)"] ;;;
  console_log [Str ("   Stealth PubKey: 0x" ++ stealthPubKey)] ;;;
  sleep 1500 ;;;
  (* 6. Convert to Ethereum Address *)
  uncompressedPubKey <- call (Noble.toHex p_stealth_point false) ;;
  uncompressedBytes <- call (Viem.hexToBytes ("0x" ++ uncompressedPubKey)) ;;
  let pubKeyBytes := tl uncompressedBytes in
  let addressHash := Viem.keccak256 pubKeyBytes in
  let stealthAddress := "0x" ++ JS.sliceLast 40 addressHash in
  console_log [Str (nl ++ "6. Sender converts Stealth PubKey to Ethereum Address:")] ;;;
  console_log [Str ("   Stealth Address: " ++ stealthAddress ++ " (Where funds are sent)")] ;;;
  sleep 2000 ;;;
  Script.ret {| stealthAddress := stealthAddress;
                ephemeralPubKey := ephemeralPubKey;
                viewTag := viewTag |}
  end.

End Script.

Section Recipient.
Context {C : Crypto}.

Definition scanAndRecover (announcement : TestStealthAddress.Announcement)
    (recipientKeys : RecipientKeys) : IO unit :=
  console_log [Str (nl ++ nl ++ Announcer.rule)] ;;;
  console_log [Str "                           RECIPIENT SIDE (Scanning & Recovering)                  "] ;;;
  console_log [Str Announcer.rule] ;;;
  sleep 800 ;;;
  console_log [Str "Recipient sees an Announcement on-chain:"] ;;;
  console_log [Str ("   [Public] Ephemeral PubKey: "
                    ++ TestStealthAddress.annEphemeralPubKey announcement)] ;;;
  console_log [Str ("   [Public] View Tag: "
                    ++ numberToString (TestStealthAddress.annViewTag announcement))] ;;;
  console_log [Str ("   [Public] Stealth Address: "
                    ++ TestStealthAddress.annStealthAddress announcement)] ;;;
  console_log [Str (nl ++ "   [CLARIFICATION] Does Recipient scan every transaction?")] ;;;
  console_log [Str "   YES. The Recipient performs ECDH on EVERY announcement to check the View Tag."] ;;;
  console_log [Str "   - If View Tag doesn't match: STOP (Saves 99.6% of work)."] ;;;
  console_log [Str "   - If View Tag matches: Proceed to full address derivation (The expensive part)."] ;;;
  sleep 2500 ;;;
  (* 1. Check View Tag *)
  console_log [Str (nl ++ "1. Recipient checks 'View Tag' to see if this is for them:")] ;;;
  console_log [Str "   Formula: Recipient_Viewing_PrivKey * Ephemeral_PubKey"] ;;;
  sharedSecret <- call (computeSharedSecret (viewingPrivKey recipientKeys)
                          (TestStealthAddress.annEphemeralPubKey announcement)) ;;
  console_log [Str ("   Re-computed Shared Secret (S): " ++ sharedSecret)] ;;;
  sharedSecretBytes <- call (Viem.hexToBytes sharedSecret) ;;
  let hashedSharedSecret := Viem.keccak256 sharedSecretBytes in
  hashedBytes <- call (Viem.hexToBytes hashedSharedSecret) ;;
  let calculatedViewTag := JS.index0 hashedBytes in
  console_log [Str ("   Calculated View Tag: " ++ numberToString calculatedViewTag)] ;;;
  if negb (JS.strictEq calculatedViewTag (TestStealthAddress.annViewTag announcement)) then
    console_log [Str "   [X] View Tag Mismatch! Ignoring transaction."] ;;;
    ret tt
  else
    console_log [Str ("   [" ++ Announcer.tick
                      ++ "] View Tag Match! This transaction is for us.")] ;;;
    sleep 1500 ;;;
    (* 2. Derive Stealth Private Key *)
    console_log [Str (nl ++ "2. Recipient derives the 'Stealth Private Key' to spend funds:")] ;;;
    console_log [Str "   Formula: Recipient_Spending_PrivKey + Hashed_Secret (mod curve order)"] ;;;
    s_scalar <- call (JS.BigInt hashedSharedSecret) ;;
    d_spending <- call (JS.BigInt (spendingPrivKey recipientKeys)) ;;
    let d_stealth :=
      "0x" ++ JS.padStart 64 "0"
                (JS.toString16 (TestStealthAddress.d_stealth_big d_spending s_scalar)) in
    console_log [Str ("   Recipient Spending PrivKey: " ++ spendingPrivKey recipientKeys)] ;;;
    console_log [Str ("   Hashed Secret (scalar):     " ++ hashedSharedSecret)] ;;;
    console_log [Str "   ------------------------------------------------------------------"] ;;;
    console_log [Str ("   Stealth Private Key:        " ++ d_stealth
                      ++ " (THE KEY TO THE FUNDS)")] ;;;
    sleep 1500 ;;;
    (* 3. Verify Address *)
    derivedAddress <- call (ViemAccounts.privateKeyToAddress d_stealth) ;;
    console_log [Str (nl ++ "3. Verification:")] ;;;
    console_log [Str ("   Derived Address from Key:   " ++ derivedAddress)] ;;;
    console_log [Str ("   Actual Stealth Address:     "
                      ++ TestStealthAddress.annStealthAddress announcement)] ;;;
    if String.eqb (JS.toLowerCase derivedAddress)
                  (JS.toLowerCase (TestStealthAddress.annStealthAddress announcement))
    then console_log
           [Str (nl ++ "   [SUCCESS] The derived key controls the stealth address!")]
    else console_error
           [Str (nl ++ "   [FAILURE] Something went wrong.")].

End Recipient.

Section Main.
Context {C : Crypto}.
Local Open Scope script_scope.

Definition main (random1 random2 random3 : Entropy) : Script unit :=
  console_log [Str ("=== ERC-5564 Stealth Address Detailed Walkthrough ===" ++ nl)] ;;;
  sleep 500 ;;;
  (* 1. Setup Recipient Keys *)
  let spendingPrivKey := TestStealthAddress.generatePrivateKey random1 in
  let viewingPrivKey := TestStealthAddress.generatePrivateKey random2 in
  spendingPubKey <- call (TestStealthAddress.getPublicKey spendingPrivKey) ;;
  viewingPubKey <- call (TestStealthAddress.getPublicKey viewingPrivKey) ;;
  let recipientKeys :=
    {| spendingPrivKey := spendingPrivKey;
       viewingPrivKey := viewingPrivKey;
       recipientSpendingPubKey := spendingPubKey;
       recipientViewingPubKey := viewingPubKey |} in
  console_log [Str "0. Recipient generates their 'Stealth Meta-Address' (Keys):"] ;;;
  let metaAddressString :=
    Registry.metaAddressString (Build_MetaAddress spendingPubKey viewingPubKey) in
  console_log [Str ("   [String] Full Meta-Address: " ++ metaAddressString)] ;;;
  console_log [Str ("   [Private] Spending Key:     " ++ spendingPrivKey
                    ++ " (KEPT SECRET)")] ;;;
  console_log [Str ("   [Private] Viewing Key:      " ++ viewingPrivKey
                    ++ "  (KEPT SECRET)")] ;;;
  console_log [Str ("   [Public]  Spending Key:     " ++ spendingPubKey ++ " (SHARED)")] ;;;
  console_log [Str ("   [Public]  Viewing Key:      " ++ viewingPubKey ++ "  (SHARED)")] ;;;
  (* SCENARIO A: ENS Handle *)
  console_log [Str (nl ++ "--- SCENARIO A: Using ENS Handle (alice.eth) ---")] ;;;
  let ensHandle := "alice.eth" in
  registerKeys ensHandle spendingPubKey viewingPubKey ;;;
  sleep 1000 ;;;
  (* SCENARIO B: Raw Address *)
  console_log [Str (nl ++ "--- SCENARIO B: Using Raw Address (0x123...) ---")] ;;;
  let rawAddress := "0x1234567890123456789012345678901234567890" in
  registerKeys rawAddress spendingPubKey viewingPubKey ;;;
  sleep 1000 ;;;
  console_log [Str (nl ++ "[NOTE] ERC-6538 Registry supports BOTH! You don't need ENS.")] ;;;
  sleep 2000 ;;;
  (* 2. Sender Generates Stealth Address *)
  console_log [Str (nl ++ ">>> Sender chooses to send to the RAW ADDRESS (No ENS required) <<<")] ;;;
  announcementData <- generateStealthAddress random3 rawAddress ;;
  (* 3. Recipient Scans and Recovers *)
  scanAndRecover
    {| TestStealthAddress.annEphemeralPubKey := ephemeralPubKey announcementData;
       TestStealthAddress.annViewTag := viewTag announcementData;
       TestStealthAddress.annStealthAddress := stealthAddress announcementData |}
    recipientKeys.

End Main.
End RegistryWalkthrough.

(** ** The walkthrough without registry

    The sender is handed the meta-address; nothing is kept but the
    console. *)

Module Walkthrough.

Record Generated := {
  stealthAddress : string;
  ephemeralPubKey : string;
  viewTag : JS.number
}.

(** The check mark of the tag-match line. *)
Definition tick : string := string_of_list_byte [xe2; x9c; x93].

Section Script.
Context {C : Crypto}.

Definition computeSharedSecret := @TestStealthAddress.computeSharedSecret C.

Definition generateStealthAddress (random : Entropy) (recipientMetaAddress : MetaAddress)
  : IO Generated :=
  console_log [Str (nl ++ Announcer.rule)] ;;;
  console_log [Str "                           SENDER SIDE (Generating Address)                        "] ;;;
  console_log [Str Announcer.rule] ;;;
  sleep 800 ;;;
  console_log [Str "1. Sender needs Recipient's Meta-Address:"] ;;;
  let metaAddressString := Registry.metaAddressString recipientMetaAddress in
  console_log [Str ("   [String] Full Meta-Address: " ++ metaAddressString)] ;;;
  console_log [Str ("   [Public] Spending Key:      "
                    ++ spendingPubKey recipientMetaAddress)] ;;;
  console_log [Str ("   [Public] Viewing Key:       "
                    ++ viewingPubKey recipientMetaAddress)] ;;;
  sleep 1500 ;;;
  (* 1. Generate Ephemeral Key Pair *)
  let ephemeralPrivKey := TestStealthAddress.generatePrivateKey random in
  ephemeralPubKey <- call (TestStealthAddress.getPublicKey ephemeralPrivKey) ;;
  console_log [Str (nl ++ "2. Sender generates a temporary 'Ephemeral Key Pair':")] ;;;
  console_log [Str ("   [Private] Ephemeral Key: " ++ ephemeralPrivKey
                    ++ " (Kept Secret, thrown away after)")] ;;;
  console_log [Str ("   [Public]  Ephemeral Key: " ++ ephemeralPubKey
                    ++ " (Broadcasted to network)")] ;;;
  sleep 1500 ;;;
  (* 2. Compute Shared Secret *)
  sharedSecret <- call (computeSharedSecret ephemeralPrivKey
                          (viewingPubKey recipientMetaAddress)) ;;
  console_log [Str (nl ++ "3. Sender computes 'Shared Secret' (ECDH):")] ;;;
  console_log [Str "   Formula: Ephemeral_PrivKey * Recipient_Viewing_PubKey"] ;;;
  console_log [Str ("   Result (S): " ++ sharedSecret)] ;;;
  sleep 1500 ;;;
  (* 3. Compute View Tag *)
  sharedSecretBytes <- call (Viem.hexToBytes sharedSecret) ;;
  let hashedSharedSecret := Viem.keccak256 sharedSecretBytes in
  hashedBytes <- call (Viem.hexToBytes hashedSharedSecret) ;;
  let viewTag := JS.index0 hashedBytes in
  console_log [Str (nl ++ "4. Sender computes 'View Tag' (for filtering):")] ;;;
  console_log [Str "   Formula: First byte of keccak256(S)"] ;;;
  console_log [Str ("   Hashed Secret (s): " ++ hashedSharedSecret)] ;;;
  console_log [Str ("   View Tag: " ++ numberToString viewTag ++ " (Broadcasted)")] ;;;
  sleep 1500 ;;;
  (* 4. Derive Stealth Public Key: P_stealth = P_spending + s * G *)
  s_scalar <- call (Viem.hexToBytes hashedSharedSecret) ;;
  let p_spending_hex := JS.sliceFrom 2 (spendingPubKey recipientMetaAddress) in
  p_spending_point <- call (Noble.fromHex p_spending_hex) ;;
  s_G_pubKey <- call (Noble.getPublicKey s_scalar true) ;;
  let s_G_hex := JS.sliceFrom 2 (Viem.bytesToHex s_G_pubKey) in
  s_G_point <- call (Noble.fromHex s_G_hex) ;;
  let p_stealth_point := add p_spending_point s_G_point in
  stealthPubKey <- call (Noble.toHex p_stealth_point true) ;;
  console_log [Str (nl ++ "5. Sender derives 'Stealth Public Key':")] ;;;
  console_log [Str "   Formula: Recipient_Spending_PubKey + (Hashed_Secret * G)"] ;;;
  console_log [Str ("   Stealth PubKey: 0x" ++ stealthPubKey)] ;;;
  sleep 1500 ;;;
  (* 5. Convert to Ethereum Address *)
  uncompressedPubKey <- call (Noble.toHex p_stealth_point false) ;;
  uncompressedBytes <- call (Viem.hexToBytes ("0x" ++ uncompressedPubKey)) ;;
  let pubKeyBytes := tl uncompressedBytes in
  let addressHash := Viem.keccak256 pubKeyBytes in
  let stealthAddress := "0x" ++ JS.sliceLast 40 addressHash in
  console_log [Str (nl ++ "6. Sender converts Stealth PubKey to Ethereum Address:")] ;;;
  console_log [Str ("   Stealth Address: " ++ stealthAddress ++ " (Where funds are sent)")] ;;;
  sleep 2000 ;;;
  ret {| stealthAddress := stealthAddress;
         ephemeralPubKey := ephemeralPubKey;
         viewTag := viewTag |}.

Definition scanAndRecover (announcement : TestStealthAddress.Announcement)
    (recipientKeys : RecipientKeys) : IO unit :=
  console_log [Str (nl ++ nl ++ Announcer.rule)] ;;;
  console_log [Str "                           RECIPIENT SIDE (Scanning & Recovering)                  "] ;;;
  console_log [Str Announcer.rule] ;;;
  sleep 800 ;;;
  console_log [Str "Recipient sees an Announcement on-chain:"] ;;;
  console_log [Str ("   [Public] Ephemeral PubKey: "
                    ++ TestStealthAddress.annEphemeralPubKey announcement)] ;;;
  console_log [Str ("   [Public] View Tag: "
                    ++ numberToString (TestStealthAddress.annViewTag announcement))] ;;;
  console_log [Str ("   [Public] Stealth Address: "
                    ++ TestStealthAddress.annStealthAddress announcement)] ;;;
  sleep 1500 ;;;
  (* 1. Check View Tag *)
  console_log [Str (nl ++ "1. Recipient checks 'View Tag' to see if this is for them:")] ;;;
  console_log [Str "   Formula: Recipient_Viewing_PrivKey * Ephemeral_PubKey"] ;;;
  sharedSecret <- call (computeSharedSecret (viewingPrivKey recipientKeys)
                          (TestStealthAddress.annEphemeralPubKey announcement)) ;;
  console_log [Str ("   Re-computed Shared Secret (S): " ++ sharedSecret)] ;;;
  sharedSecretBytes <- call (Viem.hexToBytes sharedSecret) ;;
  let hashedSharedSecret := Viem.keccak256 sharedSecretBytes in
  hashedBytes <- call (Viem.hexToBytes hashedSharedSecret) ;;
  let calculatedViewTag := JS.index0 hashedBytes in
  console_log [Str ("   Calculated View Tag: " ++ numberToString calculatedViewTag)] ;;;
  if negb (JS.strictEq calculatedViewTag (TestStealthAddress.annViewTag announcement)) then
    console_log [Str "   [X] View Tag Mismatch! Ignoring transaction."] ;;;
    ret tt
  else
    console_log [Str ("   [" ++ tick ++ "] View Tag Match! This transaction is for us.")] ;;;
    sleep 1500 ;;;
    (* 2. Derive Stealth Private Key *)
    console_log [Str (nl ++ "2. Recipient derives the 'Stealth Private Key' to spend funds:")] ;;;
    console_log [Str "   Formula: Recipient_Spending_PrivKey + Hashed_Secret (mod curve order)"] ;;;
    s_scalar <- call (JS.BigInt hashedSharedSecret) ;;
    d_spending <- call (JS.BigInt (spendingPrivKey recipientKeys)) ;;
    let d_stealth :=
      "0x" ++ JS.padStart 64 "0"
                (JS.toString16 (TestStealthAddress.d_stealth_big d_spending s_scalar)) in
    console_log [Str ("   Recipient Spending PrivKey: " ++ spendingPrivKey recipientKeys)] ;;;
    console_log [Str ("   Hashed Secret (scalar):     " ++ hashedSharedSecret)] ;;;
    console_log [Str "   ------------------------------------------------------------------"] ;;;
    console_log [Str ("   Stealth Private Key:        " ++ d_stealth
                      ++ " (THE KEY TO THE FUNDS)")] ;;;
    sleep 1500 ;;;
    (* 3. Verify Address *)
    derivedAddress <- call (ViemAccounts.privateKeyToAddress d_stealth) ;;
    console_log [Str (nl ++ "3. Verification:")] ;;;
    console_log [Str ("   Derived Address from Key:   " ++ derivedAddress)] ;;;
    console_log [Str ("   Actual Stealth Address:     "
                      ++ TestStealthAddress.annStealthAddress announcement)] ;;;
    if String.eqb (JS.toLowerCase derivedAddress)
                  (JS.toLowerCase (TestStealthAddress.annStealthAddress announcement))
    then console_log
           [Str (nl ++ "   [SUCCESS] The derived key controls the stealth address!")]
    else console_error
           [Str (nl ++ "   [FAILURE] Something went wrong.")].

Definition main (random1 random2 random3 : Entropy) : IO unit :=
  console_log [Str ("=== ERC-5564 Stealth Address Detailed Walkthrough ===" ++ nl)] ;;;
  sleep 500 ;;;
  (* 1. Setup Recipient Keys *)
  let spendingPrivKey := TestStealthAddress.generatePrivateKey random1 in
  let viewingPrivKey := TestStealthAddress.generatePrivateKey random2 in
  spendingPubKey <- call (TestStealthAddress.getPublicKey spendingPrivKey) ;;
  viewingPubKey <- call (TestStealthAddress.getPublicKey viewingPrivKey) ;;
  let recipientKeys :=
    {| spendingPrivKey := spendingPrivKey;
       viewingPrivKey := viewingPrivKey;
       recipientSpendingPubKey := spendingPubKey;
       recipientViewingPubKey := viewingPubKey |} in
  console_log [Str "0. Recipient generates their 'Stealth Meta-Address' (Keys):"] ;;;
  let metaAddressString :=
    Registry.metaAddressString (Build_MetaAddress spendingPubKey viewingPubKey) in
  console_log [Str ("   [String] Full Meta-Address: " ++ metaAddressString)] ;;;
  console_log [Str ("   [Private] Spending Key:     " ++ spendingPrivKey
                    ++ " (KEPT SECRET)")] ;;;
  console_log [Str ("   [Private] Viewing Key:      " ++ viewingPrivKey
                    ++ "  (KEPT SECRET)")] ;;;
  console_log [Str ("   [Public]  Spending Key:     " ++ spendingPubKey ++ " (SHARED)")] ;;;
  console_log [Str ("   [Public]  Viewing Key:      " ++ viewingPubKey ++ "  (SHARED)")] ;;;
  sleep 2000 ;;;
  (* 2. Sender Generates Stealth Address *)
  announcementData <- generateStealthAddress random3
                        (Build_MetaAddress spendingPubKey viewingPubKey) ;;
  (* 3. Recipient Scans and Recovers *)
  scanAndRecover
    {| TestStealthAddress.annEphemeralPubKey := ephemeralPubKey announcementData;
       TestStealthAddress.annViewTag := viewTag announcementData;
       TestStealthAddress.annStealthAddress := stealthAddress announcementData |}
    recipientKeys.

End Script.
End Walkthrough.

(** ** The scripts, step by step

    The sender and the recipient's scan, cut where the properties below
    look at them; that the pieces make up the scripts is proved, not
    assumed. *)

(** The meta-address [main] hands to the sender. *)
Definition metaAddressOf (keys : RecipientKeys) : MetaAddress :=
  {| spendingPubKey := recipientSpendingPubKey keys;
     viewingPubKey := recipientViewingPubKey keys |}.

(** The lines the recipient's scan writes. *)
Definition headerLine : Console :=
  log [Str (nl ++ "--- Recipient: Scanning & Recovering ---")].
Definition calculatedLine (t : JS.number) : Console :=
  log [Str "Calculated View Tag:"; Number t].
Definition noMatchLine : Console := log [Str "View Tag Mismatch! Not for us."].
Definition matchLine : Console := log [Str "View Tag Match! Proceeding to recover..."].
Definition keyLine (d_stealth : string) : Console :=
  log [Str "Derived Stealth Private Key:"; Str d_stealth].
Definition addressLine (derivedAddress : string) : Console :=
  log [Str "Derived Stealth Address:"; Str derivedAddress].
Definition successLine : Console :=
  log [Str "SUCCESS: Stealth Address Verified and Private Key Recovered!"].
Definition failureLine : Console :=
  error [Str "FAILURE: Derived address does not match announcement."].

Section Steps.
Context {C : Crypto}.

(** [generateStealthAddress], steps 1 to 4, up to [p_stealth_point]:
    the ephemeral public key, the view tag, and the sum. *)
Definition p_stealth_point (random : Entropy) (recipientMetaAddress : MetaAddress)
  : IO (string * JS.number * Point) :=
  console_log [Str (nl ++ "--- Sender: Generating Stealth Address ---")] ;;;
  let ephemeralPrivKey := TestStealthAddress.generatePrivateKey random in
  ephemeralPubKey <- call (TestStealthAddress.getPublicKey ephemeralPrivKey) ;;
  console_log [Str "Sender Ephemeral PubKey:"; Str ephemeralPubKey] ;;;
  sharedSecret <- call (TestStealthAddress.computeSharedSecret ephemeralPrivKey
                          (viewingPubKey recipientMetaAddress)) ;;
  console_log [Str "Shared Secret (Sender):"; Str sharedSecret] ;;;
  sharedSecretBytes <- call (Viem.hexToBytes sharedSecret) ;;
  let hashedSharedSecret := Viem.keccak256 sharedSecretBytes in
  hashedBytes <- call (Viem.hexToBytes hashedSharedSecret) ;;
  let viewTag := JS.index0 hashedBytes in
  console_log [Str "View Tag:"; Number viewTag] ;;;
  s_scalar <- call (Viem.hexToBytes hashedSharedSecret) ;;
  let p_spending_hex := JS.sliceFrom 2 (spendingPubKey recipientMetaAddress) in
  p_spending_point <- call (Noble.fromHex p_spending_hex) ;;
  s_G_pubKey <- call (Noble.getPublicKey s_scalar true) ;;
  let s_G_hex := JS.sliceFrom 2 (Viem.bytesToHex s_G_pubKey) in
  s_G_point <- call (Noble.fromHex s_G_hex) ;;
  ret (ephemeralPubKey, viewTag, add p_spending_point s_G_point).

(** [generateStealthAddress], from [stealthPubKey] to the end. *)
Definition encodeStealthPoint (derived : string * JS.number * Point)
  : IO TestStealthAddress.Generated :=
  let '(ephemeralPubKey, viewTag, p_stealth_point) := derived in
  stealthPubKey <- call (Noble.toHex p_stealth_point true) ;;
  uncompressedPubKey <- call (Noble.toHex p_stealth_point false) ;;
  uncompressedBytes <- call (Viem.hexToBytes ("0x" ++ uncompressedPubKey)) ;;
  let pubKeyBytes := tl uncompressedBytes in
  let addressHash := Viem.keccak256 pubKeyBytes in
  let stealthAddress := "0x" ++ JS.sliceLast 40 addressHash in
  console_log [Str "Generated Stealth Address:"; Str stealthAddress] ;;;
  ret {| TestStealthAddress.stealthAddress := stealthAddress;
         TestStealthAddress.ephemeralPubKey := ephemeralPubKey;
         TestStealthAddress.viewTag := viewTag;
         TestStealthAddress.ciphertext := "0x..." |}.

(** [scanAndRecover], step 1: the tag check, as a function of the three
    values it reads.  It answers with the digest when the tag matches. *)
Definition viewTagFilter (viewingPrivKey ephemeralPubKey : string) (viewTag : JS.number)
  : IO (option string) :=
  console_log [Str (nl ++ "--- Recipient: Scanning & Recovering ---")] ;;;
  sharedSecret <- call (TestStealthAddress.computeSharedSecret viewingPrivKey
                          ephemeralPubKey) ;;
  sharedSecretBytes <- call (Viem.hexToBytes sharedSecret) ;;
  let hashedSharedSecret := Viem.keccak256 sharedSecretBytes in
  hashedBytes <- call (Viem.hexToBytes hashedSharedSecret) ;;
  let calculatedViewTag := JS.index0 hashedBytes in
  console_log [Str "Calculated View Tag:"; Number calculatedViewTag] ;;;
  if negb (JS.strictEq calculatedViewTag viewTag) then
    console_log [Str "View Tag Mismatch! Not for us."] ;;;
    ret None
  else
    console_log [Str "View Tag Match! Proceeding to recover..."] ;;;
    ret (Some hashedSharedSecret).

(** [scanAndRecover], steps 2 and 3: the recovery and the verification. *)
Definition recoverAndVerify (hashedSharedSecret : string)
    (announcement : TestStealthAddress.Announcement) (recipientKeys : RecipientKeys)
  : IO unit :=
  s_scalar <- call (JS.BigInt hashedSharedSecret) ;;
  d_spending <- call (JS.BigInt (spendingPrivKey recipientKeys)) ;;
  let d_stealth :=
    "0x" ++ JS.padStart 64 "0"
              (JS.toString16 (TestStealthAddress.d_stealth_big d_spending s_scalar)) in
  console_log [Str "Derived Stealth Private Key:"; Str d_stealth] ;;;
  derivedAddress <- call (ViemAccounts.privateKeyToAddress d_stealth) ;;
  console_log [Str "Derived Stealth Address:"; Str derivedAddress] ;;;
  if String.eqb (JS.toLowerCase derivedAddress)
                (JS.toLowerCase (TestStealthAddress.annStealthAddress announcement))
  then console_log
         [Str "SUCCESS: Stealth Address Verified and Private Key Recovered!"]
  else console_error
         [Str "FAILURE: Derived address does not match announcement."].

(** What follows the tag check: nothing, or the recovery. *)
Definition afterFilter (announcement : TestStealthAddress.Announcement)
    (recipientKeys : RecipientKeys) (answer : option string) : IO unit :=
  match answer with
  | None => ret tt
  | Some hashedSharedSecret => recoverAndVerify hashedSharedSecret announcement recipientKeys
  end.

End Steps.

(** Registrations in a row. *)
Fixpoint registerAll (entries : list (string * MetaAddress)) : Script unit :=
  match entries with
  | [] => Script.ret tt
  | (identifier, keys) :: rest =>
      Script.bind
        (AnnouncerWalkthrough.registerKeys identifier (spendingPubKey keys) (viewingPubKey keys))
        (fun _ => registerAll rest)
  end.

Section WalkthroughSteps.
Context {C : Crypto}.

(** What the three walkthroughs have in common in [generateStealthAddress]:
    the steps from the ephemeral key to the address, with the lines they
    write on the way and the pauses between them. *)
Definition senderSteps (random : Entropy) (recipientMetaAddress : MetaAddress)
  : IO (string * JS.number * string) :=
  sleep 1500 ;;;
  let ephemeralPrivKey := TestStealthAddress.generatePrivateKey random in
  ephemeralPubKey <- call (TestStealthAddress.getPublicKey ephemeralPrivKey) ;;
  console_log [Str (nl ++ "2. Sender generates a temporary 'Ephemeral Key Pair':")] ;;;
  console_log [Str ("   [Private] Ephemeral Key: " ++ ephemeralPrivKey
                    ++ " (Kept Secret, thrown away after)")] ;;;
  console_log [Str ("   [Public]  Ephemeral Key: " ++ ephemeralPubKey
                    ++ " (Broadcasted to network)")] ;;;
  sleep 1500 ;;;
  sharedSecret <- call (Announcer.computeSharedSecret ephemeralPrivKey
                          (viewingPubKey recipientMetaAddress)) ;;
  console_log [Str (nl ++ "3. Sender computes 'Shared Secret' (ECDH):")] ;;;
  console_log [Str "   Formula: Ephemeral_PrivKey * Recipient_Viewing_PubKey"] ;;;
  console_log [Str ("   Result (S): " ++ sharedSecret)] ;;;
  sleep 1500 ;;;
  sharedSecretBytes <- call (Viem.hexToBytes sharedSecret) ;;
  let hashedSharedSecret := Viem.keccak256 sharedSecretBytes in
  hashedBytes <- call (Viem.hexToBytes hashedSharedSecret) ;;
  let viewTag := JS.index0 hashedBytes in
  console_log [Str (nl ++ "4. Sender computes 'View Tag' (for filtering):")] ;;;
  console_log [Str "   Formula: First byte of keccak256(S)"] ;;;
  console_log [Str ("   Hashed Secret (s): " ++ hashedSharedSecret)] ;;;
  console_log [Str ("   View Tag: " ++ numberToString viewTag ++ " (Broadcasted)")] ;;;
  sleep 1500 ;;;
  s_scalar <- call (Viem.hexToBytes hashedSharedSecret) ;;
  let p_spending_hex := JS.sliceFrom 2 (spendingPubKey recipientMetaAddress) in
  p_spending_point <- call (Noble.fromHex p_spending_hex) ;;
  s_G_pubKey <- call (Noble.getPublicKey s_scalar true) ;;
  let s_G_hex := JS.sliceFrom 2 (Viem.bytesToHex s_G_pubKey) in
  s_G_point <- call (Noble.fromHex s_G_hex) ;;
  let p_stealth_point := add p_spending_point s_G_point in
  stealthPubKey <- call (Noble.toHex p_stealth_point true) ;;
  console_log [Str (nl ++ "5. Sender derives 'Stealth Public Key':")] ;;;
  console_log [Str "   Formula: Recipient_Spending_PubKey + (Hashed_Secret * G)"] ;;;
  console_log [Str ("   Stealth PubKey: 0x" ++ stealthPubKey)] ;;;
  sleep 1500 ;;;
  uncompressedPubKey <- call (Noble.toHex p_stealth_point false) ;;
  uncompressedBytes <- call (Viem.hexToBytes ("0x" ++ uncompressedPubKey)) ;;
  let pubKeyBytes := tl uncompressedBytes in
  let addressHash := Viem.keccak256 pubKeyBytes in
  let stealthAddress := "0x" ++ JS.sliceLast 40 addressHash in
  console_log [Str (nl ++ "6. Sender converts Stealth PubKey to Ethereum Address:")] ;;;
  console_log [Str ("   Stealth Address: " ++ stealthAddress ++ " (Where funds are sent)")] ;;;
  sleep 2000 ;;;
  ret (ephemeralPubKey, viewTag, stealthAddress).

(** The announcement made of what was derived. *)
Definition announcementFrom (derived : string * JS.number * string) (digits : string)
  : Announcer.Announcement :=
  let '(ephemeralPubKey, viewTag, stealthAddress) := derived in
  {| Announcer.schemeId := SCHEME_ID;
     Announcer.stealthAddress := stealthAddress;
     Announcer.caller := "0x0000000000000000000000000000000000000001";
     Announcer.ephemeralPubKey := ephemeralPubKey;
     Announcer.metadata := "0x" ++ JS.padStart 2 "0" digits |}.

(** The walkthrough's [generateStealthAddress], step 7. *)
Definition announce (derived : string * JS.number * string)
  : Script Announcer.Announcement :=
  Script.bind (Script.eval (numberToString16 (snd (fst derived)))) (fun digits =>
  Script.bind (AnnouncerWalkthrough.emitAnnouncement (announcementFrom derived digits)) (fun _ =>
  Script.ret (announcementFrom derived digits))).

End WalkthroughSteps.

(** ** How runs end *)

(** A script that writes the same lines and ends the same way whatever
    the console held before. *)
Definition appends {A} (m : IO A) : Prop :=
  exists (written : list Console) (r : completion A),
    forall out, m out = ((out ++ written)%list, r).

(** How a tag check can end. *)
Inductive FilterRun (viewTag : JS.number)
  : list Console * completion (option string) -> Prop :=
| FilterThrew (e : Error) : FilterRun viewTag ([headerLine], Throw e)
| FilterRejected (t : JS.number) :
    JS.strictEq t viewTag = false ->
    FilterRun viewTag ([headerLine; calculatedLine t; noMatchLine], Normal None)
| FilterAccepted (t : JS.number) (hashed : string) :
    JS.strictEq t viewTag = true ->
    FilterRun viewTag ([headerLine; calculatedLine t; matchLine], Normal (Some hashed)).

(** How a recovery can end, started on a console [out]. *)
Inductive RecoverRun (announcement : TestStealthAddress.Announcement)
    (out : list Console) : list Console * completion unit -> Prop :=
| RecoverThrewEarly (e : Error) : RecoverRun announcement out (out, Throw e)
| RecoverThrew (d : string) (e : Error) :
    RecoverRun announcement out ((out ++ [keyLine d])%list, Throw e)
| RecoverVerified (d a : string) :
    JS.toLowerCase a = JS.toLowerCase (TestStealthAddress.annStealthAddress announcement) ->
    RecoverRun announcement out
      ((out ++ [keyLine d; addressLine a; successLine])%list, Normal tt)
| RecoverMismatch (d a : string) :
    JS.toLowerCase a <> JS.toLowerCase (TestStealthAddress.annStealthAddress announcement) ->
    RecoverRun announcement out
      ((out ++ [keyLine d; addressLine a; failureLine])%list, Normal tt).

(** How a scan can end: with an exception of a library call, or normally
    after a tag that does not match, after a recovery that verifies, or
    after a recovery that does not. *)
Inductive ScanRun (announcement : TestStealthAddress.Announcement)
  : list Console * completion unit -> Prop :=
| ScanThrew (out : list Console) (e : Error) : ScanRun announcement (out, Throw e)
| ScanNoMatch (t : JS.number) :
    JS.strictEq t (TestStealthAddress.annViewTag announcement) = false ->
    ScanRun announcement ([headerLine; calculatedLine t; noMatchLine], Normal tt)
| ScanRecovered (t : JS.number) (d a : string) :
    JS.strictEq t (TestStealthAddress.annViewTag announcement) = true ->
    JS.toLowerCase a = JS.toLowerCase (TestStealthAddress.annStealthAddress announcement) ->
    ScanRun announcement
      ([headerLine; calculatedLine t; matchLine; keyLine d; addressLine a; successLine],
       Normal tt)
| ScanRecoveryMismatch (t : JS.number) (d a : string) :
    JS.strictEq t (TestStealthAddress.annViewTag announcement) = true ->
    JS.toLowerCase a <> JS.toLowerCase (TestStealthAddress.annStealthAddress announcement) ->
    ScanRun announcement
      ([headerLine; calculatedLine t; matchLine; keyLine d; addressLine a; failureLine],
       Normal tt).

(** What the recipient's scan of the sender's result [g] amounts to when
    it recovers the key: with [S] the shared secret and [h] its digest, the
    scan derives [d = (spending + h) mod CURVE_ORDER], a private key in
    range whose public key is the stealth point [P_spending + h G] and
    whose address is the announced one, and ends on the success line. *)
Definition Recovered {C : Crypto} (spend : bytes) (keys : RecipientKeys)
    (g : TestStealthAddress.Generated) : Prop :=
  exists (S : bytes) (derivedAddress : string) (P_spending : Point),
    let h := bytesToNumberBE (keccak_256 S) in
    let d := (bytesToNumberBE spend + h) mod CURVE_ORDER in
    let d_stealth := "0x" ++ JS.padStart 64 "0" (JS.toString16 d) in
    TestStealthAddress.computeSharedSecret (viewingPrivKey keys)
      (TestStealthAddress.ephemeralPubKey g) = Normal (Viem.bytesToHex S) /\
    run (TestStealthAddress.scanAndRecover (TestStealthAddress.announcementOf g) keys) =
      ([log [Str (nl ++ "--- Recipient: Scanning & Recovering ---")];
        log [Str "Calculated View Tag:"; Number (TestStealthAddress.viewTag g)];
        log [Str "View Tag Match! Proceeding to recover..."];
        log [Str "Derived Stealth Private Key:"; Str d_stealth];
        log [Str "Derived Stealth Address:"; Str derivedAddress];
        log [Str "SUCCESS: Stealth Address Verified and Private Key Recovered!"]],
       Normal tt) /\
    ViemAccounts.privateKeyToAddress d_stealth = Normal derivedAddress /\
    JS.toLowerCase derivedAddress = JS.toLowerCase (TestStealthAddress.stealthAddress g) /\
    0 < d < CURVE_ORDER /\
    Noble.fromHex (JS.sliceFrom 2 (recipientSpendingPubKey keys)) = Normal P_spending /\
    multiply G d = add P_spending (multiply G h).

(** An announcement with its scheme id replaced, and the line that prints
    the id. *)
Definition withSchemeId (s : Z) (a : Announcer.Announcement) : Announcer.Announcement :=
  {| Announcer.schemeId := s;
     Announcer.stealthAddress := Announcer.stealthAddress a;
     Announcer.caller := Announcer.caller a;
     Announcer.ephemeralPubKey := Announcer.ephemeralPubKey a;
     Announcer.metadata := Announcer.metadata a |}.

Definition schemeIdLine (s : Z) : Console :=
  log [Str ("   [Public] schemeId:        " ++ numberToString (JS.Num s))].

(** Hex digits and nothing else. *)
Fixpoint allHexDigits (s : string) : bool :=
  match s with
  | EmptyString => true
  | String c r =>
      match JS.digitValue c with
      | Some _ => allHexDigits r
      | None => false
      end
  end.

(** A script all of whose lines satisfy [P], whatever the console held
    before and however the script ends. *)
Definition writesOnly {A} (P : Console -> Prop) (m : IO A) : Prop :=
  forall out, exists written, fst (m out) = (out ++ written)%list /\ Forall P written.

(** Neither the line of a failed verification nor that of a tag that does
    not match. *)
Definition unremarkable (line : Console) : Prop :=
  line <> failureLine /\ line <> noMatchLine.

(** The lines on which the scans of the three walkthroughs end. *)
Definition walkthroughNoMatch : Console :=
  log [Str "   [X] View Tag Mismatch! Ignoring transaction."].
Definition walkthroughSuccess : Console :=
  log [Str (nl ++ "   [SUCCESS] The derived key controls the stealth address!")].
Definition walkthroughFailure : Console :=
  error [Str (nl ++ "   [FAILURE] Something went wrong.")].

(** The announcement the script's scan would be handed in place of an
    announcement of the announcer: the view tag is the one parsed from the
    metadata. *)
Definition scriptAnnouncement (a : Announcer.Announcement) : TestStealthAddress.Announcement :=
  {| TestStealthAddress.annEphemeralPubKey := Announcer.ephemeralPubKey a;
     TestStealthAddress.annViewTag := JS.parseInt16 (JS.slice 2 4 (Announcer.metadata a));
     TestStealthAddress.annStealthAddress := Announcer.stealthAddress a |}.

(** Two scans that end alike: with the same completion, and each on its
    line of success, of failure or of a tag that does not match when the
    other does. *)
Definition endAlike (walkthrough script : list Console * completion unit) : Prop :=
  snd walkthrough = snd script /\
  (In walkthroughSuccess (fst walkthrough) <-> In successLine (fst script)) /\
  (In walkthroughFailure (fst walkthrough) <-> In failureLine (fst script)) /\
  (In walkthroughNoMatch (fst walkthrough) <-> In noMatchLine (fst script)).

(** Neither the line of a failed verification nor that of a tag that does
    not match, as the walkthroughs write them. *)
Definition unremarkableInWalkthrough (line : Console) : Prop :=
  line <> walkthroughFailure /\ line <> walkthroughNoMatch.

(** ** Recipients, draws and announcements used as examples *)

(** The entropy that makes [getRandomValues] return the given bytes. *)
Definition entropyOf (bs : bytes) : Entropy := fun i => nth i bs x00.

(** The keys of a recipient, the public ones as [getPublicKey] returns
    them. *)
Definition keysOf {C : Crypto} (spend view : bytes) : RecipientKeys :=
  let pub sk := match TestStealthAddress.getPublicKey (Viem.bytesToHex sk) with
                | Normal p => p
                | Throw _ => EmptyString
                end in
  {| spendingPrivKey := Viem.bytesToHex spend;
     viewingPrivKey := Viem.bytesToHex view;
     recipientSpendingPubKey := pub spend;
     recipientViewingPubKey := pub view |}.

(** The spending key 3, the viewing key 5, and a sender that draws 7. *)
Definition spend3 : bytes := numberToBytesBE 32 3.
Definition view5 : bytes := numberToBytesBE 32 5.
Definition draw7 : Entropy := entropyOf (numberToBytesBE 32 7).

(** That recipient and that draw in the group of residues. *)
Definition residueKeys : RecipientKeys :=
  Eval vm_compute in keysOf (C := Residues) spend3 view5.

Definition residueRun : list Console * completion TestStealthAddress.Generated :=
  Eval vm_compute in
    run (TestStealthAddress.generateStealthAddress (C := Residues) draw7
           (metaAddressOf residueKeys)).

Definition residueGenerated : TestStealthAddress.Generated :=
  Eval vm_compute in
    match snd residueRun with
    | Normal g => g
    | Throw _ => {| TestStealthAddress.stealthAddress := EmptyString;
                    TestStealthAddress.ephemeralPubKey := EmptyString;
                    TestStealthAddress.viewTag := JS.Undefined;
                    TestStealthAddress.ciphertext := EmptyString |}
    end.

Definition residuePub (sk : bytes) : string :=
  match TestStealthAddress.getPublicKey (C := Residues) (Viem.bytesToHex sk) with
  | Normal p => p
  | Throw _ => EmptyString
  end.

(** The same recipient on secp256k1. *)
Definition realKeys : RecipientKeys :=
  {| spendingPrivKey := "0x0000000000000000000000000000000000000000000000000000000000000003";
     viewingPrivKey := "0x0000000000000000000000000000000000000000000000000000000000000005";
     recipientSpendingPubKey :=
       "0x02f9308a019258c31049344f85f89d5229b531c845836f99b08601f113bce036f9";
     recipientViewingPubKey :=
       "0x022f8bde4d1a07209355b4a7250a5c5128e88b84bddc619ab7cba8d569b240efe4" |}.

(** What the sender returns to that recipient when it draws the key 7. *)
Definition realGenerated : TestStealthAddress.Generated :=
  {| TestStealthAddress.stealthAddress := "0xf0b80c1ce96ecb00fc6e3dd9154bef79dac445c8";
     TestStealthAddress.ephemeralPubKey :=
       "0x025cbdf0646e5db4eaa398f365f2ea7a0e3d419b7e0330e39ce92bddedcac4f9bc";
     TestStealthAddress.viewTag := JS.Num 139;
     TestStealthAddress.ciphertext := "0x..." |}.

Definition realSenderLines : list Console :=
  [log [Str (nl ++ "--- Sender: Generating Stealth Address ---")];
   log [Str "Sender Ephemeral PubKey:";
        Str "0x025cbdf0646e5db4eaa398f365f2ea7a0e3d419b7e0330e39ce92bddedcac4f9bc"];
   log [Str "Shared Secret (Sender):";
        Str "0x03605bdb019981718b986d0f07e834cb0d9deb8360ffb7f61df982345ef27a7479"];
   log [Str "View Tag:"; Number (JS.Num 139)]].

(** The key and the address the recipient recovers from it. *)
Definition recoveredKey : string :=
  "0x8b37147f46b32b1adb2ebc02ed6ac119424e4d457c330e40a9441c9fd197e2c0".
Definition recoveredAddress : string := "0xf0B80C1CE96ecB00fC6E3DD9154bEf79dAc445C8".

(** The announcement of [realGenerated], the same with another tag, and
    the same with another address. *)
Definition announced : TestStealthAddress.Announcement :=
  TestStealthAddress.announcementOf realGenerated.

Definition announcedOtherTag : TestStealthAddress.Announcement :=
  {| TestStealthAddress.annEphemeralPubKey := TestStealthAddress.ephemeralPubKey realGenerated;
     TestStealthAddress.annViewTag := JS.Num 140;
     TestStealthAddress.annStealthAddress := TestStealthAddress.stealthAddress realGenerated |}.

Definition announcedOtherAddress : TestStealthAddress.Announcement :=
  {| TestStealthAddress.annEphemeralPubKey := TestStealthAddress.ephemeralPubKey realGenerated;
     TestStealthAddress.annViewTag := JS.Num 139;
     TestStealthAddress.annStealthAddress := "0x0000000000000000000000000000000000000000" |}.

Definition announcedOtherTagAndAddress : TestStealthAddress.Announcement :=
  {| TestStealthAddress.annEphemeralPubKey := TestStealthAddress.ephemeralPubKey realGenerated;
     TestStealthAddress.annViewTag := JS.Num 140;
     TestStealthAddress.annStealthAddress := "0x0000000000000000000000000000000000000000" |}.

(** A recipient with another spending key, and no usable one at all. *)
Definition otherSpender : RecipientKeys :=
  {| spendingPrivKey := "not a key";
     viewingPrivKey := viewingPrivKey realKeys;
     recipientSpendingPubKey := recipientSpendingPubKey realKeys;
     recipientViewingPubKey := recipientViewingPubKey realKeys |}.

(** The recipient whose spending key is the opposite, modulo the order, of
    the scalar the sender derives when it draws the key 7 for the viewing
    key 5. *)
Definition oppositeSpend : bytes :=
  numberToBytesBE 32
    (CURVE_ORDER - 0x8b37147f46b32b1adb2ebc02ed6ac119424e4d457c330e40a9441c9fd197e2bd).

Definition oppositeKeys : RecipientKeys :=
  {| spendingPrivKey := "0x74c8eb80b94cd4e524d143fd12953ee578608fa1331591fb168e41ecfe9e5e84";
     viewingPrivKey := "0x0000000000000000000000000000000000000000000000000000000000000005";
     recipientSpendingPubKey :=
       "0x036f5c45bba246c5487628efabb35bcb867c9b1cc58f8c4de13f2404aa13bca0a5";
     recipientViewingPubKey :=
       "0x022f8bde4d1a07209355b4a7250a5c5128e88b84bddc619ab7cba8d569b240efe4" |}.

(** An announcement of scheme 2 that otherwise is the one of
    [realGenerated], the tag 139 in the first byte of its metadata. *)
Definition foreignAnnouncement : Announcer.Announcement :=
  {| Announcer.schemeId := 2;
     Announcer.stealthAddress := "0xf0b80c1ce96ecb00fc6e3dd9154bef79dac445c8";
     Announcer.caller := "0x0000000000000000000000000000000000000001";
     Announcer.ephemeralPubKey :=
       "0x025cbdf0646e5db4eaa398f365f2ea7a0e3d419b7e0330e39ce92bddedcac4f9bc";
     Announcer.metadata := "0x8b" |}.

(** The residues' recipient registered under a handle, and the
    walkthrough's sender run for that handle with the draw 7. *)
Definition registeredStore : Store :=
  Eval vm_compute in
    fst (AnnouncerWalkthrough.registerKeys "alice.eth" (recipientSpendingPubKey residueKeys)
           (recipientViewingPubKey residueKeys) initial).

Definition residueAnnounced : Store * outcome Announcer.Announcement :=
  Eval vm_compute in
    AnnouncerWalkthrough.generateStealthAddress (C := Residues) draw7 "alice.eth" registeredStore.

Definition residueAnnouncement : Announcer.Announcement :=
  Eval vm_compute in
    match snd residueAnnounced with
    | Returned a => a
    | Raised _ => {| Announcer.schemeId := 0;
                     Announcer.stealthAddress := EmptyString;
                     Announcer.caller := EmptyString;
                     Announcer.ephemeralPubKey := EmptyString;
                     Announcer.metadata := EmptyString |}
    end.

(** A handle nobody has registered. *)
Definition stranger : string := "bob.eth".

(** The announcement of [realGenerated] with its address in the
    check-summed spelling. *)
Definition announcedChecksummed : TestStealthAddress.Announcement :=
  {| TestStealthAddress.annEphemeralPubKey := TestStealthAddress.ephemeralPubKey realGenerated;
     TestStealthAddress.annViewTag := JS.Num 139;
     TestStealthAddress.annStealthAddress := recoveredAddress |}.

(** An announcement whose ephemeral key is one byte. *)
Definition announcedOffCurve : TestStealthAddress.Announcement :=
  {| TestStealthAddress.annEphemeralPubKey := "0x00";
     TestStealthAddress.annViewTag := JS.Num 139;
     TestStealthAddress.annStealthAddress := TestStealthAddress.stealthAddress realGenerated |}.

(** * Properties *)

(** ** Bytes and their big-endian value *)

Lemma byteZ_range (b : byte) : 0 <= byteZ b < 256.
Proof.
  unfold byteZ. pose proof (Byte.to_N_bounded b). lia.
Qed.

Lemma Zbyte_byteZ (b : byte) : Zbyte (byteZ b) = b.
Proof.
  unfold Zbyte. rewrite Z.mod_small by apply byteZ_range.
  unfold byteZ. rewrite N2Z.id, Byte.of_to_N. reflexivity.
Qed.

Lemma byteZ_Zbyte (z : Z) : byteZ (Zbyte z) = z mod 256.
Proof.
  unfold Zbyte, byteZ.
  pose proof (Z.mod_pos_bound z 256 ltac:(lia)) as Hr.
  destruct (Byte.of_N (Z.to_N (z mod 256))) as [b|] eqn:E.
  - apply Byte.to_of_N in E. rewrite E. lia.
  - apply Byte.of_N_None_iff in E. lia.
Qed.

Lemma foldBE_app (xs ys : bytes) (acc : Z) :
  fold_left stepBE (xs ++ ys) acc = fold_left stepBE ys (fold_left stepBE xs acc).
Proof. apply fold_left_app. Qed.

Lemma foldBE_shift (bs : bytes) (acc : Z) :
  fold_left stepBE bs acc = acc * 256 ^ Z.of_nat (List.length bs) + fold_left stepBE bs 0.
Proof.
  revert acc. induction bs as [|b bs IH]; intro acc.
  - simpl. lia.
  - cbn [fold_left List.length]. rewrite IH, (IH (stepBE 0 b)).
    unfold stepBE. rewrite Nat2Z.inj_succ, Z.pow_succ_r by lia. ring.
Qed.

Lemma foldBE_range (bs : bytes) :
  0 <= fold_left stepBE bs 0 < 256 ^ Z.of_nat (List.length bs).
Proof.
  induction bs as [|b bs IH] using rev_ind.
  - simpl. lia.
  - rewrite foldBE_app, length_app. cbn [fold_left List.length].
    set (X := fold_left stepBE bs 0) in *. unfold stepBE.
    pose proof (byteZ_range b).
    replace (Z.of_nat (List.length bs + 1)) with (Z.succ (Z.of_nat (List.length bs))) by lia.
    rewrite Z.pow_succ_r by lia. lia.
Qed.

Lemma bytesToNumberBE_range (bs : bytes) :
  0 <= bytesToNumberBE bs < 256 ^ Z.of_nat (List.length bs).
Proof. apply foldBE_range. Qed.

Lemma numberToBytesBE_length (len : nat) (z : Z) :
  List.length (numberToBytesBE len z) = len.
Proof.
  revert z. induction len as [|k IH]; intro z; simpl.
  - reflexivity.
  - rewrite length_app, IH. simpl. lia.
Qed.

Lemma bytesToNumberBE_numberToBytesBE (len : nat) (z : Z) :
  0 <= z < 256 ^ Z.of_nat len ->
  bytesToNumberBE (numberToBytesBE len z) = z.
Proof.
  unfold bytesToNumberBE. revert z. induction len as [|k IH]; intros z Hz.
  - simpl in *. lia.
  - cbn [numberToBytesBE]. rewrite foldBE_app. cbn [fold_left]. unfold stepBE at 1.
    rewrite Nat2Z.inj_succ, Z.pow_succ_r in Hz by lia.
    rewrite IH, byteZ_Zbyte.
    + pose proof (Z.div_mod z 256 ltac:(lia)). lia.
    + split; [apply Z.div_pos; lia | apply Z.div_lt_upper_bound; lia].
Qed.

(** ** Hex digits *)

Lemma digitValue_hexDigit (d : Z) :
  0 <= d < 16 -> JS.digitValue (JS.hexDigit d) = Some d.
Proof.
  intro H.
  assert (d = 0 \/ d = 1 \/ d = 2 \/ d = 3 \/ d = 4 \/ d = 5 \/ d = 6 \/ d = 7 \/
          d = 8 \/ d = 9 \/ d = 10 \/ d = 11 \/ d = 12 \/ d = 13 \/ d = 14 \/ d = 15)
    as D by lia.
  repeat (destruct D as [D|D]; [subst d; reflexivity|]). subst d; reflexivity.
Qed.

Lemma lowerChar_hexDigit (d : Z) :
  0 <= d < 16 -> JS.lowerChar (JS.hexDigit d) = JS.hexDigit d.
Proof.
  intro H.
  assert (d = 0 \/ d = 1 \/ d = 2 \/ d = 3 \/ d = 4 \/ d = 5 \/ d = 6 \/ d = 7 \/
          d = 8 \/ d = 9 \/ d = 10 \/ d = 11 \/ d = 12 \/ d = 13 \/ d = 14 \/ d = 15)
    as D by lia.
  repeat (destruct D as [D|D]; [subst d; reflexivity|]). subst d; reflexivity.
Qed.

Lemma nibbles_of_byte (b : byte) :
  0 <= byteZ b / 16 < 16 /\ 0 <= byteZ b mod 16 < 16 /\
  (byteZ b / 16) * 16 + byteZ b mod 16 = byteZ b.
Proof.
  pose proof (byteZ_range b) as R.
  pose proof (Z.div_mod (byteZ b) 16 ltac:(lia)).
  pose proof (Z.mod_pos_bound (byteZ b) 16 ltac:(lia)).
  assert (0 <= byteZ b / 16) by (apply Z.div_pos; lia).
  assert (byteZ b / 16 < 16) by (apply Z.div_lt_upper_bound; lia).
  lia.
Qed.

Lemma append_assoc (a b c : string) : (a ++ b) ++ c = a ++ (b ++ c).
Proof. induction a as [|x a IH]; simpl; [reflexivity | now rewrite IH]. Qed.

Lemma append_length (a b : string) :
  String.length (a ++ b) = (String.length a + String.length b)%nat.
Proof. induction a as [|x a IH]; simpl; [reflexivity | now rewrite IH]. Qed.

Lemma hexOfBytes_length (bs : bytes) :
  String.length (Viem.hexOfBytes bs) = (2 * List.length bs)%nat.
Proof.
  induction bs as [|b bs IH]; simpl; [reflexivity | rewrite IH; lia].
Qed.

Lemma bytesToHex_length (bs : bytes) :
  String.length (Viem.bytesToHex bs) = (2 + 2 * List.length bs)%nat.
Proof. unfold Viem.bytesToHex. simpl. now rewrite hexOfBytes_length. Qed.

Lemma hexPairs_hexOfBytes (bs : bytes) : Viem.hexPairs (Viem.hexOfBytes bs) = Normal bs.
Proof.
  induction bs as [|b bs IH]; [reflexivity|].
  destruct (nibbles_of_byte b) as (Hh & Hl & E).
  cbn [Viem.hexOfBytes Viem.hexes append Viem.hexPairs].
  rewrite !digitValue_hexDigit by assumption.
  rewrite IH. cbn [cbind]. now rewrite E, Zbyte_byteZ.
Qed.

Lemma odd_double (k : nat) : Nat.odd (2 * k) = false.
Proof.
  rewrite <- Nat.negb_even, Nat.even_mul. reflexivity.
Qed.

Lemma hexToBytes_bytesToHex (bs : bytes) :
  Viem.hexToBytes (Viem.bytesToHex bs) = Normal bs.
Proof.
  unfold Viem.hexToBytes, Viem.bytesToHex. cbn [append JS.sliceFrom JS.drop].
  rewrite hexOfBytes_length, odd_double. apply hexPairs_hexOfBytes.
Qed.

Lemma hexToBytes_0x_hexOfBytes (bs : bytes) :
  Viem.hexToBytes ("0x" ++ Viem.hexOfBytes bs) = Normal bs.
Proof. apply hexToBytes_bytesToHex. Qed.

Lemma hexValue_hexOfBytes (bs : bytes) (acc : Z) :
  JS.hexValue (Viem.hexOfBytes bs) acc = Some (fold_left stepBE bs acc).
Proof.
  revert acc. induction bs as [|b bs IH]; intro acc; [reflexivity|].
  destruct (nibbles_of_byte b) as (Hh & Hl & E).
  cbn [Viem.hexOfBytes Viem.hexes append JS.hexValue fold_left].
  rewrite !digitValue_hexDigit by assumption. rewrite IH.
  f_equal. f_equal. unfold stepBE. lia.
Qed.

Lemma BigInt_bytesToHex (bs : bytes) :
  bs <> [] -> JS.BigInt (Viem.bytesToHex bs) = Normal (bytesToNumberBE bs).
Proof.
  destruct bs as [|b bs]; [congruence | intros _].
  pose proof (hexValue_hexOfBytes (b :: bs) 0) as H.
  unfold Viem.bytesToHex. cbn [Viem.hexOfBytes Viem.hexes append] in *.
  unfold JS.BigInt. cbn [Ascii.eqb Bool.eqb orb]. rewrite H. reflexivity.
Qed.

Lemma toLowerCase_app (a b : string) :
  JS.toLowerCase (a ++ b) = JS.toLowerCase a ++ JS.toLowerCase b.
Proof. induction a as [|x a IH]; simpl; [reflexivity | now rewrite IH]. Qed.

Lemma toLowerCase_hexOfBytes (bs : bytes) :
  JS.toLowerCase (Viem.hexOfBytes bs) = Viem.hexOfBytes bs.
Proof.
  induction bs as [|b bs IH]; [reflexivity|].
  destruct (nibbles_of_byte b) as (Hh & Hl & _).
  cbn [Viem.hexOfBytes Viem.hexes append JS.toLowerCase].
  rewrite !lowerChar_hexDigit by assumption. now rewrite IH.
Qed.

Lemma drop_toLowerCase (k : nat) (s : string) :
  JS.drop k (JS.toLowerCase s) = JS.toLowerCase (JS.drop k s).
Proof.
  revert s. induction k as [|k IH]; intros [|c s]; simpl; auto.
Qed.

Lemma lowerChar_idem (c : ascii) : JS.lowerChar (JS.lowerChar c) = JS.lowerChar c.
Proof. destruct c as [[] [] [] [] [] [] [] []]; reflexivity. Qed.

Lemma lowerChar_upperChar (c : ascii) : JS.lowerChar (JS.upperChar c) = JS.lowerChar c.
Proof. destruct c as [[] [] [] [] [] [] [] []]; reflexivity. Qed.

Lemma toLowerCase_idem (s : string) : JS.toLowerCase (JS.toLowerCase s) = JS.toLowerCase s.
Proof.
  induction s as [|c s IH]; simpl; [reflexivity | now rewrite lowerChar_idem, IH].
Qed.

(** ** A private key written as 64 hex digits *)

Lemma digitValue_range (c : ascii) (d : Z) : JS.digitValue c = Some d -> 0 <= d < 16.
Proof.
  unfold JS.digitValue. set (n := Z.of_N (N_of_ascii c)).
  destruct ((48 <=? n) && (n <=? 57)) eqn:E1;
    [|destruct ((65 <=? n) && (n <=? 70)) eqn:E2;
      [|destruct ((97 <=? n) && (n <=? 102)) eqn:E3]];
    intro H; inversion H; subst; clear H;
    try (apply andb_prop in E1 as [? ?]); try (apply andb_prop in E2 as [? ?]);
    try (apply andb_prop in E3 as [? ?]); lia.
Qed.

Lemma hexValue_app (a b : string) (acc : Z) :
  JS.hexValue (a ++ b) acc =
  match JS.hexValue a acc with
  | Some v => JS.hexValue b v
  | None => None
  end.
Proof.
  revert acc. induction a as [|c a IH]; intro acc; simpl; [reflexivity|].
  destruct (JS.digitValue c); [apply IH | reflexivity].
Qed.

Lemma hexValue_zeros (k : nat) : JS.hexValue (JS.repeatChar "0" k) 0 = Some 0.
Proof. induction k as [|k IH]; [reflexivity | exact IH]. Qed.

Lemma repeatChar_length (c : ascii) (k : nat) : String.length (JS.repeatChar c k) = k.
Proof. induction k as [|k IH]; simpl; [reflexivity | now rewrite IH]. Qed.

Lemma posDigits_spec (fuel : nat) : forall (z : Z) (acc : string),
  0 <= z < 16 ^ Z.of_nat fuel ->
  exists ds : string,
    JS.posDigits fuel z acc = ds ++ acc /\
    (forall a, JS.hexValue ds a = Some (a * 16 ^ Z.of_nat (String.length ds) + z)) /\
    (forall k : nat, (1 <= k)%nat -> z < 16 ^ Z.of_nat k -> (String.length ds <= k)%nat).
Proof.
  induction fuel as [|f IH]; intros z acc Hz.
  - exists EmptyString. simpl in Hz. assert (z = 0) by lia. subst z.
    refine (conj eq_refl (conj _ _)).
    + intro a. simpl. f_equal. lia.
    + intros k _ _. simpl. lia.
  - cbn [JS.posDigits]. destruct (z <? 16) eqn:E.
    + apply Z.ltb_lt in E. exists (String (JS.hexDigit z) EmptyString).
      refine (conj eq_refl (conj _ _)).
      * intro a. cbn [JS.hexValue String.length]. rewrite digitValue_hexDigit by lia.
        f_equal; change (16 ^ Z.of_nat 1) with 16; lia.
      * intros k Hk _. simpl. lia.
    + apply Z.ltb_ge in E.
      rewrite Nat2Z.inj_succ, Z.pow_succ_r in Hz by lia.
      pose proof (Z.div_mod z 16 ltac:(lia)) as Hdm.
      pose proof (Z.mod_pos_bound z 16 ltac:(lia)) as Hm.
      assert (Hq : 0 <= z / 16 < 16 ^ Z.of_nat f).
      { split; [apply Z.div_pos; lia | apply Z.div_lt_upper_bound; lia]. }
      destruct (IH (z / 16) (String (JS.hexDigit (z mod 16)) acc) Hq)
        as (ds & Eds & Hval & Hlen).
      exists (ds ++ String (JS.hexDigit (z mod 16)) EmptyString).
      refine (conj _ (conj _ _)).
      * rewrite Eds, append_assoc. reflexivity.
      * intro a. rewrite hexValue_app, Hval. cbn [JS.hexValue].
        rewrite digitValue_hexDigit by lia. f_equal.
        rewrite append_length. cbn [String.length].
        replace (Z.of_nat (String.length ds + 1)) with (Z.succ (Z.of_nat (String.length ds)))
          by lia.
        rewrite Z.pow_succ_r by lia. lia.
      * intros k Hk Hzk. rewrite append_length. cbn [String.length].
        destruct k as [|[|k]]; [lia | change (16 ^ Z.of_nat 1) with 16 in Hzk; lia |].
        assert (String.length ds <= S k)%nat; [|lia].
        apply Hlen; [lia|].
        rewrite (Nat2Z.inj_succ (S k)), Z.pow_succ_r in Hzk by lia.
        apply Z.div_lt_upper_bound; lia.
Qed.

Lemma toString16_spec (d : Z) :
  0 <= d ->
  exists ds : string,
    JS.toString16 d = ds /\
    JS.hexValue ds 0 = Some d /\
    (forall k : nat, (1 <= k)%nat -> d < 16 ^ Z.of_nat k -> (String.length ds <= k)%nat).
Proof.
  intro Hd. unfold JS.toString16.
  destruct (d <? 0) eqn:E; [apply Z.ltb_lt in E; lia|].
  assert (Hf : 0 <= d < 16 ^ Z.of_nat (Z.to_nat (Z.log2 d) + 1)).
  { split; [assumption|].
    pose proof (Z.log2_nonneg d) as Hl.
    replace (Z.of_nat (Z.to_nat (Z.log2 d) + 1)) with (Z.succ (Z.log2 d)) by lia.
    destruct (Z.eq_dec d 0) as [->|Hnz]; [simpl; lia|].
    pose proof (Z.log2_spec d ltac:(lia)) as [_ Hlt].
    eapply Z.lt_le_trans; [exact Hlt|].
    apply Z.pow_le_mono_l. lia. }
  destruct (posDigits_spec _ d EmptyString Hf) as (ds & Eds & Hval & Hlen).
  exists (ds ++ EmptyString). refine (conj _ (conj _ _)).
  - now rewrite Eds.
  - rewrite hexValue_app, Hval. simpl. f_equal; lia.
  - intros k Hk Hdk. rewrite append_length. simpl. specialize (Hlen k Hk Hdk). lia.
Qed.

Lemma privateKeyDigits (d : Z) :
  0 <= d < 2 ^ 256 ->
  String.length (JS.padStart 64 "0" (JS.toString16 d)) = 64%nat /\
  JS.hexValue (JS.padStart 64 "0" (JS.toString16 d)) 0 = Some d.
Proof.
  intros [Hd Hlt].
  destruct (toString16_spec d Hd) as (ds & -> & Hval & Hlen).
  assert (String.length ds <= 64)%nat as L.
  { apply Hlen; [lia|]. change (16 ^ Z.of_nat 64) with (2 ^ 256). exact Hlt. }
  unfold JS.padStart. split.
  - rewrite append_length, repeatChar_length. lia.
  - rewrite hexValue_app, hexValue_zeros. exact Hval.
Qed.

Lemma hexPairs_of_hexValue (n : nat) : forall (s : string) (acc v : Z),
  String.length s = (2 * n)%nat ->
  JS.hexValue s acc = Some v ->
  exists bs, Viem.hexPairs s = Normal bs /\ List.length bs = n /\ fold_left stepBE bs acc = v.
Proof.
  induction n as [|n IH]; intros s acc v Hlen Hv.
  - destruct s; [|discriminate]. simpl in Hv. inversion Hv. now exists [].
  - destruct s as [|a [|b r]]; try (simpl in Hlen; lia).
    cbn [JS.hexValue] in Hv.
    destruct (JS.digitValue a) as [l|] eqn:Ea; [|discriminate].
    destruct (JS.digitValue b) as [h|] eqn:Eb; [|discriminate].
    destruct (IH r _ v ltac:(simpl in Hlen; lia) Hv) as (bs & Ebs & Lbs & Vbs).
    exists (Zbyte (l * 16 + h) :: bs). cbn [Viem.hexPairs].
    rewrite Ea, Eb, Ebs. repeat split; [simpl; lia|].
    cbn [fold_left]. unfold stepBE at 2. rewrite byteZ_Zbyte.
    apply digitValue_range in Ea, Eb.
    rewrite Z.mod_small by lia.
    replace (acc * 256 + (l * 16 + h)) with ((acc * 16 + l) * 16 + h) by lia.
    exact Vbs.
Qed.

Lemma privateKeyBytes (d : Z) :
  0 <= d < 2 ^ 256 ->
  exists sk, Viem.hexPairs (JS.padStart 64 "0" (JS.toString16 d)) = Normal sk /\
             List.length sk = 32%nat /\ bytesToNumberBE sk = d.
Proof.
  intro H. destruct (privateKeyDigits d H) as [L V].
  exact (hexPairs_of_hexValue 32 _ 0 d L V).
Qed.

(** ** Check-summed addresses differ from the plain ones in case only *)

Lemma toLowerCase_applyCase (ns : list Z) (s : string) :
  JS.toLowerCase (Viem.applyCase ns s) = JS.toLowerCase s.
Proof.
  revert ns. induction s as [|c s IH]; intros [|n ns]; cbn [Viem.applyCase JS.toLowerCase];
    try reflexivity.
  rewrite IH. destruct (8 <=? n); [now rewrite lowerChar_upperChar | reflexivity].
Qed.

Lemma toLowerCase_checksumAddress {C : Crypto} (a : string) :
  JS.toLowerCase (Viem.checksumAddress ("0x" ++ a)) = "0x" ++ JS.toLowerCase a.
Proof.
  unfold Viem.checksumAddress. cbn [append JS.sliceFrom JS.drop JS.toLowerCase].
  rewrite toLowerCase_applyCase, toLowerCase_idem. reflexivity.
Qed.

Lemma sliceLast_digest (K : bytes) :
  List.length K = 32%nat ->
  JS.sliceLast 40 (Viem.bytesToHex K) = JS.sliceFrom 26 (Viem.bytesToHex K).
Proof.
  intro H. unfold JS.sliceLast, JS.sliceFrom. now rewrite bytesToHex_length, H.
Qed.

Lemma drop4_bytesToHex (ub : bytes) :
  JS.sliceFrom 4 (Viem.bytesToHex ub) = Viem.hexOfBytes (tl ub).
Proof. destruct ub; reflexivity. Qed.

(** ** The group of the curve *)

Lemma CURVE_ORDER_pos : 0 < CURVE_ORDER.
Proof. reflexivity. Qed.

Lemma CURVE_ORDER_small : CURVE_ORDER < 2 ^ 256.
Proof. reflexivity. Qed.

Section Group.
Context {C : Crypto} {L : CryptoLaws C}.

Lemma add_ZERO_r (P : Point) : add P ZERO = P.
Proof. rewrite add_comm. apply add_ZERO_l. Qed.

Lemma multiply_1 (P : Point) : multiply P 1 = P.
Proof.
  change 1 with (0 + 1). rewrite multiply_succ by lia.
  now rewrite multiply_0, add_ZERO_r.
Qed.

Lemma multiply_add (P : Point) (a b : Z) :
  0 <= a -> 0 <= b -> multiply P (a + b) = add (multiply P a) (multiply P b).
Proof.
  intros Ha Hb. revert a Ha. apply natlike_ind.
  - now rewrite multiply_0, add_ZERO_l.
  - intros x Hx IH.
    replace (Z.succ x + b) with ((x + b) + 1) by lia.
    replace (Z.succ x) with (x + 1) by lia.
    rewrite !multiply_succ by lia. now rewrite IH, add_assoc.
Qed.

Lemma multiply_ZERO (k : Z) : 0 <= k -> multiply ZERO k = ZERO.
Proof.
  revert k. apply natlike_ind.
  - apply multiply_0.
  - intros x Hx IH. replace (Z.succ x) with (x + 1) by lia.
    rewrite multiply_succ by lia. now rewrite IH, add_ZERO_l.
Qed.

Lemma multiply_mul (P : Point) (a b : Z) :
  0 <= a -> 0 <= b -> multiply (multiply P a) b = multiply P (a * b).
Proof.
  intros Ha Hb. revert b Hb. apply natlike_ind.
  - now rewrite Z.mul_0_r, !multiply_0.
  - intros x Hx IH. replace (Z.succ x) with (x + 1) by lia.
    rewrite multiply_succ by lia. rewrite IH.
    replace (a * (x + 1)) with (a + a * x) by lia.
    rewrite multiply_add by nia. reflexivity.
Qed.

(** The two Diffie-Hellman products agree. *)
Lemma multiply_swap (a b : Z) :
  0 <= a -> 0 <= b -> multiply (multiply G a) b = multiply (multiply G b) a.
Proof.
  intros Ha Hb. rewrite !multiply_mul by assumption. now rewrite Z.mul_comm.
Qed.

Lemma multiply_G_mod (k : Z) :
  0 <= k -> multiply G (k mod CURVE_ORDER) = multiply G k.
Proof.
  intro Hk. pose proof CURVE_ORDER_pos as Hn.
  pose proof (Z.div_mod k CURVE_ORDER ltac:(lia)) as E.
  pose proof (Z.mod_pos_bound k CURVE_ORDER Hn) as Hr.
  assert (0 <= k / CURVE_ORDER) as Hq by (apply Z.div_pos; lia).
  rewrite E at 2. rewrite multiply_add by nia.
  rewrite <- multiply_mul by lia.
  now rewrite G_order, multiply_ZERO, add_ZERO_l by assumption.
Qed.

(** Adding scalars modulo the order adds the points. *)
Lemma multiply_G_add_mod (a b : Z) :
  0 <= a -> 0 <= b ->
  multiply G ((a + b) mod CURVE_ORDER) = add (multiply G a) (multiply G b).
Proof.
  intros Ha Hb. rewrite multiply_G_mod by lia. now apply multiply_add.
Qed.

End Group.

(** ** Stepping through a script *)

Lemma bind_call_Normal {A B} (a : A) (f : A -> IO B) (out : list Console) :
  bind (call (Normal a)) f out = f a out.
Proof. reflexivity. Qed.

Lemma bind_call_Throw {A B} (e : Error) (f : A -> IO B) (out : list Console) :
  bind (call (Throw e)) f out = (out, Throw e).
Proof. reflexivity. Qed.

Lemma bind_log {B} (args : list Value) (f : unit -> IO B) (out : list Console) :
  bind (console_log args) f out = f tt (out ++ [log args])%list.
Proof. reflexivity. Qed.

Lemma bind_sleep {B} (ms : Z) (f : unit -> IO B) (out : list Console) :
  bind (sleep ms) f out = f tt out.
Proof. reflexivity. Qed.

(** A call that is followed by a normal end returned normally. *)
Lemma bind_call_inv {A B} (c : completion A) (f : A -> IO B) out out' (b : B) :
  bind (call c) f out = (out', Normal b) ->
  exists a, c = Normal a /\ f a out = (out', Normal b).
Proof.
  destruct c as [a|e]; [intro H; now exists a | discriminate].
Qed.

Lemma bind_assoc_at {A B D} (m : IO A) (f : A -> IO B) (g : B -> IO D)
    (out : list Console) :
  bind (bind m f) g out = bind m (fun a => bind (f a) g) out.
Proof. unfold bind. destruct (m out) as [out1 [a|e]]; reflexivity. Qed.

Lemma bind_ext {A B} (m : IO A) (f f' : A -> IO B) :
  (forall a out, f a out = f' a out) -> forall out, bind m f out = bind m f' out.
Proof.
  intros H out. unfold bind. destruct (m out) as [out1 [a|e]]; [apply H | reflexivity].
Qed.

(** ** What the library calls return *)

Section Calls.
Context {C : Crypto} {L : CryptoLaws C}.

Lemma secretKeyToScalar_inv (sk : bytes) (k : Z) :
  Noble.secretKeyToScalar sk = Normal k ->
  List.length sk = 32%nat /\ k = bytesToNumberBE sk /\ 0 < k < CURVE_ORDER.
Proof.
  unfold Noble.secretKeyToScalar.
  destruct (List.length sk =? 32)%nat eqn:E1; [|discriminate].
  destruct ((0 <? bytesToNumberBE sk) && (bytesToNumberBE sk <? CURVE_ORDER)) eqn:E2;
    [|discriminate].
  intro H. inversion H. apply Nat.eqb_eq in E1. apply andb_prop in E2 as [E2 E3].
  apply Z.ltb_lt in E2, E3. auto.
Qed.

Lemma secretKeyToScalar_valid (sk : bytes) :
  List.length sk = 32%nat -> 0 < bytesToNumberBE sk < CURVE_ORDER ->
  Noble.secretKeyToScalar sk = Normal (bytesToNumberBE sk).
Proof.
  intros Hl [H1 H2]. unfold Noble.secretKeyToScalar.
  rewrite Hl. cbn [Nat.eqb].
  apply Z.ltb_lt in H1, H2. now rewrite H1, H2.
Qed.

Lemma orThrow_inv {A} (e : Error) (o : option A) (a : A) :
  orThrow e o = Normal a -> o = Some a.
Proof. destruct o; simpl; congruence. Qed.

Lemma cbind_inv {A B} (c : completion A) (f : A -> completion B) (b : B) :
  cbind c f = Normal b -> exists a, c = Normal a /\ f a = Normal b.
Proof. destruct c as [a|e]; simpl; [intro H; now exists a | discriminate]. Qed.

Lemma Noble_getPublicKey_inv (sk pub : bytes) (c : bool) :
  Noble.getPublicKey sk c = Normal pub ->
  List.length sk = 32%nat /\ 0 < bytesToNumberBE sk < CURVE_ORDER /\
  toBytes (multiply G (bytesToNumberBE sk)) c = Some pub.
Proof.
  unfold Noble.getPublicKey. intro H.
  apply cbind_inv in H as (k & Hk & H). apply orThrow_inv in H.
  apply secretKeyToScalar_inv in Hk as (? & -> & ?). auto.
Qed.

(** A public key the script computed is the encoding of [k G]. *)
Lemma getPublicKey_inv (sk : bytes) (pubHex : string) :
  TestStealthAddress.getPublicKey (Viem.bytesToHex sk) = Normal pubHex ->
  exists pub,
    pubHex = Viem.bytesToHex pub /\
    List.length sk = 32%nat /\ 0 < bytesToNumberBE sk < CURVE_ORDER /\
    toBytes (multiply G (bytesToNumberBE sk)) true = Some pub.
Proof.
  unfold TestStealthAddress.getPublicKey. rewrite hexToBytes_bytesToHex. cbn [cbind].
  intro H. apply cbind_inv in H as (pub & Hp & H). inversion H.
  apply Noble_getPublicKey_inv in Hp as (? & ? & ?). now exists pub.
Qed.

(** The shared secret of a valid key and an encoded point. *)
Lemma computeSharedSecret_spec (sk pk : bytes) (P : Point) :
  List.length sk = 32%nat -> 0 < bytesToNumberBE sk < CURVE_ORDER ->
  fromBytes pk = Some P ->
  TestStealthAddress.computeSharedSecret (Viem.bytesToHex sk) (Viem.bytesToHex pk) =
  cbind (orThrow BadPoint (toBytes (multiply P (bytesToNumberBE sk)) true))
        (fun S => Normal (Viem.bytesToHex S)).
Proof.
  intros Hl Hr HP. unfold TestStealthAddress.computeSharedSecret, Noble.getSharedSecret.
  rewrite !hexToBytes_bytesToHex. cbn [cbind]. rewrite HP. cbn [orThrow cbind].
  rewrite secretKeyToScalar_valid by assumption. cbn [cbind].
  now destruct (toBytes (multiply P (bytesToNumberBE sk)) true).
Qed.

Lemma fromHex_hexOfBytes (P : Point) (c : bool) (bs : bytes) :
  toBytes P c = Some bs -> Noble.fromHex (Viem.hexOfBytes bs) = Normal P.
Proof.
  intro H. unfold Noble.fromHex. rewrite hexPairs_hexOfBytes. cbn [cbind].
  now rewrite (fromBytes_toBytes P c bs H).
Qed.

End Calls.

(** ** What the sender computes *)

Lemma getRandomValues_length (random : Entropy) (len : nat) :
  List.length (getRandomValues random len) = len.
Proof. unfold getRandomValues. now rewrite length_map, length_seq. Qed.

Lemma digest_nonempty {C : Crypto} {L : CryptoLaws C} (bs : bytes) : keccak_256 bs <> [].
Proof.
  pose proof (keccak_256_length bs) as H. destruct (keccak_256 bs); [discriminate | congruence].
Qed.

Ltac step_log H := rewrite bind_log in H; cbv beta zeta in H.
Ltac step_call H x Hx :=
  apply bind_call_inv in H as (x & Hx & H); cbv beta zeta in H.

Section Sender.
Context {C : Crypto} {L : CryptoLaws C}.

(** A run of the sender that returns has, in this order: drawn an
    ephemeral key [e] in range; encoded [e G]; encoded the shared point
    [e V] in compressed form as [S]; taken the view tag from the digest of
    [S] and the scalar [h] from the same digest; and encoded the point
    [P + h G], whose uncompressed coordinates give the address. *)
Lemma generateStealthAddress_inv (random : Entropy) (sp vp : bytes) (Ps Pv : Point)
    (out : list Console) (g : TestStealthAddress.Generated) :
  fromBytes sp = Some Ps ->
  fromBytes vp = Some Pv ->
  run (TestStealthAddress.generateStealthAddress random
         {| spendingPubKey := Viem.bytesToHex sp; viewingPubKey := Viem.bytesToHex vp |})
    = (out, Normal g) ->
  let r := getRandomValues random 32 in
  let e := bytesToNumberBE r in
  exists eb S cb ub : bytes,
    0 < e < CURVE_ORDER /\
    toBytes (multiply G e) true = Some eb /\
    toBytes (multiply Pv e) true = Some S /\
    let D := keccak_256 S in
    let h := bytesToNumberBE D in
    0 < h < CURVE_ORDER /\
    toBytes (add Ps (multiply G h)) true = Some cb /\
    toBytes (add Ps (multiply G h)) false = Some ub /\
    g = {| TestStealthAddress.stealthAddress :=
             "0x" ++ JS.sliceLast 40 (Viem.keccak256 (tl ub));
           TestStealthAddress.ephemeralPubKey := Viem.bytesToHex eb;
           TestStealthAddress.viewTag := JS.index0 D;
           TestStealthAddress.ciphertext := "0x..." |} /\
    out = [log [Str (nl ++ "--- Sender: Generating Stealth Address ---")];
           log [Str "Sender Ephemeral PubKey:"; Str (Viem.bytesToHex eb)];
           log [Str "Shared Secret (Sender):"; Str (Viem.bytesToHex S)];
           log [Str "View Tag:"; Number (JS.index0 D)];
           log [Str "Generated Stealth Address:";
                Str ("0x" ++ JS.sliceLast 40 (Viem.keccak256 (tl ub)))]].
Proof.
  intros HPs HPv H r e.
  unfold run, TestStealthAddress.generateStealthAddress in H.
  cbn [spendingPubKey viewingPubKey] in H.
  step_log H.
  step_call H ephemeralPubKey He.
  unfold TestStealthAddress.generatePrivateKey in He, H. fold r in He, H.
  apply getPublicKey_inv in He as (eb & -> & Hrl & Hre & Heb).
  step_log H.
  step_call H sharedSecret Hs.
  rewrite (computeSharedSecret_spec r vp Pv Hrl Hre HPv) in Hs.
  apply cbind_inv in Hs as (S & HS & Hs). apply orThrow_inv in HS.
  inversion Hs; subst sharedSecret; clear Hs.
  step_log H.
  step_call H sharedSecretBytes Hb.
  rewrite hexToBytes_bytesToHex in Hb. inversion Hb; subst sharedSecretBytes; clear Hb.
  unfold Viem.keccak256 in H at 1 2.
  step_call H hashedBytes Hb.
  rewrite hexToBytes_bytesToHex in Hb. inversion Hb; subst hashedBytes; clear Hb.
  step_log H.
  step_call H s_scalar Hb.
  rewrite hexToBytes_bytesToHex in Hb. inversion Hb; subst s_scalar; clear Hb.
  step_call H p_spending_point Hp.
  change (JS.sliceFrom 2 (Viem.bytesToHex sp)) with (Viem.hexOfBytes sp) in Hp.
  unfold Noble.fromHex in Hp. rewrite hexPairs_hexOfBytes in Hp. cbn [cbind] in Hp.
  rewrite HPs in Hp. inversion Hp; subst p_spending_point; clear Hp.
  step_call H s_G_pubKey Hg.
  apply Noble_getPublicKey_inv in Hg as (_ & Hh & Hg).
  step_call H s_G_point Hp.
  change (JS.sliceFrom 2 (Viem.bytesToHex s_G_pubKey)) with (Viem.hexOfBytes s_G_pubKey) in Hp.
  rewrite (fromHex_hexOfBytes _ _ _ Hg) in Hp. inversion Hp; subst s_G_point; clear Hp.
  step_call H stealthPubKey Hc.
  unfold Noble.toHex in Hc. apply cbind_inv in Hc as (cb & Hcb & _). apply orThrow_inv in Hcb.
  step_call H uncompressedPubKey Hu.
  unfold Noble.toHex in Hu. apply cbind_inv in Hu as (ub & Hub & Hu). apply orThrow_inv in Hub.
  inversion Hu; subst uncompressedPubKey; clear Hu.
  step_call H uncompressedBytes Hb.
  rewrite hexToBytes_0x_hexOfBytes in Hb. inversion Hb; subst uncompressedBytes; clear Hb.
  step_log H.
  unfold ret in H. inversion H; subst; clear H.
  exists eb, S, cb, ub. cbv zeta. repeat split; try assumption; try lia.
Qed.

(** Conversely the sender returns whenever its ephemeral key is in range,
    the shared point has an encoding, the digest is a scalar in range and
    the sum is not the identity. *)
Lemma generateStealthAddress_returns (random : Entropy) (sp vp : bytes) (s v : Z) (S : bytes) :
  toBytes (multiply G s) true = Some sp ->
  toBytes (multiply G v) true = Some vp ->
  let e := bytesToNumberBE (getRandomValues random 32) in
  let h := bytesToNumberBE (keccak_256 S) in
  0 < e < CURVE_ORDER ->
  toBytes (multiply (multiply G v) e) true = Some S ->
  0 < h < CURVE_ORDER ->
  add (multiply G s) (multiply G h) <> ZERO ->
  exists out g,
    run (TestStealthAddress.generateStealthAddress random
           {| spendingPubKey := Viem.bytesToHex sp; viewingPubKey := Viem.bytesToHex vp |})
      = (out, Normal g).
Proof.
  intros Hsp Hvp e h He HS Hh Hnz.
  pose proof (getRandomValues_length random 32) as Lr.
  pose proof (keccak_256_length S) as LD.
  destruct (toBytes (multiply G e) true) as [eb|] eqn:Heb;
    [|exfalso; revert Heb; apply toBytes_defined, G_minimal, He].
  destruct (toBytes (multiply G h) true) as [hb|] eqn:Hhb;
    [|exfalso; revert Hhb; apply toBytes_defined, G_minimal, Hh].
  destruct (toBytes (add (multiply G s) (multiply G h)) true) as [cb|] eqn:Hcb;
    [|exfalso; revert Hcb; apply toBytes_defined, Hnz].
  destruct (toBytes (add (multiply G s) (multiply G h)) false) as [ub|] eqn:Hub;
    [|exfalso; revert Hub; apply toBytes_defined, Hnz].
  unfold run, TestStealthAddress.generateStealthAddress.
  cbn [spendingPubKey viewingPubKey].
  unfold TestStealthAddress.generatePrivateKey.
  rewrite bind_log.
  assert (Hpub : TestStealthAddress.getPublicKey
                   (Viem.bytesToHex (getRandomValues random 32)) =
                 Normal (Viem.bytesToHex eb)).
  { unfold TestStealthAddress.getPublicKey, Noble.getPublicKey.
    rewrite hexToBytes_bytesToHex. cbn [cbind].
    rewrite secretKeyToScalar_valid by assumption. cbn [cbind].
    fold e. rewrite Heb. reflexivity. }
  rewrite Hpub, bind_call_Normal, bind_log.
  rewrite (computeSharedSecret_spec _ vp (multiply G v) Lr He (fromBytes_toBytes _ _ _ Hvp)).
  fold e. rewrite HS. cbn [orThrow cbind]. rewrite bind_call_Normal, bind_log.
  rewrite hexToBytes_bytesToHex, bind_call_Normal. cbv zeta.
  unfold Viem.keccak256 at 1 2.
  rewrite hexToBytes_bytesToHex, bind_call_Normal, bind_log, bind_call_Normal.
  change (JS.sliceFrom 2 (Viem.bytesToHex sp)) with (Viem.hexOfBytes sp).
  rewrite (fromHex_hexOfBytes _ _ _ Hsp), bind_call_Normal.
  unfold Noble.getPublicKey at 1. rewrite secretKeyToScalar_valid by assumption.
  cbn [cbind]. fold h. rewrite Hhb. cbn [orThrow]. rewrite bind_call_Normal.
  change (JS.sliceFrom 2 (Viem.bytesToHex hb)) with (Viem.hexOfBytes hb).
  rewrite (fromHex_hexOfBytes _ _ _ Hhb), bind_call_Normal.
  unfold Noble.toHex. rewrite Hcb, Hub. cbn [orThrow cbind].
  rewrite !bind_call_Normal.
  rewrite hexToBytes_0x_hexOfBytes, bind_call_Normal, bind_log.
  unfold ret. eexists _, _. reflexivity.
Qed.

End Sender.

(** ** What the recipient computes *)

Lemma strictEq_index0_refl (bs : bytes) : JS.strictEq (JS.index0 bs) (JS.index0 bs) = true.
Proof. destruct bs; simpl; [reflexivity | apply Z.eqb_refl]. Qed.

Section Recipient.
Context {C : Crypto} {L : CryptoLaws C}.

(** The address of a private key in range is the check-summed tail of
    the digest of the coordinates of its public key. *)
Lemma privateKeyToAddress_spec (d : Z) (ub : bytes) :
  0 < d < CURVE_ORDER ->
  toBytes (multiply G d) false = Some ub ->
  ViemAccounts.privateKeyToAddress ("0x" ++ JS.padStart 64 "0" (JS.toString16 d)) =
  Normal (Viem.checksumAddress ("0x" ++ JS.sliceFrom 26 (Viem.keccak256 (tl ub)))).
Proof.
  intros Hd Hub. pose proof CURVE_ORDER_small as Hn.
  assert (0 <= d < 2 ^ 256) as Hd' by lia.
  destruct (privateKeyDigits d Hd') as [Hlen _].
  destruct (privateKeyBytes d Hd') as (sk & Hsk & Lsk & Vsk).
  unfold ViemAccounts.privateKeyToAddress.
  change (JS.sliceFrom 2 ("0x" ++ ?k)) with k.
  rewrite Hlen. cbn [Nat.eqb]. rewrite Hsk. cbn [cbind].
  unfold Noble.getPublicKey. rewrite secretKeyToScalar_valid by (rewrite ?Vsk; assumption).
  cbn [cbind]. rewrite Vsk, Hub. cbn [orThrow cbind].
  unfold Viem.publicKeyToAddress, Viem.keccak256Hex.
  rewrite drop4_bytesToHex, hexToBytes_0x_hexOfBytes. reflexivity.
Qed.

Lemma addresses_agree (K : bytes) :
  List.length K = 32%nat ->
  JS.toLowerCase (Viem.checksumAddress ("0x" ++ JS.sliceFrom 26 (Viem.bytesToHex K))) =
  JS.toLowerCase ("0x" ++ JS.sliceLast 40 (Viem.bytesToHex K)).
Proof.
  intro HK. rewrite toLowerCase_checksumAddress, sliceLast_digest by assumption.
  rewrite toLowerCase_app. reflexivity.
Qed.

End Recipient.

(** C1. Round trip.  For a recipient whose public keys are those of its
    private keys, every announcement the sender returns for the recipient's
    meta-address is recovered by the recipient's scan: the tag matches, the
    scan derives the private key [d = (spending + h) mod CURVE_ORDER] with
    [h] the digest of the shared secret, a key in range whose public key is
    the stealth point [P_spending + h G] and whose address is the announced
    one, and it ends on the success line. *)
Theorem round_trip_recovers {C : Crypto} {L : CryptoLaws C} (V : EncoderValidates C)
    (random : Entropy) (spend view : bytes) (keys : RecipientKeys)
    (out : list Console) (g : TestStealthAddress.Generated) :
  spendingPrivKey keys = Viem.bytesToHex spend ->
  viewingPrivKey keys = Viem.bytesToHex view ->
  TestStealthAddress.getPublicKey (spendingPrivKey keys) = Normal (recipientSpendingPubKey keys) ->
  TestStealthAddress.getPublicKey (viewingPrivKey keys) = Normal (recipientViewingPubKey keys) ->
  run (TestStealthAddress.generateStealthAddress random (metaAddressOf keys)) = (out, Normal g) ->
  Recovered spend keys g.
Proof.
  intros Es Ev Hs Hv Hg.
  rewrite Es in Hs. rewrite Ev in Hv.
  apply getPublicKey_inv in Hs as (sp & Esp & Lsp & Rsp & Hsp).
  apply getPublicKey_inv in Hv as (vp & Evp & Lvp & Rvp & Hvp).
  unfold metaAddressOf in Hg. rewrite Esp, Evp in Hg.
  pose proof (fromBytes_toBytes _ _ _ Hsp) as Fsp.
  pose proof (fromBytes_toBytes _ _ _ Hvp) as Fvp.
  destruct (generateStealthAddress_inv random sp vp _ _ out g Fsp Fvp Hg)
    as (eb & S & cb & ub & Re & Heb & HS & Rh & Hcb & Hub & Eg & _).
  cbv zeta in Rh, Hcb, Hub, Eg.
  set (e := bytesToNumberBE (getRandomValues random 32)) in *.
  set (s := bytesToNumberBE spend) in *.
  set (v := bytesToNumberBE view) in *.
  set (D := keccak_256 S) in *.
  set (h := bytesToNumberBE D) in *.
  pose proof (keccak_256_length S) as LD. fold D in LD.
  pose proof CURVE_ORDER_pos as Hn.
  (* the stealth point is d G, and it is not the identity *)
  assert (Hsum : multiply G ((s + h) mod CURVE_ORDER) = add (multiply G s) (multiply G h))
    by (apply multiply_G_add_mod; lia).
  assert (Hnz : add (multiply G s) (multiply G h) <> ZERO).
  { intro Z0. rewrite Z0, (V true) in Hcb. discriminate. }
  pose proof (Z.mod_pos_bound (s + h) CURVE_ORDER Hn) as Hdr.
  assert (Hd : 0 < (s + h) mod CURVE_ORDER < CURVE_ORDER).
  { split; [|lia]. destruct (Z.eq_dec ((s + h) mod CURVE_ORDER) 0) as [Z0|]; [|lia].
    rewrite Z0, multiply_0 in Hsum. congruence. }
  (* the recipient's shared secret is the sender's *)
  assert (Hss : TestStealthAddress.computeSharedSecret (viewingPrivKey keys)
                  (TestStealthAddress.ephemeralPubKey g) = Normal (Viem.bytesToHex S)).
  { rewrite Ev, Eg. cbn [TestStealthAddress.ephemeralPubKey].
    rewrite (computeSharedSecret_spec view eb (multiply G e) Lvp Rvp
               (fromBytes_toBytes _ _ _ Heb)).
    fold v. rewrite multiply_swap by lia. rewrite HS. reflexivity. }
  rewrite <- Hsum in Hub.
  pose proof (privateKeyToAddress_spec _ ub Hd Hub) as Haddr.
  pose proof (keccak_256_length (tl ub)) as LK.
  unfold Recovered.
  exists S, (Viem.checksumAddress ("0x" ++ JS.sliceFrom 26 (Viem.keccak256 (tl ub)))),
         (multiply G s).
  cbv zeta.
  fold D h s.
  assert (Hlow : JS.toLowerCase
                   (Viem.checksumAddress ("0x" ++ JS.sliceFrom 26 (Viem.keccak256 (tl ub)))) =
                 JS.toLowerCase (TestStealthAddress.stealthAddress g)).
  { rewrite Eg. cbn [TestStealthAddress.stealthAddress]. now apply addresses_agree. }
  refine (conj Hss (conj _ (conj Haddr (conj Hlow (conj Hd (conj _ Hsum)))))).
  - unfold run, TestStealthAddress.scanAndRecover, TestStealthAddress.announcementOf.
    cbn [TestStealthAddress.annEphemeralPubKey TestStealthAddress.annViewTag
         TestStealthAddress.annStealthAddress].
    replace (TestStealthAddress.viewTag g) with (JS.index0 D) by (rewrite Eg; reflexivity).
    rewrite bind_log. rewrite Hss, bind_call_Normal.
    rewrite hexToBytes_bytesToHex, bind_call_Normal. cbv zeta.
    unfold Viem.keccak256 at 1 2. fold D.
    rewrite hexToBytes_bytesToHex, bind_call_Normal, bind_log.
    rewrite strictEq_index0_refl. cbn [negb]. rewrite bind_log.
    rewrite BigInt_bytesToHex, bind_call_Normal
      by (intro E0; rewrite E0 in LD; discriminate).
    rewrite Es, BigInt_bytesToHex, bind_call_Normal
      by (intro E0; rewrite E0 in Lsp; discriminate).
    fold h s. unfold TestStealthAddress.d_stealth_big.
    rewrite Z.rem_mod_nonneg by lia.
    rewrite bind_log, Haddr, bind_call_Normal, bind_log.
    rewrite Hlow, String.eqb_refl.
    reflexivity.
  - rewrite Esp.
    change (JS.sliceFrom 2 (Viem.bytesToHex sp)) with (Viem.hexOfBytes sp).
    exact (fromHex_hexOfBytes _ _ _ Hsp).
Qed.

(** ** The residues satisfy the laws *)

Lemma Keccak_length (msg : bytes) : List.length (Keccak.keccak_256 msg) = 32%nat.
Proof.
  unfold Keccak.keccak_256.
  set (st := fold_left Keccak.absorb _ _).
  cbn [seq flat_map]. unfold Keccak.bytesOfLane.
  rewrite !length_app, !length_rev, !numberToBytesBE_length. reflexivity.
Qed.

Lemma residue_range (a : DLog.point) : 0 <= Zmod.to_Z a < CURVE_ORDER.
Proof. apply Zmod.unsigned_pos_bound, CURVE_ORDER_pos. Qed.

Lemma residue_bytes (a : DLog.point) :
  bytesToNumberBE (numberToBytesBE 32 (Zmod.to_Z a)) = Zmod.to_Z a.
Proof.
  apply bytesToNumberBE_numberToBytesBE.
  pose proof (residue_range a). pose proof CURVE_ORDER_small.
  change (256 ^ Z.of_nat 32) with (2 ^ 256). lia.
Qed.

Lemma ofResidue_to_Z (a : DLog.point) :
  Zmod.to_Z a <> 0 -> DLog.ofResidue (Zmod.to_Z a) = Some a.
Proof.
  intro H. pose proof (residue_range a) as R. unfold DLog.ofResidue.
  replace (0 <? Zmod.to_Z a) with true by (symmetry; apply Z.ltb_lt; lia).
  replace (Zmod.to_Z a <? CURVE_ORDER) with true by (symmetry; apply Z.ltb_lt; lia).
  cbn [andb]. now rewrite Zmod.of_Z_unsigned.
Qed.

Lemma Residues_fromBytes_toBytes (a : DLog.point) (c : bool) (bs : bytes) :
  DLog.toBytes a c = Some bs -> DLog.fromBytes bs = Some a.
Proof.
  unfold DLog.toBytes. destruct (Zmod.to_Z a =? 0) eqn:E; [discriminate|].
  apply Z.eqb_neq in E. intro H.
  pose proof (numberToBytesBE_length 32 (Zmod.to_Z a)) as Lbe.
  pose proof (residue_bytes a) as Vbe.
  set (be := numberToBytesBE 32 (Zmod.to_Z a)) in *. clearbody be.
  injection H as <-. destruct c; unfold DLog.fromBytes.
  - rewrite Lbe. cbn [Nat.eqb andb].
    change (Byte.eqb x02 x02) with true. cbn [andb].
    rewrite Vbe. now apply ofResidue_to_Z.
  - rewrite length_app, Lbe. cbn [Nat.add Nat.eqb andb].
    change (Byte.eqb x04 x04) with true. cbn [andb].
    rewrite firstn_app, Lbe, Nat.sub_diag, firstn_O, app_nil_r.
    rewrite firstn_all2 by lia.
    rewrite Vbe. now apply ofResidue_to_Z.
Qed.

Lemma ResiduesLaws : CryptoLaws Residues.
Proof.
  pose proof CURVE_ORDER_pos as Hn.
  split; cbn [Point ZERO G add multiply toBytes fromBytes keccak_256 Residues].
  - intros. apply Zmod.add_assoc.
  - intros. apply Zmod.add_comm.
  - intros. apply Zmod.add_0_l.
  - intro P. unfold DLog.multiply. rewrite Z.mul_0_r. apply Zmod.of_Z_0.
  - intros P k Hk. unfold DLog.multiply.
    replace (Zmod.to_Z P * (k + 1)) with (Zmod.to_Z P + Zmod.to_Z P * k) by lia.
    now rewrite Zmod.of_Z_add, Zmod.of_Z_unsigned.
  - apply Zmod.unsigned_inj. reflexivity.
  - intros k Hk E. apply (f_equal Zmod.to_Z) in E. unfold DLog.multiply in E.
    rewrite Zmod.unsigned_of_Z, Zmod.unsigned_0 in E.
    change (Zmod.to_Z (Zmod.one : Zmod CURVE_ORDER)) with 1 in E.
    rewrite Z.mul_1_l, Z.mod_small in E by lia. lia.
  - intros P c HP. unfold DLog.toBytes.
    destruct (Zmod.to_Z P =? 0) eqn:E; [|discriminate].
    apply Z.eqb_eq in E. apply Zmod.unsigned_0_iff in E. contradiction.
  - apply Residues_fromBytes_toBytes.
  - apply Keccak_length.
Qed.

Lemma Residues_validates : EncoderValidates Residues.
Proof. intro c. reflexivity. Qed.

(** ** A recipient, a sender's draw, and the run between them *)

Lemma round_trip_recovers_witness :
  Recovered (C := Residues) spend3 residueKeys residueGenerated.
Proof.
  apply (round_trip_recovers (C := Residues) (L := ResiduesLaws) Residues_validates
           draw7 spend3 view5 residueKeys (fst residueRun) residueGenerated);
    vm_compute; reflexivity.
Defined.

(** ** Diffie-Hellman *)

(** C3. ECDH commutativity.  For private keys [a] and [b] whose public
    keys the script computed as [A] and [B], the shared secret of [a] with
    [B] is the shared secret of [b] with [A]: both are the compressed
    encoding of [(a b) G]. *)
Theorem computeSharedSecret_commutes {C : Crypto} {L : CryptoLaws C}
    (a b : bytes) (A B : string) :
  TestStealthAddress.getPublicKey (Viem.bytesToHex a) = Normal A ->
  TestStealthAddress.getPublicKey (Viem.bytesToHex b) = Normal B ->
  TestStealthAddress.computeSharedSecret (Viem.bytesToHex a) B =
  TestStealthAddress.computeSharedSecret (Viem.bytesToHex b) A /\
  TestStealthAddress.computeSharedSecret (Viem.bytesToHex a) B =
  cbind (orThrow BadPoint
           (toBytes (multiply G (bytesToNumberBE a * bytesToNumberBE b)) true))
        (fun S => Normal (Viem.bytesToHex S)).
Proof.
  intros HA HB.
  apply getPublicKey_inv in HA as (pa & -> & La & Ra & Ha).
  apply getPublicKey_inv in HB as (pb & -> & Lb & Rb & Hb).
  rewrite (computeSharedSecret_spec a pb _ La Ra (fromBytes_toBytes _ _ _ Hb)).
  rewrite (computeSharedSecret_spec b pa _ Lb Rb (fromBytes_toBytes _ _ _ Ha)).
  rewrite (multiply_swap (bytesToNumberBE b) (bytesToNumberBE a)) by lia.
  split; [reflexivity|].
  rewrite multiply_mul by lia. reflexivity.
Qed.

Lemma computeSharedSecret_commutes_witness :
  TestStealthAddress.computeSharedSecret (C := Residues)
    (Viem.bytesToHex spend3) (residuePub view5) =
  TestStealthAddress.computeSharedSecret (C := Residues)
    (Viem.bytesToHex view5) (residuePub spend3).
Proof.
  refine (proj1 (computeSharedSecret_commutes (C := Residues) (L := ResiduesLaws)
                   spend3 view5 (residuePub spend3) (residuePub view5) _ _));
    vm_compute; reflexivity.
Defined.

(** ** Scalar addition modulo the order *)

(** C7. The recipient's sum [(a + b) % CURVE_ORDER] of non-negative
    scalars lies in [0, CURVE_ORDER), and at [a = CURVE_ORDER - 1], [b = 2]
    it is [1]. *)
Theorem d_stealth_big_reduced (a b : Z) :
  0 <= a -> 0 <= b ->
  0 <= TestStealthAddress.d_stealth_big a b < CURVE_ORDER /\
  TestStealthAddress.d_stealth_big a b = (a + b) mod CURVE_ORDER /\
  TestStealthAddress.d_stealth_big (CURVE_ORDER - 1) 2 = 1.
Proof.
  intros Ha Hb. pose proof CURVE_ORDER_pos as Hn.
  unfold TestStealthAddress.d_stealth_big.
  rewrite Z.rem_mod_nonneg by lia.
  pose proof (Z.mod_pos_bound (a + b) CURVE_ORDER Hn).
  repeat split; try lia.
Qed.

Lemma d_stealth_big_reduced_witness :
  0 <= TestStealthAddress.d_stealth_big (CURVE_ORDER - 1) 2 < CURVE_ORDER /\
  TestStealthAddress.d_stealth_big (CURVE_ORDER - 1) 2 = 1.
Proof.
  destruct (d_stealth_big_reduced (CURVE_ORDER - 1) 2) as (R & _ & E);
    [vm_compute; discriminate | lia | exact (conj R E)].
Defined.

(** ** The meta-address string *)

Lemma allHexDigits_app (a b : string) :
  allHexDigits (a ++ b) = allHexDigits a && allHexDigits b.
Proof.
  induction a as [|c a IH]; simpl; [reflexivity|].
  destruct (JS.digitValue c); [exact IH | reflexivity].
Qed.

Lemma allHexDigits_hexOfBytes (bs : bytes) : allHexDigits (Viem.hexOfBytes bs) = true.
Proof.
  induction bs as [|b bs IH]; [reflexivity|].
  destruct (nibbles_of_byte b) as (Hh & Hl & _).
  cbn [Viem.hexOfBytes Viem.hexes append allHexDigits].
  now rewrite !digitValue_hexDigit by assumption.
Qed.

(** C8. The official meta-address string of the announcer walkthrough is
    ["st:eth:0x"] followed by the hex digits of the spending key and then
    those of the viewing key: one prefix, hex digits only after it, two
    digits per key byte (132 digits for two 33-byte keys). *)
Theorem metaAddressString_canonical (spendingKey viewingKey : bytes) :
  let m := {| spendingPubKey := Viem.bytesToHex spendingKey;
              viewingPubKey := Viem.bytesToHex viewingKey |} in
  Announcer.metaAddressString m =
    "st:eth:0x" ++ Viem.hexOfBytes spendingKey ++ Viem.hexOfBytes viewingKey /\
  Announcer.metaAddressString m = "st:eth:" ++ Viem.bytesToHex (spendingKey ++ viewingKey)%list /\
  allHexDigits (JS.sliceFrom 9 (Announcer.metaAddressString m)) = true /\
  String.length (Announcer.metaAddressString m) =
    (9 + 2 * (List.length spendingKey + List.length viewingKey))%nat.
Proof.
  cbv zeta. unfold Announcer.metaAddressString. cbn [spendingPubKey viewingPubKey].
  change (JS.sliceFrom 2 (Viem.bytesToHex ?k)) with (Viem.hexOfBytes k).
  assert (Happ : Viem.hexOfBytes (spendingKey ++ viewingKey)%list =
                 Viem.hexOfBytes spendingKey ++ Viem.hexOfBytes viewingKey).
  { induction spendingKey as [|b bs IH]; [reflexivity|].
    cbn [app Viem.hexOfBytes]. now rewrite IH, append_assoc. }
  refine (conj eq_refl (conj _ (conj _ _))).
  - unfold Viem.bytesToHex. now rewrite Happ.
  - change (JS.sliceFrom 9 ("st:eth:0x" ++ ?r)) with r.
    now rewrite allHexDigits_app, !allHexDigits_hexOfBytes.
  - change ("st:eth:0x" ++ ?r) with ("st:eth:0x" ++ r).
    rewrite append_length, append_length, !hexOfBytes_length. simpl. lia.
Qed.

(** The colon-separated string of the other walkthroughs is a different
    string: it repeats the prefix of each key and puts a colon between. *)
Lemma Registry_metaAddressString_form (spendingKey viewingKey : bytes) :
  Registry.metaAddressString
    {| spendingPubKey := Viem.bytesToHex spendingKey;
       viewingPubKey := Viem.bytesToHex viewingKey |} =
  "st:eth:0x" ++ Viem.hexOfBytes spendingKey ++ ":0x" ++ Viem.hexOfBytes viewingKey.
Proof.
  unfold Registry.metaAddressString, Viem.bytesToHex. cbn [spendingPubKey viewingPubKey].
  reflexivity.
Qed.

(** ** Private keys are whatever the random bytes are *)

(** C4, as the script has it.  [generatePrivateKey] draws 32 bytes once
    and returns them in hex, whatever their value [k], which ranges over
    all of [0, 2^256); no range is tested and nothing is drawn again.  A
    [k] that is zero or not below the order is refused later, by the
    library, when the key is used: [getPublicKey] throws. *)
Theorem generatePrivateKey_unchecked {C : Crypto} (random : Entropy) :
  let r := getRandomValues random 32 in
  let k := bytesToNumberBE r in
  TestStealthAddress.generatePrivateKey random = Viem.bytesToHex r /\
  JS.BigInt (TestStealthAddress.generatePrivateKey random) = Normal k /\
  0 <= k < 2 ^ 256 /\
  TestStealthAddress.getPublicKey (TestStealthAddress.generatePrivateKey random) =
    if (0 <? k) && (k <? CURVE_ORDER)
    then cbind (orThrow BadPoint (toBytes (multiply G k) true))
               (fun pubKey => Normal (Viem.bytesToHex pubKey))
    else Throw InvalidPrivateKey.
Proof.
  cbv zeta. unfold TestStealthAddress.generatePrivateKey.
  pose proof (getRandomValues_length random 32) as Hl.
  set (r := getRandomValues random 32) in *.
  refine (conj eq_refl (conj _ (conj _ _))).
  - apply BigInt_bytesToHex. intro E. rewrite E in Hl. discriminate.
  - pose proof (bytesToNumberBE_range r) as R. rewrite Hl in R.
    change (256 ^ Z.of_nat 32) with (2 ^ 256) in R. exact R.
  - unfold TestStealthAddress.getPublicKey, Noble.getPublicKey, Noble.secretKeyToScalar.
    rewrite hexToBytes_bytesToHex. cbn [cbind]. rewrite Hl. cbn [Nat.eqb].
    destruct ((0 <? bytesToNumberBE r) && (bytesToNumberBE r <? CURVE_ORDER)); reflexivity.
Qed.

(** C4 fails as stated: all-zero random bytes give the key 0, all-one
    random bytes a key above the order, and both are returned. *)
Lemma generatePrivateKey_out_of_range :
  JS.BigInt (TestStealthAddress.generatePrivateKey (fun _ => x00)) = Normal 0 /\
  JS.BigInt (TestStealthAddress.generatePrivateKey (fun _ => xff)) = Normal (2 ^ 256 - 1) /\
  ~ (0 < 0 < CURVE_ORDER) /\
  ~ (0 < 2 ^ 256 - 1 < CURVE_ORDER).
Proof.
  pose proof CURVE_ORDER_small.
  refine (conj _ (conj _ (conj _ _))); try (vm_compute; reflexivity); lia.
Qed.

(** ** Scripts only ever append to the console *)

Lemma appends_ret {A} (a : A) : appends (ret a).
Proof. exists [], (Normal a). intro out. unfold ret. now rewrite app_nil_r. Qed.

Lemma appends_call {A} (c : completion A) : appends (call c).
Proof. exists [], c. intro out. unfold call. now rewrite app_nil_r. Qed.

Lemma appends_log (args : list Value) : appends (console_log args).
Proof. now exists [log args], (Normal tt). Qed.

Lemma appends_error (args : list Value) : appends (console_error args).
Proof. now exists [error args], (Normal tt). Qed.

Lemma appends_sleep (ms : Z) : appends (sleep ms).
Proof. apply appends_ret. Qed.

Lemma appends_bind {A B} (m : IO A) (f : A -> IO B) :
  appends m -> (forall a, appends (f a)) -> appends (bind m f).
Proof.
  intros (w & r & Hm) Hf. destruct r as [a|e].
  - destruct (Hf a) as (w' & r' & Hfa). exists (w ++ w')%list, r'.
    intro out. unfold bind. now rewrite Hm, Hfa, app_assoc.
  - exists w, (Throw e). intro out. unfold bind. now rewrite Hm.
Qed.

Create HintDb io.
#[export] Hint Resolve appends_ret appends_call appends_log appends_error appends_sleep : io.

Ltac io_appends :=
  repeat match goal with
         | |- appends (bind _ _) => apply appends_bind; [|intro]
         | |- appends (if ?b then _ else _) => destruct b
         | |- appends (let _ := _ in _) => cbv zeta
         end;
  auto with io.

(** ** The scheme id of an announcement *)

(** C5, as the walkthrough has it.  The scan never tests the scheme id:
    whatever the id of an announcement, the scan writes the same lines
    before and after the one line that prints the id, and ends the same
    way.  An announcement of another scheme is processed like one of
    scheme 1. *)
Theorem schemeId_only_printed {C : Crypto}
    (announcement : Announcer.Announcement) (recipientKeys : RecipientKeys) :
  exists (before after : list Console) (r : completion unit),
    forall s : Z,
      run (Announcer.scanAndRecover (withSchemeId s announcement) recipientKeys) =
      ((before ++ schemeIdLine s :: after)%list, r).
Proof.
  assert (exists rest : IO unit,
            appends rest /\
            forall s out,
              Announcer.scanAndRecover (withSchemeId s announcement) recipientKeys out =
              rest (out ++ [log [Str (nl ++ nl ++ Announcer.rule)];
                            log [Str "                           RECIPIENT SIDE (Scanning & Recovering)                  "];
                            log [Str Announcer.rule];
                            log [Str "Recipient sees an Announcement event on-chain from ERC5564Announcer:"];
                            schemeIdLine s])%list)
    as (rest & (after & r & Hrest) & Hscan).
  { eexists. split.
    2:{ intros s out. unfold Announcer.scanAndRecover, withSchemeId.
        cbn [Announcer.schemeId Announcer.stealthAddress Announcer.caller
             Announcer.ephemeralPubKey Announcer.metadata].
        do 3 rewrite bind_log. rewrite bind_sleep. cbv zeta. do 2 rewrite bind_log.
        rewrite <- !app_assoc. cbn [app]. unfold schemeIdLine.
        match goal with |- ?f ?x = _ => pattern x end.
        reflexivity. }
    cbv beta. io_appends. }
  exists [log [Str (nl ++ nl ++ Announcer.rule)];
          log [Str "                           RECIPIENT SIDE (Scanning & Recovering)                  "];
          log [Str Announcer.rule];
          log [Str "Recipient sees an Announcement event on-chain from ERC5564Announcer:"]],
         after, r.
  intro s. unfold run. rewrite Hscan, Hrest. reflexivity.
Qed.

(** ** The sum of the spending key and the scalar's point *)

Section StealthPoint.
Context {C : Crypto}.

(** The sender is its first four steps followed by the encoding. *)
Lemma generateStealthAddress_steps (random : Entropy) (meta : MetaAddress)
    (out : list Console) :
  TestStealthAddress.generateStealthAddress random meta out =
  bind (p_stealth_point random meta) encodeStealthPoint out.
Proof.
  unfold TestStealthAddress.generateStealthAddress, p_stealth_point.
  cbv zeta. revert out.
  repeat (intro out; rewrite bind_assoc_at; revert out; apply bind_ext; intro).
  reflexivity.
Qed.

End StealthPoint.

(** C9, as the script has it.  The point addition never fails and tests
    nothing: when the sum of the spending key and the scalar's point is the
    identity, the addition returns the identity.  It is the encoding that
    follows which refuses it, where the library's encoder validates its
    point: the sender then throws at [toHex], having written no address. *)
Theorem identity_sum_refused_by_encoder {C : Crypto} (V : EncoderValidates C)
    (random : Entropy) (meta : MetaAddress) (out : list Console)
    (ephemeralPubKey : string) (viewTag : JS.number) :
  run (p_stealth_point random meta) = (out, Normal (ephemeralPubKey, viewTag, ZERO)) ->
  run (TestStealthAddress.generateStealthAddress random meta) = (out, Throw BadPoint).
Proof.
  unfold run. intro H. rewrite generateStealthAddress_steps.
  unfold bind at 1. rewrite H. unfold encodeStealthPoint, Noble.toHex.
  rewrite (V true). reflexivity.
Qed.

(** ** The two halves of the recipient's scan *)

Section Scan.
Context {C : Crypto}.

(** The scan is the tag check followed, on a match only, by the recovery. *)
Lemma scanAndRecover_steps (announcement : TestStealthAddress.Announcement)
    (recipientKeys : RecipientKeys) (out : list Console) :
  TestStealthAddress.scanAndRecover announcement recipientKeys out =
  bind (viewTagFilter (viewingPrivKey recipientKeys)
          (TestStealthAddress.annEphemeralPubKey announcement)
          (TestStealthAddress.annViewTag announcement))
       (afterFilter announcement recipientKeys) out.
Proof.
  unfold TestStealthAddress.scanAndRecover, viewTagFilter.
  cbv zeta. revert out.
  do 5 (intro out; rewrite bind_assoc_at; revert out; apply bind_ext; intro).
  intro out.
  destruct (negb (JS.strictEq (JS.index0 a2) (TestStealthAddress.annViewTag announcement)));
    rewrite bind_assoc_at; reflexivity.
Qed.

Lemma viewTagFilter_runs (viewingPrivKey ephemeralPubKey : string) (viewTag : JS.number) :
  FilterRun viewTag (run (viewTagFilter viewingPrivKey ephemeralPubKey viewTag)).
Proof.
  unfold run, viewTagFilter. rewrite bind_log.
  destruct (TestStealthAddress.computeSharedSecret viewingPrivKey ephemeralPubKey)
    as [ss|e]; [rewrite bind_call_Normal | apply FilterThrew].
  destruct (Viem.hexToBytes ss) as [sb|e]; [rewrite bind_call_Normal | apply FilterThrew].
  cbv zeta.
  destruct (Viem.hexToBytes (Viem.keccak256 sb)) as [hb|e];
    [rewrite bind_call_Normal | apply FilterThrew].
  rewrite bind_log.
  destruct (JS.strictEq (JS.index0 hb) viewTag) eqn:E; cbn [negb]; rewrite bind_log.
  - now apply FilterAccepted.
  - now apply FilterRejected.
Qed.

Lemma recoverAndVerify_runs (hashed : string)
    (announcement : TestStealthAddress.Announcement) (recipientKeys : RecipientKeys)
    (out : list Console) :
  RecoverRun announcement out (recoverAndVerify hashed announcement recipientKeys out).
Proof.
  unfold recoverAndVerify.
  destruct (JS.BigInt hashed) as [s|e];
    [rewrite bind_call_Normal | apply RecoverThrewEarly].
  destruct (JS.BigInt (spendingPrivKey recipientKeys)) as [d|e];
    [rewrite bind_call_Normal | apply RecoverThrewEarly].
  cbv zeta. rewrite bind_log.
  destruct (ViemAccounts.privateKeyToAddress _) as [a|e];
    [rewrite bind_call_Normal | apply RecoverThrew].
  rewrite bind_log.
  destruct (String.eqb_spec (JS.toLowerCase a)
              (JS.toLowerCase (TestStealthAddress.annStealthAddress announcement)))
    as [E|E]; unfold console_log, console_error; rewrite <- !app_assoc; cbn [app].
  - now apply RecoverVerified.
  - now apply RecoverMismatch.
Qed.

End Scan.

(** ** The outcomes of a scan *)

(** C6, as the script has it.  A scan that ends normally returns the same
    value, [undefined], after each of the three outcomes; they differ on the
    console only, in the last line written: a [console.log] of the tag
    mismatch, a [console.log] of the success, or a [console.error] of the
    failed verification, three different lines. *)
Theorem scanAndRecover_outcomes {C : Crypto}
    (announcement : TestStealthAddress.Announcement) (recipientKeys : RecipientKeys) :
  ScanRun announcement (run (TestStealthAddress.scanAndRecover announcement recipientKeys)) /\
  noMatchLine <> successLine /\ noMatchLine <> failureLine /\ successLine <> failureLine.
Proof.
  split; [|repeat split; discriminate].
  unfold run. rewrite scanAndRecover_steps. unfold bind.
  pose proof (viewTagFilter_runs (viewingPrivKey recipientKeys)
                (TestStealthAddress.annEphemeralPubKey announcement)
                (TestStealthAddress.annViewTag announcement)) as HF.
  unfold run in HF.
  destruct HF as [e | t Ht | t hashed Ht]; cbn [afterFilter].
  - apply ScanThrew.
  - now apply ScanNoMatch.
  - pose proof (recoverAndVerify_runs hashed announcement recipientKeys
                  [headerLine; calculatedLine t; matchLine]) as HR.
    destruct HR as [e | d e | d a Ha | d a Ha]; cbn [app].
    + apply ScanThrew.
    + apply ScanThrew.
    + now apply ScanRecovered.
    + now apply ScanRecoveryMismatch.
Qed.

(** ** The tag check and the spending key *)

Ltac not_among :=
  let H := fresh in
  intro H; cbn [In app] in H;
  repeat (destruct H as [H|H]; [try discriminate H; cbv in H; discriminate H|]);
  exact H.

(** C10. The tag check reads the viewing private key, the ephemeral public
    key and the view tag only: two scans that agree on these three write the
    mismatch line together or not at all, and the match line together or
    not at all, whatever their spending keys and announced addresses; and a
    scan that rejects is, line for line and in its end, the scan with any
    other spending key. *)
Theorem view_tag_check_ignores_spending_key {C : Crypto}
    (ann1 ann2 : TestStealthAddress.Announcement) (keys1 keys2 : RecipientKeys) :
  viewingPrivKey keys1 = viewingPrivKey keys2 ->
  TestStealthAddress.annEphemeralPubKey ann1 = TestStealthAddress.annEphemeralPubKey ann2 ->
  TestStealthAddress.annViewTag ann1 = TestStealthAddress.annViewTag ann2 ->
  (In noMatchLine (output (TestStealthAddress.scanAndRecover ann1 keys1)) <->
   In noMatchLine (output (TestStealthAddress.scanAndRecover ann2 keys2))) /\
  (In matchLine (output (TestStealthAddress.scanAndRecover ann1 keys1)) <->
   In matchLine (output (TestStealthAddress.scanAndRecover ann2 keys2))) /\
  (In noMatchLine (output (TestStealthAddress.scanAndRecover ann1 keys1)) ->
   run (TestStealthAddress.scanAndRecover ann1 keys1) =
   run (TestStealthAddress.scanAndRecover ann2 keys2)).
Proof.
  intros Ev Ee Et. unfold output, run.
  rewrite !scanAndRecover_steps. rewrite Ev, Ee, Et. unfold bind.
  pose proof (viewTagFilter_runs (viewingPrivKey keys2)
                (TestStealthAddress.annEphemeralPubKey ann2)
                (TestStealthAddress.annViewTag ann2)) as HF.
  unfold run in HF.
  destruct HF as [e | t Ht | t hashed Ht]; cbn [afterFilter fst];
    try (repeat split; auto; fail).
  pose proof (recoverAndVerify_runs hashed ann1 keys1
                [headerLine; calculatedLine t; matchLine]) as H1.
  pose proof (recoverAndVerify_runs hashed ann2 keys2
                [headerLine; calculatedLine t; matchLine]) as H2.
  assert (forall ann r, RecoverRun ann [headerLine; calculatedLine t; matchLine] r ->
                        ~ In noMatchLine (fst r) /\ In matchLine (fst r)) as Shape.
  { intros ann r [e | d e | d a Ha | d a Ha]; cbn [fst]; (split; [not_among|]);
      cbn [In app]; auto. }
  destruct (Shape _ _ H1) as [N1 M1]. destruct (Shape _ _ H2) as [N2 M2].
  repeat split; intros; try assumption; contradiction.
Qed.

(** ** Runs on secp256k1 *)

Lemma Real_validates : EncoderValidates Real.
Proof. intro c. reflexivity. Qed.

(** Known values: the digest of the empty string, the order of the
    generator, the public key and the address of the private key 1. *)
Example keccak256_of_nothing :
  Viem.keccak256 (C := Real) [] =
  "0xc5d2460186f7233c927e7db2dcc703c0e500b653ca82273b7bfad8045d85a470".
Proof. vm_compute. reflexivity. Qed.

Example generator_has_the_order :
  multiply (Crypto := Real) G CURVE_ORDER = ZERO /\
  add (Crypto := Real) (multiply G (CURVE_ORDER - 1)) G = ZERO.
Proof. split; vm_compute; reflexivity. Qed.

Example public_key_of_one :
  TestStealthAddress.getPublicKey (C := Real)
    "0x0000000000000000000000000000000000000000000000000000000000000001" =
  Normal "0x0279be667ef9dcbbac55a06295ce870b07029bfcdb2dce28d959f2815b16f81798".
Proof. vm_compute. reflexivity. Qed.

Example address_of_one :
  ViemAccounts.privateKeyToAddress (C := Real)
    "0x0000000000000000000000000000000000000000000000000000000000000001" =
  Normal "0x7E5F4552091A69125d5DfCb7b8C2659029395Bdf".
Proof. vm_compute. reflexivity. Qed.

Example realKeys_are_consistent : keysOf (C := Real) spend3 view5 = realKeys.
Proof. vm_compute. reflexivity. Qed.

Example real_sender_run :
  run (TestStealthAddress.generateStealthAddress (C := Real) draw7 (metaAddressOf realKeys)) =
  ((realSenderLines ++
    [log [Str "Generated Stealth Address:";
          Str "0xf0b80c1ce96ecb00fc6e3dd9154bef79dac445c8"]])%list,
   Normal realGenerated).
Proof. vm_compute. reflexivity. Qed.

(** The whole script, for the random bytes that give the keys 3, 5 and 7. *)
Example main_recovers :
  run (TestStealthAddress.main (C := Real) (entropyOf spend3) (entropyOf view5) draw7) =
  (([log [Str ("=== ERC-5564 Stealth Address Simulation ===" ++ nl)];
     log [Str "Recipient Meta-Address:"];
     log [Str "  Spending PubKey: 0x02f9308a019258c31049344f85f89d5229b531c845836f99b08601f113bce036f9"];
     log [Str "  Viewing PubKey:  0x022f8bde4d1a07209355b4a7250a5c5128e88b84bddc619ab7cba8d569b240efe4"]]
    ++ realSenderLines
    ++ [log [Str "Generated Stealth Address:";
             Str "0xf0b80c1ce96ecb00fc6e3dd9154bef79dac445c8"];
        headerLine; calculatedLine (JS.Num 139); matchLine; keyLine recoveredKey;
        addressLine recoveredAddress; successLine])%list,
   Normal tt).
Proof. vm_compute. reflexivity. Qed.

(** C6 fails as stated: a tag mismatch, a recovery and a recovery
    mismatch all return the same value; nothing in what the scan returns
    tells them apart. *)
Lemma outcomes_return_alike :
  run (TestStealthAddress.scanAndRecover (C := Real) announcedOtherTag realKeys) =
    ([headerLine; calculatedLine (JS.Num 139); noMatchLine], Normal tt) /\
  run (TestStealthAddress.scanAndRecover (C := Real) announced realKeys) =
    ([headerLine; calculatedLine (JS.Num 139); matchLine; keyLine recoveredKey;
      addressLine recoveredAddress; successLine], Normal tt) /\
  run (TestStealthAddress.scanAndRecover (C := Real) announcedOtherAddress realKeys) =
    ([headerLine; calculatedLine (JS.Num 139); matchLine; keyLine recoveredKey;
      addressLine recoveredAddress; failureLine], Normal tt) /\
  result (TestStealthAddress.scanAndRecover (C := Real) announcedOtherAddress realKeys) =
    result (TestStealthAddress.scanAndRecover (C := Real) announced realKeys) /\
  result (TestStealthAddress.scanAndRecover (C := Real) announcedOtherAddress realKeys) =
    result (TestStealthAddress.scanAndRecover (C := Real) announcedOtherTag realKeys).
Proof.
  refine (conj _ (conj _ (conj _ (conj _ _)))); vm_compute; reflexivity.
Qed.

Lemma view_tag_check_ignores_spending_key_witness :
  run (TestStealthAddress.scanAndRecover (C := Real) announcedOtherTag realKeys) =
  run (TestStealthAddress.scanAndRecover (C := Real) announcedOtherTagAndAddress otherSpender).
Proof.
  refine (proj2 (proj2 (view_tag_check_ignores_spending_key (C := Real)
                          announcedOtherTag announcedOtherTagAndAddress
                          realKeys otherSpender eq_refl eq_refl eq_refl)) _).
  vm_compute. right. right. left. reflexivity.
Defined.

Example oppositeKeys_are_consistent : keysOf (C := Real) oppositeSpend view5 = oppositeKeys.
Proof. vm_compute. reflexivity. Qed.

(** C9 fails as stated: for this recipient the sum is the identity, and
    the addition returns it as it returns any other point. *)
Lemma addition_returns_identity :
  run (p_stealth_point (C := Real) draw7 (metaAddressOf oppositeKeys)) =
  (realSenderLines,
   Normal ("0x025cbdf0646e5db4eaa398f365f2ea7a0e3d419b7e0330e39ce92bddedcac4f9bc",
           JS.Num 139, Secp256k1.Infinity)).
Proof. vm_compute. reflexivity. Qed.

Lemma identity_sum_refused_by_encoder_witness :
  run (TestStealthAddress.generateStealthAddress (C := Real) draw7
         (metaAddressOf oppositeKeys)) =
  (realSenderLines, Throw BadPoint).
Proof.
  apply (identity_sum_refused_by_encoder (C := Real) Real_validates draw7
           (metaAddressOf oppositeKeys) realSenderLines
           "0x025cbdf0646e5db4eaa398f365f2ea7a0e3d419b7e0330e39ce92bddedcac4f9bc"
           (JS.Num 139)).
  vm_compute. reflexivity.
Defined.

(** C5 fails as stated: the scan of an announcement of scheme 2 computes
    the shared secret, checks the tag, recovers the private key and
    verifies the address. *)
Lemma foreign_scheme_is_processed :
  Announcer.schemeId foreignAnnouncement <> SCHEME_ID /\
  exists before,
    run (Announcer.scanAndRecover (C := Real) foreignAnnouncement realKeys) =
    ((before ++
      [log [Str "   Re-computed Shared Secret (S): 0x03605bdb019981718b986d0f07e834cb0d9deb8360ffb7f61df982345ef27a7479"];
       log [Str "   Calculated View Tag: 139"];
       log [Str ("   [" ++ Announcer.tick ++ "] View Tag Match! This transaction is for us.")];
       log [Str (nl ++ "2. Recipient derives the 'Stealth Private Key' to spend funds:")];
       log [Str "   Formula: Recipient_Spending_PrivKey + Hashed_Secret (mod curve order)"];
       log [Str "   Recipient Spending PrivKey: 0x0000000000000000000000000000000000000000000000000000000000000003"];
       log [Str "   Hashed Secret (scalar):     0x8b37147f46b32b1adb2ebc02ed6ac119424e4d457c330e40a9441c9fd197e2bd"];
       log [Str "   ------------------------------------------------------------------"];
       log [Str "   Stealth Private Key:        0x8b37147f46b32b1adb2ebc02ed6ac119424e4d457c330e40a9441c9fd197e2c0 (THE KEY TO THE FUNDS)"];
       log [Str (nl ++ "3. Verification:")];
       log [Str "   Derived Address from Key:   0xf0B80C1CE96ecB00fC6E3DD9154bEf79dAc445C8"];
       log [Str "   Actual Stealth Address:     0xf0b80c1ce96ecb00fc6e3dd9154bef79dac445c8"];
       log [Str (nl ++ "   [SUCCESS] The derived key controls the stealth address!")]])%list,
     Normal tt).
Proof.
  split; [discriminate|].
  exists (firstn 15 (output (Announcer.scanAndRecover (C := Real)
                               foreignAnnouncement realKeys))).
  vm_compute. reflexivity.
Qed.

(** ** The draft stops at its first curve call *)


(** * Further properties of the scripts *)

(** ** What the script's sender returns *)

(** Two runs of the same calls are compared by cases on every call. *)
Ltac lockstep :=
  repeat match goal with
         | |- context [match ?c with Normal _ => _ | Throw _ => _ end] =>
             destruct c; cbv beta iota zeta delta [fst snd]
         end.

Section SenderShape.
Context {C : Crypto}.

(** What the sender returns does not depend on what the console held. *)
Lemma generateStealthAddress_result_any (random : Entropy) (m : MetaAddress)
    (out out' : list Console) :
  snd (TestStealthAddress.generateStealthAddress random m out) =
  snd (TestStealthAddress.generateStealthAddress random m out').
Proof.
  unfold TestStealthAddress.generateStealthAddress.
  cbv beta iota zeta delta [bind call console_log sleep ret fst snd].
  lockstep; reflexivity.
Qed.

(** The view tag and the address a returning sender has computed. *)
Lemma generateStealthAddress_shape (random : Entropy) (meta : MetaAddress)
    (out out' : list Console) (g : TestStealthAddress.Generated) :
  TestStealthAddress.generateStealthAddress random meta out = (out', Normal g) ->
  exists S K : bytes,
    TestStealthAddress.viewTag g = JS.index0 (keccak_256 S) /\
    TestStealthAddress.stealthAddress g = "0x" ++ JS.sliceLast 40 (Viem.keccak256 K) /\
    (exists sharedSecret,
       TestStealthAddress.computeSharedSecret (TestStealthAddress.generatePrivateKey random)
         (viewingPubKey meta) = Normal sharedSecret /\
       Viem.hexToBytes sharedSecret = Normal S).
Proof.
  intro H. unfold TestStealthAddress.generateStealthAddress in H.
  step_log H. step_call H ephemeralPubKey He. step_log H.
  step_call H sharedSecret Hs. step_log H.
  step_call H sharedSecretBytes Hb.
  step_call H hashedBytes Hh.
  unfold Viem.keccak256 in Hh. rewrite hexToBytes_bytesToHex in Hh.
  inversion Hh; subst hashedBytes; clear Hh.
  step_log H.
  step_call H s_scalar Hsc. step_call H p_spending Hp. step_call H s_G Hg.
  step_call H s_G_point Hgp. step_call H stealthPubKey Hc. step_call H uncompressed Hu.
  step_call H uncompressedBytes Hub. step_log H.
  unfold ret in H. inversion H; subst; clear H.
  exists sharedSecretBytes, (tl uncompressedBytes).
  refine (conj eq_refl (conj eq_refl _)). now exists sharedSecret.
Qed.

End SenderShape.

Lemma drop_hexOfBytes (k : nat) : forall bs : bytes,
  JS.drop (2 * k) (Viem.hexOfBytes bs) = Viem.hexOfBytes (skipn k bs).
Proof.
  induction k as [|k IH]; intro bs; [reflexivity|].
  destruct bs as [|b r]; [reflexivity|].
  replace (2 * S k)%nat with (S (S (2 * k))) by lia.
  cbn [Viem.hexOfBytes skipn]. unfold Viem.hexes. cbn [append JS.drop]. apply IH.
Qed.

(** The last 40 hex digits of a 32-byte digest are its last 20 bytes. *)
Lemma address_of_digest (K : bytes) :
  List.length K = 32%nat ->
  "0x" ++ JS.sliceLast 40 (Viem.bytesToHex K) = Viem.bytesToHex (skipn 12 K).
Proof.
  intro HK. rewrite sliceLast_digest by assumption.
  unfold Viem.bytesToHex at 2. f_equal.
  change (JS.sliceFrom 26 (Viem.bytesToHex K)) with (JS.drop (2 * 12) (Viem.hexOfBytes K)).
  apply drop_hexOfBytes.
Qed.

(** X1. The view tag is a byte.  Whenever the sender returns, the view tag
    it returns is a number from 0 to 255, never [undefined]: the first byte
    of the Keccak-256 digest of the bytes of the shared secret, the one
    [computeSharedSecret] returned for the key the sender drew and the
    recipient's viewing key. *)
Theorem sender_view_tag_is_a_byte {C : Crypto} {L : CryptoLaws C} (random : Entropy)
    (recipientMetaAddress : MetaAddress) (out : list Console)
    (g : TestStealthAddress.Generated) :
  run (TestStealthAddress.generateStealthAddress random recipientMetaAddress) =
    (out, Normal g) ->
  exists (sharedSecret : string) (S : bytes) (tag : byte),
    TestStealthAddress.computeSharedSecret (TestStealthAddress.generatePrivateKey random)
      (viewingPubKey recipientMetaAddress) = Normal sharedSecret /\
    Viem.hexToBytes sharedSecret = Normal S /\
    hd_error (keccak_256 S) = Some tag /\
    TestStealthAddress.viewTag g = JS.Num (byteZ tag) /\
    0 <= byteZ tag < 256.
Proof.
  intro H. apply generateStealthAddress_shape in H as (S & K & Ht & _ & sharedSecret & Hs & Hb).
  pose proof (keccak_256_length S) as LS.
  destruct (keccak_256 S) as [|tag rest] eqn:ED; [discriminate LS|].
  exists sharedSecret, S, tag.
  refine (conj Hs (conj Hb (conj _ (conj Ht (byteZ_range tag))))).
  rewrite ED. reflexivity.
Qed.

(** X2. The stealth address is twenty bytes.  Whenever the sender returns,
    the address it returns is [0x] followed by the lower-case hex digits of
    20 bytes, 42 characters in all, which [hexToBytes] reads back as those
    20 bytes. *)
Theorem stealthAddress_is_twenty_bytes {C : Crypto} {L : CryptoLaws C} (random : Entropy)
    (recipientMetaAddress : MetaAddress) (out : list Console)
    (g : TestStealthAddress.Generated) :
  run (TestStealthAddress.generateStealthAddress random recipientMetaAddress) =
    (out, Normal g) ->
  exists K : bytes,
    List.length K = 20%nat /\
    TestStealthAddress.stealthAddress g = Viem.bytesToHex K /\
    String.length (TestStealthAddress.stealthAddress g) = 42%nat /\
    JS.toLowerCase (TestStealthAddress.stealthAddress g) = TestStealthAddress.stealthAddress g /\
    Viem.hexToBytes (TestStealthAddress.stealthAddress g) = Normal K.
Proof.
  intro H. apply generateStealthAddress_shape in H as (S & K & _ & Ha & _).
  pose proof (keccak_256_length K) as LK.
  unfold Viem.keccak256 in Ha. rewrite address_of_digest in Ha by assumption.
  exists (skipn 12 (keccak_256 K)).
  assert (Hl : List.length (skipn 12 (keccak_256 K)) = 20%nat)
    by (rewrite length_skipn, LK; reflexivity).
  rewrite Ha. refine (conj Hl (conj eq_refl (conj _ (conj _ _)))).
  - rewrite bytesToHex_length, Hl. reflexivity.
  - unfold Viem.bytesToHex. rewrite toLowerCase_app, toLowerCase_hexOfBytes. reflexivity.
  - apply hexToBytes_bytesToHex.
Qed.

(** X3. When the sender returns.  For a meta-address made of the compressed
    encodings of [s G] and [v G], the sender returns exactly when the key
    [e] it draws lies in [1, n-1], the shared point [e (v G)] has a
    compressed encoding [S], the digest of [S] is a scalar [h] in [1, n-1],
    and [s G + h G] is not the identity. *)
Theorem sender_returns_iff {C : Crypto} {L : CryptoLaws C} (V : EncoderValidates C)
    (random : Entropy) (spendingKey viewingKey : bytes) (s v : Z) :
  toBytes (multiply G s) true = Some spendingKey ->
  toBytes (multiply G v) true = Some viewingKey ->
  let e := bytesToNumberBE (getRandomValues random 32) in
  (exists out g,
     run (TestStealthAddress.generateStealthAddress random
            {| spendingPubKey := Viem.bytesToHex spendingKey;
               viewingPubKey := Viem.bytesToHex viewingKey |}) = (out, Normal g))
  <->
  (0 < e < CURVE_ORDER /\
   exists S : bytes,
     toBytes (multiply (multiply G v) e) true = Some S /\
     0 < bytesToNumberBE (keccak_256 S) < CURVE_ORDER /\
     add (multiply G s) (multiply G (bytesToNumberBE (keccak_256 S))) <> ZERO).
Proof.
  intros Hs Hv e. split.
  - intros (out & g & H).
    destruct (generateStealthAddress_inv random spendingKey viewingKey _ _ out g
                (fromBytes_toBytes _ _ _ Hs) (fromBytes_toBytes _ _ _ Hv) H)
      as (eb & S & cb & ub & Re & _ & HS & Rh & Hcb & _).
    cbv zeta in Rh, Hcb. split; [exact Re|]. exists S. refine (conj HS (conj Rh _)).
    intro Z0. rewrite Z0, (V true) in Hcb. discriminate.
  - intros (Re & S & HS & Rh & Hnz).
    exact (generateStealthAddress_returns random spendingKey viewingKey s v S Hs Hv Re HS Rh Hnz).
Qed.

(** X4. A draw out of range.  When the 32 random bytes the sender draws are
    zero or at least the order of the curve, the sender throws the
    library's error for an invalid private key, having written its header
    line and nothing else; it does not draw again. *)
Theorem sender_throws_on_a_draw_out_of_range {C : Crypto} (random : Entropy)
    (recipientMetaAddress : MetaAddress) :
  let drawn := bytesToNumberBE (getRandomValues random 32) in
  ~ (0 < drawn < CURVE_ORDER) ->
  run (TestStealthAddress.generateStealthAddress random recipientMetaAddress) =
  ([log [Str (nl ++ "--- Sender: Generating Stealth Address ---")]], Throw InvalidPrivateKey).
Proof.
  intros drawn Hd.
  unfold run, TestStealthAddress.generateStealthAddress. rewrite bind_log. cbv zeta.
  unfold TestStealthAddress.generatePrivateKey, TestStealthAddress.getPublicKey.
  rewrite hexToBytes_bytesToHex. cbn [cbind].
  unfold Noble.getPublicKey, Noble.secretKeyToScalar.
  rewrite getRandomValues_length. cbn [Nat.eqb]. fold drawn.
  destruct ((0 <? drawn) && (drawn <? CURVE_ORDER)) eqn:E.
  - apply andb_true_iff in E as [E1 E2]. apply Z.ltb_lt in E1, E2. lia.
  - cbn [cbind]. rewrite bind_call_Throw. reflexivity.
Qed.

(** ** What the script's scan does with what it is handed *)

(** X5. An announcement is not skipped for being malformed.  When the
    ephemeral public key of an announcement is hex that decodes to no point
    of the curve, the scan of a recipient with a 32-byte viewing key throws
    the library's error after the header line. *)
Theorem scan_throws_on_a_key_off_the_curve {C : Crypto}
    (announcement : TestStealthAddress.Announcement) (recipientKeys : RecipientKeys)
    (viewingKey ephemeralKey : bytes) :
  Viem.hexToBytes (viewingPrivKey recipientKeys) = Normal viewingKey ->
  List.length viewingKey = 32%nat ->
  Viem.hexToBytes (TestStealthAddress.annEphemeralPubKey announcement) = Normal ephemeralKey ->
  fromBytes ephemeralKey = None ->
  run (TestStealthAddress.scanAndRecover announcement recipientKeys) =
  ([headerLine], Throw InvalidPoint).
Proof.
  intros Hv _ He Hp.
  unfold run, TestStealthAddress.scanAndRecover. rewrite bind_log.
  unfold TestStealthAddress.computeSharedSecret, Noble.getSharedSecret.
  rewrite Hv, He. cbn [cbind]. rewrite Hp. cbn [orThrow cbind].
  rewrite bind_call_Throw. reflexivity.
Qed.

(** X6. The stealth private key as a string.  From non-negative
    [d_spending] and [s_scalar] the scan writes the key as [0x] and exactly
    64 hex digits; [BigInt] reads the string back as
    [(d_spending + s_scalar) mod CURVE_ORDER], and [hexToBytes] as the 32
    bytes of that number. *)
Theorem derived_key_is_written_on_64_digits (d_spending s_scalar : Z) :
  0 <= d_spending -> 0 <= s_scalar ->
  let d_stealth :=
    "0x" ++ JS.padStart 64 "0"
              (JS.toString16 (TestStealthAddress.d_stealth_big d_spending s_scalar)) in
  String.length d_stealth = 66%nat /\
  JS.BigInt d_stealth = Normal ((d_spending + s_scalar) mod CURVE_ORDER) /\
  exists key : bytes,
    Viem.hexToBytes d_stealth = Normal key /\
    List.length key = 32%nat /\
    bytesToNumberBE key = (d_spending + s_scalar) mod CURVE_ORDER.
Proof.
  intros Hd Hs d_stealth. subst d_stealth.
  pose proof CURVE_ORDER_pos as Hn. pose proof CURVE_ORDER_small as Hm.
  unfold TestStealthAddress.d_stealth_big. rewrite Z.rem_mod_nonneg by lia.
  set (d := (d_spending + s_scalar) mod CURVE_ORDER).
  assert (Hr : 0 <= d < 2 ^ 256) by (pose proof (Z.mod_pos_bound (d_spending + s_scalar) _ Hn); lia).
  destruct (privateKeyDigits d Hr) as [Hlen Hval].
  destruct (privateKeyBytes d Hr) as (sk & Hsk & Lsk & Vsk).
  refine (conj _ (conj _ _)).
  - change (String.length ("0x" ++ ?k)) with (S (S (String.length k))). now rewrite Hlen.
  - destruct (JS.padStart 64 "0" (JS.toString16 d)) as [|c r] eqn:E; [discriminate Hlen|].
    change (JS.BigInt ("0x" ++ String c r)) with (orThrow SyntaxError (JS.hexValue (String c r) 0)).
    now rewrite Hval.
  - exists sk. refine (conj _ (conj Lsk Vsk)).
    unfold Viem.hexToBytes. change (JS.sliceFrom 2 ("0x" ++ ?k)) with k.
    rewrite Hlen. exact Hsk.
Qed.

(** X7. Addresses are compared without regard to case.  Two announcements
    with the same ephemeral key and the same view tag whose addresses
    differ in case only, such as a check-summed address and its lower-case
    spelling, give the same run of the scan. *)
Theorem scan_compares_addresses_ignoring_case {C : Crypto}
    (announcement other : TestStealthAddress.Announcement) (recipientKeys : RecipientKeys) :
  TestStealthAddress.annEphemeralPubKey announcement =
    TestStealthAddress.annEphemeralPubKey other ->
  TestStealthAddress.annViewTag announcement = TestStealthAddress.annViewTag other ->
  JS.toLowerCase (TestStealthAddress.annStealthAddress announcement) =
    JS.toLowerCase (TestStealthAddress.annStealthAddress other) ->
  run (TestStealthAddress.scanAndRecover announcement recipientKeys) =
  run (TestStealthAddress.scanAndRecover other recipientKeys).
Proof.
  intros He Ht Ha. unfold run, TestStealthAddress.scanAndRecover.
  rewrite He, Ht, Ha. reflexivity.
Qed.

(** ** The script from end to end *)

Section RecipientFacts.
Context {C : Crypto} {L : CryptoLaws C}.

(** What the recipient computes from what the sender returned for its keys:
    the same shared secret, hence the same tag, and a private key in range
    whose address is the sender's up to case. *)
Lemma recipient_facts (V : EncoderValidates C) (random : Entropy) (spend view : bytes)
    (spendingPub viewingPub : string) (out out' : list Console)
    (g : TestStealthAddress.Generated) :
  TestStealthAddress.getPublicKey (Viem.bytesToHex spend) = Normal spendingPub ->
  TestStealthAddress.getPublicKey (Viem.bytesToHex view) = Normal viewingPub ->
  TestStealthAddress.generateStealthAddress random
    {| spendingPubKey := spendingPub; viewingPubKey := viewingPub |} out = (out', Normal g) ->
  exists (S : bytes) (derivedAddress : string),
    let D := keccak_256 S in
    let d := (bytesToNumberBE spend + bytesToNumberBE D) mod CURVE_ORDER in
    TestStealthAddress.computeSharedSecret (Viem.bytesToHex view)
      (TestStealthAddress.ephemeralPubKey g) = Normal (Viem.bytesToHex S) /\
    TestStealthAddress.viewTag g = JS.index0 D /\
    spend <> [] /\
    TestStealthAddress.d_stealth_big (bytesToNumberBE spend) (bytesToNumberBE D) = d /\
    0 < d < CURVE_ORDER /\
    ViemAccounts.privateKeyToAddress ("0x" ++ JS.padStart 64 "0" (JS.toString16 d)) =
      Normal derivedAddress /\
    JS.toLowerCase derivedAddress = JS.toLowerCase (TestStealthAddress.stealthAddress g).
Proof.
  intros Hs Hv Hg.
  apply getPublicKey_inv in Hs as (sp & Esp & Lsp & Rsp & Hsp).
  apply getPublicKey_inv in Hv as (vp & Evp & Lvp & Rvp & Hvp).
  rewrite Esp, Evp in Hg.
  pose proof (fromBytes_toBytes _ _ _ Hsp) as Fsp.
  pose proof (fromBytes_toBytes _ _ _ Hvp) as Fvp.
  assert (Hrun : exists o, run (TestStealthAddress.generateStealthAddress random
             {| spendingPubKey := Viem.bytesToHex sp; viewingPubKey := Viem.bytesToHex vp |})
           = (o, Normal g)).
  { pose proof (generateStealthAddress_result_any random
                  {| spendingPubKey := Viem.bytesToHex sp; viewingPubKey := Viem.bytesToHex vp |}
                  [] out) as R.
    rewrite Hg in R. cbn [snd] in R. unfold run.
    destruct (TestStealthAddress.generateStealthAddress random _ []) as [o r].
    cbn [snd] in R. subst r. now exists o. }
  destruct Hrun as (o & Hrun).
  destruct (generateStealthAddress_inv random sp vp _ _ o g Fsp Fvp Hrun)
    as (eb & S & cb & ub & Re & Heb & HS & Rh & Hcb & Hub & Eg & _).
  cbv zeta in Rh, Hcb, Hub, Eg.
  set (e := bytesToNumberBE (getRandomValues random 32)) in *.
  set (s := bytesToNumberBE spend) in *.
  set (v := bytesToNumberBE view) in *.
  set (D := keccak_256 S) in *.
  set (h := bytesToNumberBE D) in *.
  pose proof (keccak_256_length S) as LD. fold D in LD.
  pose proof CURVE_ORDER_pos as Hn.
  assert (Hsum : multiply G ((s + h) mod CURVE_ORDER) = add (multiply G s) (multiply G h))
    by (apply multiply_G_add_mod; lia).
  assert (Hnz : add (multiply G s) (multiply G h) <> ZERO).
  { intro Z0. rewrite Z0, (V true) in Hcb. discriminate. }
  pose proof (Z.mod_pos_bound (s + h) CURVE_ORDER Hn) as Hdr.
  assert (Hd : 0 < (s + h) mod CURVE_ORDER < CURVE_ORDER).
  { split; [|lia]. destruct (Z.eq_dec ((s + h) mod CURVE_ORDER) 0) as [Z0|]; [|lia].
    rewrite Z0, multiply_0 in Hsum. congruence. }
  rewrite <- Hsum in Hub.
  pose proof (privateKeyToAddress_spec _ ub Hd Hub) as Haddr.
  pose proof (keccak_256_length (tl ub)) as LK.
  exists S, (Viem.checksumAddress ("0x" ++ JS.sliceFrom 26 (Viem.keccak256 (tl ub)))).
  cbv zeta. fold D h s.
  refine (conj _ (conj _ (conj _ (conj _ (conj Hd (conj Haddr _)))))).
  - rewrite Eg. cbn [TestStealthAddress.ephemeralPubKey].
    rewrite (computeSharedSecret_spec view eb (multiply G e) Lvp Rvp
               (fromBytes_toBytes _ _ _ Heb)).
    fold v. rewrite multiply_swap by lia. rewrite HS. reflexivity.
  - rewrite Eg. reflexivity.
  - intro E0. rewrite E0 in Lsp. discriminate.
  - unfold TestStealthAddress.d_stealth_big. apply Z.rem_mod_nonneg; lia.
  - rewrite Eg. cbn [TestStealthAddress.stealthAddress]. now apply addresses_agree.
Qed.

End RecipientFacts.

(** Lines written at the end of a console. *)
Lemma extends_refl {A} (l : list A) : exists w, l = (l ++ w)%list.
Proof. exists []. now rewrite app_nil_r. Qed.

Lemma extends_snoc {A} (l l0 : list A) (x : A) :
  (exists w, l = (l0 ++ w)%list) -> exists w, (l ++ [x])%list = (l0 ++ w)%list.
Proof. intros (w & ->). exists (w ++ [x])%list. now rewrite app_assoc. Qed.

Lemma extends_last {A B} (l l0 : list A) (x : A) (b : B) :
  (exists w, l = (l0 ++ w)%list) ->
  exists w, ((l ++ [x])%list, b) = ((l0 ++ w ++ [x])%list, b).
Proof. intros (w & ->). exists w. now rewrite <- app_assoc. Qed.

Ltac run_logs := repeat (rewrite bind_log || rewrite bind_sleep || (progress (cbv zeta))).

Section ScriptScan.
Context {C : Crypto} {L : CryptoLaws C}.

(** The scan of what the sender returned for the recipient's own keys. *)
Lemma scan_of_generated (V : EncoderValidates C) (random : Entropy) (spend view : bytes)
    (spendingPub viewingPub : string) (out out' console0 : list Console)
    (g : TestStealthAddress.Generated) :
  TestStealthAddress.getPublicKey (Viem.bytesToHex spend) = Normal spendingPub ->
  TestStealthAddress.getPublicKey (Viem.bytesToHex view) = Normal viewingPub ->
  TestStealthAddress.generateStealthAddress random
    {| spendingPubKey := spendingPub; viewingPubKey := viewingPub |} out = (out', Normal g) ->
  exists d_stealth derivedAddress : string,
    TestStealthAddress.scanAndRecover (TestStealthAddress.announcementOf g)
      {| spendingPrivKey := Viem.bytesToHex spend;
         viewingPrivKey := Viem.bytesToHex view;
         recipientSpendingPubKey := spendingPub;
         recipientViewingPubKey := viewingPub |} console0 =
    ((console0 ++
      [headerLine; calculatedLine (TestStealthAddress.viewTag g); matchLine;
       keyLine d_stealth; addressLine derivedAddress; successLine])%list,
     Normal tt).
Proof.
  intros Hs Hv Hg.
  destruct (recipient_facts V random spend view _ _ _ _ g Hs Hv Hg)
    as (S & derivedAddress & Hss & Htag & Hne & Hd & Hr & Haddr & Hlow).
  cbv zeta in *.
  pose proof (keccak_256_length S) as LD.
  eexists _, derivedAddress.
  unfold TestStealthAddress.scanAndRecover, TestStealthAddress.announcementOf.
  cbn [TestStealthAddress.annEphemeralPubKey TestStealthAddress.annViewTag
       TestStealthAddress.annStealthAddress spendingPrivKey viewingPrivKey].
  rewrite Htag.
  rewrite bind_log. rewrite Hss, bind_call_Normal.
  rewrite hexToBytes_bytesToHex, bind_call_Normal. cbv zeta.
  unfold Viem.keccak256 at 1 2.
  rewrite hexToBytes_bytesToHex, bind_call_Normal, bind_log.
  rewrite strictEq_index0_refl. cbn [negb]. rewrite bind_log.
  rewrite BigInt_bytesToHex, bind_call_Normal
    by (intro E0; rewrite E0 in LD; discriminate).
  rewrite BigInt_bytesToHex, bind_call_Normal by assumption.
  rewrite Hd.
  rewrite bind_log, Haddr, bind_call_Normal, bind_log.
  rewrite Hlow, String.eqb_refl.
  unfold console_log. rewrite <- !app_assoc. reflexivity.
Qed.

End ScriptScan.

(** [writesOnly] follows the structure of a script. *)
Lemma writesOnly_ret {A} (P : Console -> Prop) (a : A) : writesOnly P (ret a).
Proof. intro out. exists []. now rewrite app_nil_r. Qed.

Lemma writesOnly_call {A} (P : Console -> Prop) (c : completion A) : writesOnly P (call c).
Proof. intro out. exists []. now rewrite app_nil_r. Qed.

Lemma writesOnly_sleep (P : Console -> Prop) (ms : Z) : writesOnly P (sleep ms).
Proof. intro out. exists []. now rewrite app_nil_r. Qed.

Lemma writesOnly_log (P : Console -> Prop) (args : list Value) :
  P (log args) -> writesOnly P (console_log args).
Proof. intros H out. exists [log args]. split; [reflexivity | now constructor]. Qed.

Lemma writesOnly_bind {A B} (P : Console -> Prop) (m : IO A) (f : A -> IO B) :
  writesOnly P m -> (forall a, writesOnly P (f a)) -> writesOnly P (bind m f).
Proof.
  intros Hm Hf out. unfold bind.
  destruct (Hm out) as (w1 & E1 & F1).
  destruct (m out) as [out1 [a|e]]; cbn [fst] in E1; subst out1.
  - destruct (Hf a (out ++ w1)%list) as (w2 & E2 & F2).
    exists (w1 ++ w2)%list. rewrite E2, app_assoc. split; [reflexivity | now apply Forall_app].
  - now exists w1.
Qed.

Ltac distinct_lines :=
  split; (let H := fresh in intro H; first [discriminate H | cbv [nl append] in H; discriminate H]).

Ltac writes_only :=
  repeat match goal with
         | |- writesOnly _ (bind _ _) => apply writesOnly_bind; [|intro]
         | |- writesOnly _ (let _ := _ in _) => cbv zeta
         | |- writesOnly _ (console_log _) => apply writesOnly_log; distinct_lines
         | |- writesOnly _ (call _) => apply writesOnly_call
         | |- writesOnly _ (sleep _) => apply writesOnly_sleep
         | |- writesOnly _ (ret _) => apply writesOnly_ret
         end.

(** The sender writes no line of the scan. *)
Lemma sender_lines_unremarkable {C : Crypto} (random : Entropy) (meta : MetaAddress) :
  writesOnly unremarkable (TestStealthAddress.generateStealthAddress random meta).
Proof. unfold TestStealthAddress.generateStealthAddress. writes_only. Qed.

Lemma unremarkable_not_in (written : list Console) :
  Forall unremarkable written -> ~ In failureLine written /\ ~ In noMatchLine written.
Proof.
  intro F. rewrite Forall_forall in F.
  split; intro H; apply F in H; destruct H as [H1 H2]; congruence.
Qed.

(** X8. [main] never reports a failure.  Whatever the three draws, [main]
    writes neither the line of a failed verification nor the line of a tag
    that does not match; when it does not throw, the last line it writes is
    the one of a successful recovery. *)
Theorem main_ends_in_success {C : Crypto} {L : CryptoLaws C} (V : EncoderValidates C)
    (random1 random2 random3 : Entropy) :
  ~ In failureLine (output (TestStealthAddress.main random1 random2 random3)) /\
  ~ In noMatchLine (output (TestStealthAddress.main random1 random2 random3)) /\
  (result (TestStealthAddress.main random1 random2 random3) = Normal tt ->
   last (output (TestStealthAddress.main random1 random2 random3)) failureLine = successLine).
Proof.
  unfold output, result.
  set (p := run _). assert (Hp : p = run (TestStealthAddress.main random1 random2 random3))
    by reflexivity. clearbody p.
  unfold run, TestStealthAddress.main in Hp.
  rewrite bind_log in Hp. cbv zeta in Hp. unfold TestStealthAddress.generatePrivateKey in Hp.
  set (spend := getRandomValues random1 32) in Hp.
  set (view := getRandomValues random2 32) in Hp.
  destruct (TestStealthAddress.getPublicKey (Viem.bytesToHex spend)) as [sp|e] eqn:Hs;
    [rewrite bind_call_Normal in Hp | rewrite bind_call_Throw in Hp; subst p; cbn [fst snd];
       refine (conj _ (conj _ _)); [not_among | not_among | discriminate]].
  destruct (TestStealthAddress.getPublicKey (Viem.bytesToHex view)) as [vp|e] eqn:Hv;
    [rewrite bind_call_Normal in Hp | rewrite bind_call_Throw in Hp; subst p; cbn [fst snd];
       refine (conj _ (conj _ _)); [not_among | not_among | discriminate]].
  do 3 rewrite bind_log in Hp.
  match type of Hp with
  | context [bind (TestStealthAddress.generateStealthAddress ?r ?m) ?k ?o] =>
    set (before := o) in Hp;
    destruct (sender_lines_unremarkable r m before) as (written & Ew & Fw);
    unfold bind at 1 in Hp;
    destruct (TestStealthAddress.generateStealthAddress r m before) as [o' [g|e]] eqn:Hg
  end; cbn [fst] in Ew; subst o'.
  - destruct (scan_of_generated V random3 spend view sp vp before _ (before ++ written)%list
                g Hs Hv Hg) as (d & a & Hscan).
    rewrite Hscan in Hp. subst p.
    cbn [fst snd]. apply unremarkable_not_in in Fw as [F1 F2].
    refine (conj _ (conj _ _)).
    + intro H. apply in_app_or in H as [H|H]; [apply in_app_or in H as [H|H]|].
      * revert H. subst before. not_among.
      * contradiction.
      * revert H. not_among.
    + intro H. apply in_app_or in H as [H|H]; [apply in_app_or in H as [H|H]|].
      * revert H. subst before. not_among.
      * contradiction.
      * revert H. not_among.
    + intros _.
      change [headerLine; calculatedLine (TestStealthAddress.viewTag g); matchLine;
              keyLine d; addressLine a; successLine]
        with ([headerLine; calculatedLine (TestStealthAddress.viewTag g); matchLine;
               keyLine d; addressLine a] ++ [successLine])%list.
      rewrite app_assoc. apply last_last.
  - subst p. cbn [fst snd]. apply unremarkable_not_in in Fw as [F1 F2].
    refine (conj _ (conj _ _)); [| |discriminate].
    + intro H. apply in_app_or in H as [H|H]; [|contradiction]. revert H. subst before. not_among.
    + intro H. apply in_app_or in H as [H|H]; [|contradiction]. revert H. subst before. not_among.
Qed.

(** ** The registry *)

(** Stepping through a script with a store. *)
Lemma withConsole_same (st : Store) : Script.withConsole st (console st) = st.
Proof. now destruct st. Qed.

Lemma sbind_log {B} (args : list Value) (f : unit -> Script B) (st : Store) :
  Script.bind (Script.lift (console_log args)) f st =
  f tt (Script.withConsole st (console st ++ [log args])).
Proof. reflexivity. Qed.

Lemma sbind_log_at {B} (args : list Value) (f : unit -> Script B)
    (c : list Console) (r : JSObject.t) (l : list Announcer.Announcement) :
  Script.bind (Script.lift (console_log args)) f
    {| console := c; MockRegistry := r; AnnouncementLog := l |} =
  f tt {| console := c ++ [log args]; MockRegistry := r; AnnouncementLog := l |}.
Proof. reflexivity. Qed.

Lemma sbind_sleep {B} (ms : Z) (f : unit -> Script B) (st : Store) :
  Script.bind (Script.lift (sleep ms)) f st = f tt st.
Proof. unfold Script.bind, Script.lift, sleep, ret. now rewrite withConsole_same. Qed.

Lemma sbind_call_Normal {A B} (a : A) (f : A -> Script B) (st : Store) :
  Script.bind (Script.lift (call (Normal a))) f st = f a st.
Proof. unfold Script.bind, Script.lift, call. now rewrite withConsole_same. Qed.

Lemma sbind_call_Throw {A B} (e : Error) (f : A -> Script B) (st : Store) :
  Script.bind (Script.lift (call (Throw e))) f st = (st, Raised (Library e)).
Proof. unfold Script.bind, Script.lift, call. now rewrite withConsole_same. Qed.

Lemma sbind_call_inv {A B} (c : completion A) (f : A -> Script B) st st' (b : B) :
  Script.bind (Script.lift (call c)) f st = (st', Returned b) ->
  exists a, c = Normal a /\ f a st = (st', Returned b).
Proof.
  destruct c as [a|e]; [rewrite sbind_call_Normal | rewrite sbind_call_Throw].
  - intro H. now exists a.
  - discriminate.
Qed.

(** Reads after an assignment. *)
Lemma get_set_same (o : JSObject.t) (key : string) (m : MetaAddress) :
  JSObject.get (JSObject.set o key m) key = JSObject.Keys m.
Proof.
  unfold JSObject.get, JSObject.set.
  destruct (String.eqb key "__proto__") eqn:E; cbn [JSObject.proto JSObject.own JSObject.assoc].
  - reflexivity.
  - now rewrite String.eqb_refl.
Qed.

Lemma get_set_other (o : JSObject.t) (key key' : string) (m : MetaAddress) :
  key <> key' -> key' <> "__proto__" ->
  JSObject.get (JSObject.set o key' m) key = JSObject.get o key.
Proof.
  intros Hk Hp. unfold JSObject.get, JSObject.set.
  apply String.eqb_neq in Hp. rewrite Hp.
  cbn [JSObject.proto JSObject.own JSObject.assoc].
  apply String.eqb_neq in Hk. now rewrite Hk.
Qed.

Ltac script_cbv :=
  cbv beta iota zeta delta
    [Script.bind Script.lift Script.ret Script.throw Script.eval Script.member Script.assign
     Script.push Script.withConsole console_log console_error sleep call ret
     console MockRegistry AnnouncementLog fst snd].

(** [registerKeys] and [lookupKeys], run. *)
Lemma registerKeys_run (identifier spendingKey viewingKey : string) (st : Store) :
  AnnouncerWalkthrough.registerKeys identifier spendingKey viewingKey st =
  ({| console :=
        console st ++
        [log [Str (nl ++ "[ERC-6538 Registry] Registering keys for '" ++ identifier ++ "'...")];
         log [Str "[ERC-6538 Registry] Keys registered successfully!"]];
      MockRegistry :=
        JSObject.set (MockRegistry st) identifier
          {| spendingPubKey := spendingKey; viewingPubKey := viewingKey |};
      AnnouncementLog := AnnouncementLog st |},
   Returned tt).
Proof.
  unfold AnnouncerWalkthrough.registerKeys. script_cbv. now rewrite <- app_assoc.
Qed.

Lemma lookupKeys_run (identifier : string) (st : Store) :
  AnnouncerWalkthrough.lookupKeys identifier st =
  let keys := JSObject.get (MockRegistry st) identifier in
  let looking :=
    log [Str (nl ++ "[ERC-6538 Registry] Looking up keys for '" ++ identifier ++ "'...")] in
  if JSObject.truthy keys then
    (Script.withConsole st
       (console st ++
        [looking;
         log [Str ("[ERC-6538 Registry] Found Stealth Meta-Address for '" ++ identifier
                     ++ "'")]]),
     Returned keys)
  else
    (Script.withConsole st (console st ++ [looking]),
     Raised (ErrorMessage "Recipient not found in registry!")).
Proof.
  unfold AnnouncerWalkthrough.lookupKeys. script_cbv.
  destruct (JSObject.truthy _); cbn [negb]; [now rewrite <- app_assoc | reflexivity].
Qed.

(** X9. Register, then look up.  Whatever the registry held, and whatever
    the identifier, [lookupKeys] after [registerKeys] for the same
    identifier returns the object just stored, and leaves the registry as
    the registration left it. *)
Theorem lookupKeys_after_registerKeys (identifier spendingKey viewingKey : string)
    (st : Store) :
  let registered := fst (AnnouncerWalkthrough.registerKeys identifier spendingKey viewingKey st) in
  snd (AnnouncerWalkthrough.lookupKeys identifier registered) =
    Returned (JSObject.Keys {| spendingPubKey := spendingKey; viewingPubKey := viewingKey |}) /\
  MockRegistry (fst (AnnouncerWalkthrough.lookupKeys identifier registered)) = MockRegistry registered.
Proof.
  cbv zeta. rewrite registerKeys_run, lookupKeys_run. cbn [fst MockRegistry]. cbv zeta.
  rewrite get_set_same. cbn [JSObject.truthy]. split; reflexivity.
Qed.

(** X10. Registering one identifier leaves the others alone, unless the
    identifier registered is [__proto__]: then the assignment replaces the
    prototype of the registry, which later reads can see. *)
Theorem registerKeys_keeps_other_identifiers (identifier other spendingKey viewingKey : string)
    (st : Store) :
  identifier <> other -> other <> "__proto__" ->
  snd (AnnouncerWalkthrough.lookupKeys identifier
         (fst (AnnouncerWalkthrough.registerKeys other spendingKey viewingKey st))) =
  snd (AnnouncerWalkthrough.lookupKeys identifier st).
Proof.
  intros Hne Hp. rewrite registerKeys_run, !lookupKeys_run. cbn [fst MockRegistry]. cbv zeta.
  rewrite get_set_other by assumption.
  destruct (JSObject.truthy _); reflexivity.
Qed.

(** The registry after registrations in a row. *)
Lemma registerAll_registry (entries : list (string * MetaAddress)) : forall st,
  MockRegistry (fst (registerAll entries st)) =
  fold_left (fun o e => JSObject.set o (fst e) (snd e)) entries (MockRegistry st).
Proof.
  induction entries as [|[identifier keys] rest IH]; intro st; [reflexivity|].
  cbn [registerAll fold_left fst snd]. unfold Script.bind at 1.
  rewrite registerKeys_run. rewrite IH. cbn [MockRegistry]. now destruct keys.
Qed.

(** The names a read finds in [Object.prototype]. *)
Lemma get_inherited_names (key : string) :
  JSObject.truthy (JSObject.inherited key) = true <-> In key JSObject.objectPrototypeNames.
Proof.
  unfold JSObject.inherited.
  destruct (existsb (String.eqb key) JSObject.objectPrototypeNames) eqn:E; cbn [JSObject.truthy].
  - split; [intros _|reflexivity].
    apply existsb_exists in E as (k & Hk & Ek). apply String.eqb_eq in Ek. now subst.
  - split; [discriminate|]. intro H. exfalso.
    assert (existsb (String.eqb key) JSObject.objectPrototypeNames = true)
      by (apply existsb_exists; exists key; split; [assumption | apply String.eqb_refl]).
    congruence.
Qed.

(** A read after registrations finds what was registered or what the object held. *)
Lemma truthy_get_registered (entries : list (string * MetaAddress)) (key : string) :
  ~ In "__proto__" (map fst entries) -> key <> "__proto__" ->
  forall o,
  JSObject.truthy
    (JSObject.get (fold_left (fun o e => JSObject.set o (fst e) (snd e)) entries o) key) = true
  <-> (In key (map fst entries) \/ JSObject.truthy (JSObject.get o key) = true).
Proof.
  intros Hp Hk. induction entries as [|[k m] rest IH]; intro o.
  - cbn. tauto.
  - cbn [fold_left map fst snd In] in *.
    rewrite IH by tauto.
    destruct (String.eqb_spec key k) as [->|Hne].
    + rewrite get_set_same. cbn [JSObject.truthy]. tauto.
    + rewrite get_set_other by (try assumption; intro E; apply Hp; left; assumption).
      split; [intros [H|H]; [left; right; assumption | right; assumption]
             | intros [[H|H]|H]; [congruence | left; assumption | right; assumption]].
Qed.

(** X11. An identifier nobody registered.  After any registrations made from
    the empty registry, none of them under [__proto__], [lookupKeys] throws
    its error for an identifier that is no property name of
    [Object.prototype] exactly when that identifier was never
    registered. *)
Theorem lookupKeys_throws_iff_unregistered (entries : list (string * MetaAddress))
    (identifier : string) (st : Store) :
  MockRegistry st = JSObject.empty ->
  ~ In "__proto__" (map fst entries) ->
  ~ In identifier JSObject.objectPrototypeNames ->
  snd (AnnouncerWalkthrough.lookupKeys identifier (fst (registerAll entries st))) =
    Raised (ErrorMessage "Recipient not found in registry!")
  <-> ~ In identifier (map fst entries).
Proof.
  intros He Hp Hn.
  assert (Hk : identifier <> "__proto__").
  { intro E. apply Hn. rewrite E. cbn. tauto. }
  pose proof (truthy_get_registered entries identifier Hp Hk (MockRegistry st)) as T.
  rewrite <- registerAll_registry in T.
  assert (Hempty : JSObject.truthy (JSObject.get (MockRegistry st) identifier) = false).
  { rewrite He. unfold JSObject.get. apply String.eqb_neq in Hk. rewrite Hk.
    cbn [JSObject.empty JSObject.own JSObject.proto JSObject.assoc].
    destruct (JSObject.truthy (JSObject.inherited identifier)) eqn:E; [|reflexivity].
    apply get_inherited_names in E. contradiction. }
  rewrite lookupKeys_run. cbv zeta.
  destruct (JSObject.truthy (JSObject.get (MockRegistry (fst (registerAll entries st))) identifier));
    cbn [snd].
  - split; [discriminate|]. intro Hnot.
    destruct (proj1 T eq_refl) as [E|E]; [contradiction | congruence].
  - split; [intros _|reflexivity]. intro Hin.
    assert (false = true) by (apply T; left; assumption). discriminate.
Qed.

(** ** The sender of the announcer walkthrough *)

(** A script that only writes to the console, run inside one with a store. *)
Lemma sbind_lift_bind {A B D} (m : IO A) (f : A -> IO B) (g : B -> Script D) (st : Store) :
  Script.bind (Script.lift (bind m f)) g st =
  Script.bind (Script.lift m) (fun a => Script.bind (Script.lift (f a)) g) st.
Proof.
  unfold Script.bind, Script.lift, bind.
  destruct (m (console st)) as [out [a|e]]; reflexivity.
Qed.

Lemma sbind_lift_ret {A B} (a : A) (g : A -> Script B) (st : Store) :
  Script.bind (Script.lift (ret a)) g st = g a st.
Proof. unfold Script.bind, Script.lift, ret. now rewrite withConsole_same. Qed.

Lemma sbind_ext {A B} (m : Script A) (f f' : A -> Script B) :
  (forall a st, f a st = f' a st) -> forall st, Script.bind m f st = Script.bind m f' st.
Proof.
  intros H st. unfold Script.bind. destruct (m st) as [st1 [a|e]]; [apply H | reflexivity].
Qed.

Section AnnouncerSenderScript.
Context {C : Crypto}.
Local Open Scope script_scope.

(** The sender of the announcer walkthrough, with its middle part named. *)
Lemma AnnouncerWalkthrough_generateStealthAddress_steps (random : Entropy) (identifier : string)
    (st : Store) :
  AnnouncerWalkthrough.generateStealthAddress random identifier st =
  (console_log [Str (nl ++ Announcer.rule)] ;;;
   console_log [Str "                           SENDER SIDE (Generating Address)                        "] ;;;
   console_log [Str Announcer.rule] ;;;
   sleep 800 ;;;
   console_log [Str ("1. Sender needs Recipient's Meta-Address (for '" ++ identifier
                       ++ "'):")] ;;;
   keys <- AnnouncerWalkthrough.lookupKeys identifier ;;
   match JSObject.fields keys with
   | None => Script.throw TypeError
   | Some recipientMetaAddress =>
       console_log [Str ("   [String] Full Meta-Address: "
                         ++ Announcer.metaAddressString recipientMetaAddress)] ;;;
       console_log [Str ("   [Public] Spending Key:      "
                         ++ spendingPubKey recipientMetaAddress)] ;;;
       console_log [Str ("   [Public] Viewing Key:       "
                         ++ viewingPubKey recipientMetaAddress)] ;;;
       derived <- senderSteps random recipientMetaAddress ;;
       announce derived
   end) st.
Proof.
  unfold AnnouncerWalkthrough.generateStealthAddress.
  revert st. do 6 (apply sbind_ext; intros ?).
  destruct (JSObject.fields a4) as [m|]; [|reflexivity].
  cbv zeta. do 3 (apply sbind_ext; intros ?).
  unfold senderSteps. cbv zeta.
  intro st.
  repeat (rewrite sbind_lift_bind; revert st; apply sbind_ext; intros ? st).
  rewrite sbind_lift_ret. reflexivity.
Qed.

End AnnouncerSenderScript.

Section SenderSteps.
Context {C : Crypto}.

(** The middle part of a walkthrough's sender computes what the script's sender computes. *)
Lemma senderSteps_result (random : Entropy) (m : MetaAddress) (out out' : list Console) :
  snd (senderSteps random m out) =
  match snd (TestStealthAddress.generateStealthAddress random m out') with
  | Normal g => Normal (TestStealthAddress.ephemeralPubKey g,
                        TestStealthAddress.viewTag g,
                        TestStealthAddress.stealthAddress g)
  | Throw e => Throw e
  end.
Proof.
  unfold senderSteps, TestStealthAddress.generateStealthAddress, Announcer.computeSharedSecret.
  cbv beta iota zeta delta [bind call console_log sleep ret fst snd].
  lockstep; reflexivity.
Qed.

End SenderSteps.

Lemma sbind_lift_inv {A B} (m : IO A) (g : A -> Script B) (st st' : Store) (b : B) :
  Script.bind (Script.lift m) g st = (st', Returned b) ->
  exists out a, m (console st) = (out, Normal a) /\
                g a (Script.withConsole st out) = (st', Returned b).
Proof.
  unfold Script.bind, Script.lift. destruct (m (console st)) as [out [a|e]]; [|discriminate].
  intro H. now exists out, a.
Qed.

Lemma sbind_lift_run {A B} (m : IO A) (g : A -> Script B) (st : Store) :
  Script.bind (Script.lift m) g st =
  match m (console st) with
  | (out, Normal a) => g a (Script.withConsole st out)
  | (out, Throw e) => (Script.withConsole st out, Raised (Library e))
  end.
Proof. unfold Script.bind, Script.lift. destruct (m (console st)) as [out [a|e]]; reflexivity. Qed.

(** [emitAnnouncement], run. *)
Lemma emitAnnouncement_run (announcement : Announcer.Announcement) (st : Store) :
  AnnouncerWalkthrough.emitAnnouncement announcement st =
  ({| console :=
        console st ++
        [log [Str (nl ++ "[ERC-5564 Announcer] Emitting Announcement event...")];
         log [Str "[ERC-5564 Announcer] Announcement emitted!"];
         log [Str ("   schemeId: "
                   ++ numberToString (JS.Num (Announcer.schemeId announcement)))];
         log [Str ("   stealthAddress: " ++ Announcer.stealthAddress announcement)];
         log [Str ("   ephemeralPubKey: " ++ Announcer.ephemeralPubKey announcement)];
         log [Str ("   metadata (viewTag in first byte): "
                   ++ Announcer.metadata announcement)]];
      MockRegistry := MockRegistry st;
      AnnouncementLog := AnnouncementLog st ++ [announcement] |},
   Returned tt).
Proof.
  unfold AnnouncerWalkthrough.emitAnnouncement. script_cbv. now rewrite <- !app_assoc.
Qed.

Section AnnouncerSenderRuns.
Context {C : Crypto}.

(** What a returning run of the walkthrough's sender went through. *)
Lemma AnnouncerWalkthrough_generateStealthAddress_inv (random : Entropy) (identifier : string)
    (st st' : Store) (a : Announcer.Announcement) :
  AnnouncerWalkthrough.generateStealthAddress random identifier st = (st', Returned a) ->
  exists (m : MetaAddress) (out out' : list Console) (derived : string * JS.number * string)
         (digits : string),
    JSObject.get (MockRegistry st) identifier = JSObject.Keys m /\
    senderSteps random m out = (out', Normal derived) /\
    numberToString16 (snd (fst derived)) = Returned digits /\
    a = announcementFrom derived digits /\
    MockRegistry st' = MockRegistry st /\
    AnnouncementLog st' = (AnnouncementLog st ++ [a])%list.
Proof.
  intro H. rewrite AnnouncerWalkthrough_generateStealthAddress_steps in H.
  destruct st as [c r l].
  rewrite !sbind_log_at, sbind_sleep, sbind_log_at in H.
  unfold Script.bind at 1 in H. rewrite lookupKeys_run in H. cbv zeta in H.
  cbn [console MockRegistry AnnouncementLog Script.withConsole] in *.
  destruct (JSObject.truthy _); [|discriminate].
  destruct (JSObject.get _ identifier) as [m| | |] eqn:Hget in H; try discriminate.
  cbn [JSObject.fields] in H.
  unfold Script.withConsole in H. cbn [console MockRegistry AnnouncementLog] in H.
  rewrite !sbind_log_at in H.
  apply sbind_lift_inv in H as (out' & derived & Hs & H).
  unfold announce, Script.bind, Script.eval, Script.ret in H.
  destruct (numberToString16 (snd (fst derived))) as [digits|] eqn:Hd; [|discriminate].
  rewrite emitAnnouncement_run in H. inversion H; subst; clear H.
  cbn [MockRegistry AnnouncementLog Script.withConsole] in *.
  eexists m, _, out', derived, digits. repeat split; try eassumption.
Qed.

Lemma senderSteps_shape (random : Entropy) (m : MetaAddress) (out out' : list Console)
    (derived : string * JS.number * string) :
  senderSteps random m out = (out', Normal derived) ->
  exists S K : bytes,
    snd (fst derived) = JS.index0 (keccak_256 S) /\
    snd derived = "0x" ++ JS.sliceLast 40 (Viem.keccak256 K).
Proof.
  intro H. pose proof (senderSteps_result random m out []) as R.
  rewrite H in R. cbn [snd] in R.
  destruct (TestStealthAddress.generateStealthAddress random m []) as [o [g|e]] eqn:E;
    cbn [snd] in R; [|discriminate].
  apply generateStealthAddress_shape in E as (S & K & Ht & Ha & _).
  inversion R; subst derived. cbn [fst snd]. now exists S, K.
Qed.

Lemma senderSteps_generated (random : Entropy) (m : MetaAddress) (out out' : list Console)
    (derived : string * JS.number * string) :
  senderSteps random m out = (out', Normal derived) ->
  exists o g,
    TestStealthAddress.generateStealthAddress random m [] = (o, Normal g) /\
    derived = (TestStealthAddress.ephemeralPubKey g, TestStealthAddress.viewTag g,
               TestStealthAddress.stealthAddress g).
Proof.
  intro H. pose proof (senderSteps_result random m out []) as R.
  rewrite H in R. cbn [snd] in R.
  destruct (TestStealthAddress.generateStealthAddress random m []) as [o [g|e]];
    cbn [snd] in R; [|discriminate].
  exists o, g. split; [reflexivity | congruence].
Qed.

(** How the walkthrough's sender can fail for a registered recipient. *)
Lemma AnnouncerWalkthrough_generateStealthAddress_raised (random : Entropy) (identifier : string)
    (m : MetaAddress) (st st' : Store) (e : Exception) :
  JSObject.get (MockRegistry st) identifier = JSObject.Keys m ->
  AnnouncerWalkthrough.generateStealthAddress random identifier st = (st', Raised e) ->
  MockRegistry st' = MockRegistry st /\
  AnnouncementLog st' = AnnouncementLog st /\
  ((exists le, e = Library le) \/
   exists out out' derived,
     senderSteps random m out = (out', Normal derived) /\
     numberToString16 (snd (fst derived)) = Raised e).
Proof.
  intros Hget H. rewrite AnnouncerWalkthrough_generateStealthAddress_steps in H.
  destruct st as [c r l].
  rewrite !sbind_log_at, sbind_sleep, sbind_log_at in H.
  unfold Script.bind at 1 in H. rewrite lookupKeys_run in H. cbv zeta in H.
  cbn [console MockRegistry AnnouncementLog Script.withConsole] in *. rewrite Hget in H.
  cbn [JSObject.truthy JSObject.fields] in H.
  unfold Script.withConsole in H. cbn [console MockRegistry AnnouncementLog] in H.
  rewrite !sbind_log_at, sbind_lift_run in H.
  match type of H with context [senderSteps random m ?o] =>
    destruct (senderSteps random m o) as [out' [derived|le]] eqn:Hs
  end.
  - unfold announce, Script.bind, Script.eval, Script.ret in H.
    destruct (numberToString16 (snd (fst derived))) as [digits|e'] eqn:Hd.
    + rewrite emitAnnouncement_run in H. discriminate.
    + inversion H; subst. cbn [MockRegistry AnnouncementLog Script.withConsole].
      refine (conj eq_refl (conj eq_refl (or_intror _))). eauto.
  - inversion H; subst. cbn [MockRegistry AnnouncementLog Script.withConsole].
    refine (conj eq_refl (conj eq_refl (or_introl _))). eauto.
Qed.

End AnnouncerSenderRuns.

(** A byte written on two hex digits, and read back. *)
Lemma metadata_of_byte (b : byte) :
  let metadata := "0x" ++ JS.padStart 2 "0" (JS.toString16 (byteZ b)) in
  String.length metadata = 4%nat /\
  JS.parseInt16 (JS.slice 2 4 metadata) = JS.Num (byteZ b) /\
  Viem.hexToBytes metadata = Normal [b].
Proof. destruct b; vm_compute; repeat split; reflexivity. Qed.

Lemma index0_digits (D : bytes) (digits : string) :
  numberToString16 (JS.index0 D) = Returned digits ->
  exists b, JS.index0 D = JS.Num (byteZ b) /\ digits = JS.toString16 (byteZ b).
Proof.
  destruct D as [|b r]; cbn [JS.index0 numberToString16]; [discriminate|].
  intro H. inversion H. now exists b.
Qed.

(** X12. Names every object inherits.  On the empty registry [lookupKeys]
    does not throw for a property name of [Object.prototype], such as
    [toString]: the read finds the inherited value, which counts as true.
    The sender then throws a [TypeError] on the first field it uses. *)
Theorem inherited_names_are_found {C : Crypto} (random : Entropy) (identifier : string)
    (st : Store) :
  MockRegistry st = JSObject.empty ->
  In identifier JSObject.objectPrototypeNames ->
  snd (AnnouncerWalkthrough.lookupKeys identifier st) = Returned JSObject.Builtin /\
  snd (AnnouncerWalkthrough.generateStealthAddress random identifier st) = Raised TypeError.
Proof.
  intros He Hin.
  assert (Hget : JSObject.get (MockRegistry st) identifier = JSObject.Builtin).
  { rewrite He. unfold JSObject.get.
    cbn [JSObject.empty JSObject.own JSObject.proto JSObject.assoc].
    destruct (String.eqb identifier "__proto__"); [reflexivity|].
    unfold JSObject.inherited.
    assert (existsb (String.eqb identifier) JSObject.objectPrototypeNames = true) as ->
      by (apply existsb_exists; exists identifier; split; [assumption | apply String.eqb_refl]).
    reflexivity. }
  split.
  - rewrite lookupKeys_run. cbv zeta. rewrite Hget. reflexivity.
  - rewrite AnnouncerWalkthrough_generateStealthAddress_steps.
    destruct st as [c r l].
    rewrite !sbind_log_at, sbind_sleep, sbind_log_at.
    unfold Script.bind at 1. rewrite lookupKeys_run. cbv zeta.
    cbn [console MockRegistry AnnouncementLog Script.withConsole] in *.
    rewrite Hget. reflexivity.
Qed.

(** X13. An unknown recipient.  When [lookupKeys] throws for the identifier,
    the sender throws the same error after five lines, and leaves the
    registry and the log of announcements as they were. *)
Theorem sender_stops_when_the_lookup_throws {C : Crypto} (random : Entropy)
    (identifier : string) (st : Store) (e : Exception) :
  snd (AnnouncerWalkthrough.lookupKeys identifier st) = Raised e ->
  exists written : list Console,
    AnnouncerWalkthrough.generateStealthAddress random identifier st =
    ({| console := console st ++ written;
        MockRegistry := MockRegistry st;
        AnnouncementLog := AnnouncementLog st |},
     Raised e) /\
    List.length written = 5%nat.
Proof.
  intro H. rewrite AnnouncerWalkthrough_generateStealthAddress_steps.
  destruct st as [c r l].
  rewrite !sbind_log_at, sbind_sleep, sbind_log_at.
  unfold Script.bind at 1. rewrite lookupKeys_run in *. cbv zeta in *.
  cbn [console MockRegistry AnnouncementLog Script.withConsole] in *.
  destruct (JSObject.truthy (JSObject.get r identifier)); cbn [snd] in H; [discriminate|].
  inversion H; subst e.
  eexists. rewrite <- !app_assoc. cbn [app]. split; reflexivity.
Qed.

(** X14. The announcement.  The announcement the sender returns is of scheme
    1, from the mock caller, and is the one entry the run has added at the
    end of the log of announcements; the registry is as it was.  Its
    metadata is [0x] and two hex digits, one byte, and the view tag the
    scan parses out of the metadata is that byte. *)
Theorem sender_announces_what_it_returns {C : Crypto} (random : Entropy)
    (identifier : string) (st st' : Store) (a : Announcer.Announcement) :
  AnnouncerWalkthrough.generateStealthAddress random identifier st = (st', Returned a) ->
  Announcer.schemeId a = SCHEME_ID /\
  Announcer.caller a = "0x0000000000000000000000000000000000000001" /\
  AnnouncementLog st' = (AnnouncementLog st ++ [a])%list /\
  MockRegistry st' = MockRegistry st /\
  exists tag : byte,
    Viem.hexToBytes (Announcer.metadata a) = Normal [tag] /\
    String.length (Announcer.metadata a) = 4%nat /\
    JS.parseInt16 (JS.slice 2 4 (Announcer.metadata a)) = JS.Num (byteZ tag).
Proof.
  intro H.
  apply AnnouncerWalkthrough_generateStealthAddress_inv in H
    as (m & out & out' & derived & digits & _ & Hs & Hd & -> & Hr & Hl).
  apply senderSteps_shape in Hs as (S & K & Ht & _).
  rewrite Ht in Hd. apply index0_digits in Hd as (b & _ & ->).
  destruct derived as [[eph tag] addr]. cbn [announcementFrom Announcer.schemeId Announcer.caller
    Announcer.metadata] in *.
  refine (conj eq_refl (conj eq_refl (conj Hl (conj Hr _)))).
  exists b. destruct (metadata_of_byte b) as (L & P & X). auto.
Qed.

(** X15. The walkthrough's sender is the script's sender.  For a recipient
    registered under [identifier], the sender of the walkthrough returns
    the address, the ephemeral key and the view tag that the script's
    sender returns for the registered keys and the same draw, the tag
    written into the metadata; and it throws what that one throws. *)
Theorem announcer_sender_agrees_with_script {C : Crypto} (random : Entropy)
    (identifier spendingKey viewingKey : string) (st : Store) :
  let registered := fst (AnnouncerWalkthrough.registerKeys identifier spendingKey viewingKey st) in
  let recipientMetaAddress :=
    {| spendingPubKey := spendingKey; viewingPubKey := viewingKey |} in
  snd (AnnouncerWalkthrough.generateStealthAddress random identifier registered) =
  match result (TestStealthAddress.generateStealthAddress random recipientMetaAddress) with
  | Throw e => Raised (Library e)
  | Normal g =>
      match numberToString16 (TestStealthAddress.viewTag g) with
      | Raised e => Raised e
      | Returned digits =>
          Returned
            {| Announcer.schemeId := 1;
               Announcer.stealthAddress := TestStealthAddress.stealthAddress g;
               Announcer.caller := "0x0000000000000000000000000000000000000001";
               Announcer.ephemeralPubKey := TestStealthAddress.ephemeralPubKey g;
               Announcer.metadata := "0x" ++ JS.padStart 2 "0" digits |}
      end
  end.
Proof.
  cbv zeta. rewrite registerKeys_run. cbn [fst].
  rewrite AnnouncerWalkthrough_generateStealthAddress_steps.
  rewrite !sbind_log_at, sbind_sleep, sbind_log_at.
  unfold Script.bind at 1. rewrite lookupKeys_run. cbv zeta.
  cbn [console MockRegistry AnnouncementLog Script.withConsole]. rewrite get_set_same.
  cbn [JSObject.truthy JSObject.fields].
  unfold Script.withConsole. cbn [console MockRegistry AnnouncementLog].
  rewrite !sbind_log_at, sbind_lift_run.
  match goal with |- context [senderSteps random ?m ?o] =>
    pose proof (senderSteps_result random m o []) as R;
    destruct (senderSteps random m o) as [out' c]
  end.
  cbn [snd] in R. subst c. unfold result, run.
  destruct (snd (TestStealthAddress.generateStealthAddress random _ [])) as [g|e];
    [|reflexivity].
  unfold announce, Script.bind, Script.eval, Script.ret. cbn [fst snd].
  destruct (numberToString16 (TestStealthAddress.viewTag g)) as [digits|e]; [|reflexivity].
  rewrite emitAnnouncement_run. reflexivity.
Qed.

(** ** The announcer walkthrough from end to end *)

Section AnnouncerScan.
Context {C : Crypto} {L : CryptoLaws C}.

(** The scan of the announcement made of what the sender returned for the
    recipient's own keys. *)
Lemma Announcer_scan_of_generated (V : EncoderValidates C) (random : Entropy)
    (spend view : bytes) (spendingPub viewingPub : string) (out out' console0 : list Console)
    (g : TestStealthAddress.Generated) (tag : byte) (schemeId : Z) (caller : string) :
  TestStealthAddress.getPublicKey (Viem.bytesToHex spend) = Normal spendingPub ->
  TestStealthAddress.getPublicKey (Viem.bytesToHex view) = Normal viewingPub ->
  TestStealthAddress.generateStealthAddress random
    {| spendingPubKey := spendingPub; viewingPubKey := viewingPub |} out = (out', Normal g) ->
  TestStealthAddress.viewTag g = JS.Num (byteZ tag) ->
  exists written : list Console,
    Announcer.scanAndRecover
      {| Announcer.schemeId := schemeId;
         Announcer.stealthAddress := TestStealthAddress.stealthAddress g;
         Announcer.caller := caller;
         Announcer.ephemeralPubKey := TestStealthAddress.ephemeralPubKey g;
         Announcer.metadata := "0x" ++ JS.padStart 2 "0" (JS.toString16 (byteZ tag)) |}
      {| spendingPrivKey := Viem.bytesToHex spend;
         viewingPrivKey := Viem.bytesToHex view;
         recipientSpendingPubKey := spendingPub;
         recipientViewingPubKey := viewingPub |} console0 =
    ((console0 ++ written ++
      [log [Str (nl ++ "   [SUCCESS] The derived key controls the stealth address!")]])%list,
     Normal tt).
Proof.
  intros Hs Hv Hg Hb.
  destruct (recipient_facts V random spend view _ _ _ _ g Hs Hv Hg)
    as (S & derivedAddress & Hss & Htag & Hne & Hd & Hr & Haddr & Hlow).
  cbv zeta in *.
  pose proof (keccak_256_length S) as LD.
  destruct (metadata_of_byte tag) as (_ & Hparse & _). cbv zeta in Hparse.
  unfold Announcer.scanAndRecover, Announcer.computeSharedSecret.
  cbn [Announcer.schemeId Announcer.stealthAddress Announcer.ephemeralPubKey
       Announcer.metadata spendingPrivKey viewingPrivKey].
  rewrite Hparse.
  run_logs.
  rewrite Hss, bind_call_Normal. run_logs.
  rewrite hexToBytes_bytesToHex, bind_call_Normal. cbv zeta.
  unfold Viem.keccak256 at 1 2 3.
  rewrite hexToBytes_bytesToHex, bind_call_Normal. run_logs.
  rewrite <- Htag, Hb. cbn [JS.strictEq]. rewrite Z.eqb_refl. cbn [negb].
  run_logs.
  rewrite BigInt_bytesToHex, bind_call_Normal
    by (intro E0; rewrite E0 in LD; discriminate).
  rewrite BigInt_bytesToHex, bind_call_Normal by assumption.
  rewrite Hd. run_logs.
  rewrite Haddr, bind_call_Normal. run_logs.
  rewrite Hlow, String.eqb_refl.
  unfold console_log. cbv beta.
  apply extends_last. repeat apply extends_snoc. apply extends_refl.
Qed.

End AnnouncerScan.

(** X16. [main] of the announcer walkthrough, run from the empty registry
    and the empty log.  When it returns, its last line is the one of a
    successful recovery, the log holds the one announcement of the run, of
    scheme 1, and the registry answers both identifiers with the
    recipient's keys.  When it throws, a call of viem or noble has thrown,
    and nothing has been announced. *)
Theorem announcer_main_outcome {C : Crypto} {L : CryptoLaws C} (V : EncoderValidates C)
    (random1 random2 random3 : Entropy) :
  match AnnouncerWalkthrough.main random1 random2 random3 initial with
  | (st', Returned _) =>
      last (console st') (log []) =
        log [Str (nl ++ "   [SUCCESS] The derived key controls the stealth address!")] /\
      (exists a, AnnouncementLog st' = [a] /\ Announcer.schemeId a = SCHEME_ID) /\
      (exists keys,
         JSObject.get (MockRegistry st') "alice.eth" = JSObject.Keys keys /\
         JSObject.get (MockRegistry st') "0x1234567890123456789012345678901234567890" =
           JSObject.Keys keys)
  | (st', Raised e) => (exists le, e = Library le) /\ AnnouncementLog st' = []
  end.
Proof.
  unfold AnnouncerWalkthrough.main, initial.
  rewrite sbind_log_at, sbind_sleep. cbv zeta. unfold TestStealthAddress.generatePrivateKey.
  set (spend := getRandomValues random1 32).
  set (view := getRandomValues random2 32).
  destruct (TestStealthAddress.getPublicKey (Viem.bytesToHex spend)) as [sp|e] eqn:Hs;
    [rewrite sbind_call_Normal | rewrite sbind_call_Throw; split; [eauto | reflexivity]].
  destruct (TestStealthAddress.getPublicKey (Viem.bytesToHex view)) as [vp|e] eqn:Hv;
    [rewrite sbind_call_Normal | rewrite sbind_call_Throw; split; [eauto | reflexivity]].
  rewrite !sbind_log_at.
  unfold Script.bind at 1. rewrite registerKeys_run.
  cbn [console MockRegistry AnnouncementLog].
  rewrite sbind_sleep, sbind_log_at.
  unfold Script.bind at 1. rewrite registerKeys_run.
  cbn [console MockRegistry AnnouncementLog].
  rewrite sbind_sleep, sbind_log_at, sbind_sleep, sbind_log_at.
  match goal with |- context [Script.bind (AnnouncerWalkthrough.generateStealthAddress ?r ?i) ?k ?s] =>
    set (st := s); set (raw := i)
  end.
  set (m := {| spendingPubKey := sp; viewingPubKey := vp |}).
  assert (Hraw : JSObject.get (MockRegistry st) raw = JSObject.Keys m) by reflexivity.
  assert (Hens : JSObject.get (MockRegistry st) "alice.eth" = JSObject.Keys m) by reflexivity.
  assert (Hlog : AnnouncementLog st = []) by reflexivity.
  clearbody st.
  unfold Script.bind at 1.
  destruct (AnnouncerWalkthrough.generateStealthAddress random3 raw st) as [st1 [a|e]] eqn:Hgen.
  - apply AnnouncerWalkthrough_generateStealthAddress_inv in Hgen
      as (m' & out & out' & derived & digits & Hget & Hsteps & Hd & -> & Hr & Hl).
    rewrite Hraw in Hget. inversion Hget; subst m'; clear Hget.
    destruct (senderSteps_generated _ _ _ _ _ Hsteps) as (o & g & Hg & ->).
    cbn [fst snd] in Hd.
    destruct (recipient_facts V random3 spend view sp vp [] o g Hs Hv Hg)
      as (S & _ & _ & Htag & _).
    rewrite Htag in Hd. apply index0_digits in Hd as (b & Hb & ->).
    rewrite <- Htag in Hb.
    destruct (Announcer_scan_of_generated V random3 spend view sp vp [] o (console st1)
                g b SCHEME_ID "0x0000000000000000000000000000000000000001" Hs Hv Hg Hb)
      as (written & Hscan).
    unfold Script.lift. cbn [announcementFrom]. rewrite Hscan.
    cbn [console Script.withConsole AnnouncementLog MockRegistry].
    rewrite Hr, Hl, Hlog.
    refine (conj _ (conj _ _)).
    + rewrite app_assoc. apply last_last.
    + eexists. split; reflexivity.
    + exists m. split; assumption.
  - destruct (AnnouncerWalkthrough_generateStealthAddress_raised _ _ _ _ _ _ Hraw Hgen)
      as (Hr & Hl & [Hlib | (out & out' & derived & Hsteps & Hd)]).
    + split; [assumption | congruence].
    + exfalso.
      destruct (senderSteps_generated _ _ _ _ _ Hsteps) as (o & g & Hg & ->).
      cbn [fst snd] in Hd.
      destruct (recipient_facts V random3 spend view sp vp [] o g Hs Hv Hg)
        as (S & _ & _ & Htag & _).
      rewrite Htag in Hd. pose proof (keccak_256_length S) as LS.
      destruct (keccak_256 S); [discriminate LS | discriminate Hd].
Qed.

(** ** The scans of the walkthroughs end as the script's scan does *)

(** As [lockstep], with the conditions of the scans. *)
Ltac lockstep_if :=
  repeat match goal with
         | |- context [match ?c with Normal _ => _ | Throw _ => _ end] =>
             destruct c; cbv beta iota zeta delta [fst snd negb]
         | |- context [if ?b then _ else _] =>
             destruct b; cbv beta iota zeta delta [fst snd negb]
         end.

Ltac line_in := cbn [In app]; repeat (first [left; reflexivity | right]).

Ltac line_out H :=
  cbn [In app] in H;
  repeat (destruct H as [H|H];
          [first [discriminate H
                 | cbv [nl append Announcer.rule Announcer.tick Walkthrough.tick
                        walkthroughSuccess walkthroughFailure walkthroughNoMatch
                        successLine failureLine noMatchLine matchLine headerLine
                        calculatedLine keyLine addressLine] in H; discriminate H]|]);
  exact H.

Ltac same_lines :=
  split; (let H := fresh in intro H; first [solve [line_in] | exfalso; solve [line_out H]]).

Section ScansSimulate.
Context {C : Crypto}.

(** Each scan of a walkthrough makes the calls of the script's scan, in the
    same order, and writes its last lines where that one does. *)
Lemma Announcer_scan_simulates (announcement : Announcer.Announcement)
    (recipientKeys : RecipientKeys) (out : list Console) :
  exists written,
    Announcer.scanAndRecover announcement recipientKeys out =
      ((out ++ written)%list,
       snd (TestStealthAddress.scanAndRecover (scriptAnnouncement announcement)
              recipientKeys [])) /\
    endAlike (written,
              snd (TestStealthAddress.scanAndRecover (scriptAnnouncement announcement)
                     recipientKeys []))
             (TestStealthAddress.scanAndRecover (scriptAnnouncement announcement)
                recipientKeys []) /\
    (In walkthroughSuccess written -> exists w, written = (w ++ [walkthroughSuccess])%list).
Proof.
  unfold endAlike, Announcer.scanAndRecover, TestStealthAddress.scanAndRecover,
    Announcer.computeSharedSecret, scriptAnnouncement.
  cbn [TestStealthAddress.annEphemeralPubKey TestStealthAddress.annViewTag
       TestStealthAddress.annStealthAddress].
  cbv beta iota zeta delta [bind call console_log console_error sleep ret fst snd].
  lockstep_if;
    (eexists; split; [rewrite <- !app_assoc; cbn [app]; reflexivity|]);
    (split; [refine (conj eq_refl (conj _ (conj _ _))); same_lines|]).
  all: intro H.
  all: first [exfalso; solve [line_out H]
             | match goal with |- exists w, ?l = _ => exists (removelast l) end; reflexivity].
Qed.

Lemma Registry_scan_simulates (announcement : TestStealthAddress.Announcement)
    (recipientKeys : RecipientKeys) (out : list Console) :
  exists written,
    RegistryWalkthrough.scanAndRecover announcement recipientKeys out =
      ((out ++ written)%list,
       snd (TestStealthAddress.scanAndRecover announcement recipientKeys [])) /\
    endAlike (written, snd (TestStealthAddress.scanAndRecover announcement recipientKeys []))
             (TestStealthAddress.scanAndRecover announcement recipientKeys []) /\
    (In walkthroughSuccess written -> exists w, written = (w ++ [walkthroughSuccess])%list).
Proof.
  unfold endAlike, RegistryWalkthrough.scanAndRecover, TestStealthAddress.scanAndRecover,
    RegistryWalkthrough.computeSharedSecret.
  cbv beta iota zeta delta [bind call console_log console_error sleep ret fst snd].
  lockstep_if;
    (eexists; split; [rewrite <- !app_assoc; cbn [app]; reflexivity|]);
    (split; [refine (conj eq_refl (conj _ (conj _ _))); same_lines|]).
  all: intro H.
  all: first [exfalso; solve [line_out H]
             | match goal with |- exists w, ?l = _ => exists (removelast l) end; reflexivity].
Qed.

Lemma Plain_scan_simulates (announcement : TestStealthAddress.Announcement)
    (recipientKeys : RecipientKeys) (out : list Console) :
  exists written,
    Walkthrough.scanAndRecover announcement recipientKeys out =
      ((out ++ written)%list,
       snd (TestStealthAddress.scanAndRecover announcement recipientKeys [])) /\
    endAlike (written, snd (TestStealthAddress.scanAndRecover announcement recipientKeys []))
             (TestStealthAddress.scanAndRecover announcement recipientKeys []) /\
    (In walkthroughSuccess written -> exists w, written = (w ++ [walkthroughSuccess])%list).
Proof.
  unfold endAlike, Walkthrough.scanAndRecover, TestStealthAddress.scanAndRecover,
    Walkthrough.computeSharedSecret.
  cbv beta iota zeta delta [bind call console_log console_error sleep ret fst snd].
  lockstep_if;
    (eexists; split; [rewrite <- !app_assoc; cbn [app]; reflexivity|]);
    (split; [refine (conj eq_refl (conj _ (conj _ _))); same_lines|]).
  all: intro H.
  all: first [exfalso; solve [line_out H]
             | match goal with |- exists w, ?l = _ => exists (removelast l) end; reflexivity].
Qed.

End ScansSimulate.

(** X17. The scan of the announcer walkthrough ends as the script's scan
    does on the same ephemeral key and address and the view tag parsed from
    the metadata: with the same completion, and on its line of success, of
    failure or of a tag that does not match exactly when the script's scan
    writes its own. *)
Theorem announcer_scan_ends_as_the_script {C : Crypto}
    (announcement : Announcer.Announcement) (recipientKeys : RecipientKeys) :
  endAlike (run (Announcer.scanAndRecover announcement recipientKeys))
           (run (TestStealthAddress.scanAndRecover (scriptAnnouncement announcement)
                   recipientKeys)).
Proof.
  unfold run.
  destruct (Announcer_scan_simulates announcement recipientKeys []) as (w & -> & H & _).
  exact H.
Qed.

(** X18. The scan of the registry walkthrough ends as the script's scan
    does on the same announcement. *)
Theorem registry_scan_ends_as_the_script {C : Crypto}
    (announcement : TestStealthAddress.Announcement) (recipientKeys : RecipientKeys) :
  endAlike (run (RegistryWalkthrough.scanAndRecover announcement recipientKeys))
           (run (TestStealthAddress.scanAndRecover announcement recipientKeys)).
Proof.
  unfold run.
  destruct (Registry_scan_simulates announcement recipientKeys []) as (w & -> & H & _).
  exact H.
Qed.

(** X19. The scan of the walkthrough without registry ends as the script's
    scan does on the same announcement. *)
Theorem plain_scan_ends_as_the_script {C : Crypto}
    (announcement : TestStealthAddress.Announcement) (recipientKeys : RecipientKeys) :
  endAlike (run (Walkthrough.scanAndRecover announcement recipientKeys))
           (run (TestStealthAddress.scanAndRecover announcement recipientKeys)).
Proof.
  unfold run.
  destruct (Plain_scan_simulates announcement recipientKeys []) as (w & -> & H & _).
  exact H.
Qed.

(** ** The registry walkthrough *)

Section RegistrySender.
Context {C : Crypto}.

(** The sender of the registry walkthrough, for an identifier the registry holds. *)
Lemma Registry_generateStealthAddress_result (random : Entropy) (identifier : string)
    (m : MetaAddress) (st : Store) (out' : list Console) :
  JSObject.get (MockRegistry st) identifier = JSObject.Keys m ->
  exists out,
    RegistryWalkthrough.generateStealthAddress random identifier st =
    ({| console := out; MockRegistry := MockRegistry st; AnnouncementLog := AnnouncementLog st |},
     match snd (TestStealthAddress.generateStealthAddress random m out') with
     | Normal g =>
         Returned
           {| RegistryWalkthrough.stealthAddress := TestStealthAddress.stealthAddress g;
              RegistryWalkthrough.ephemeralPubKey := TestStealthAddress.ephemeralPubKey g;
              RegistryWalkthrough.viewTag := TestStealthAddress.viewTag g |}
     | Throw e => Raised (Library e)
     end).
Proof.
  intro Hget. destruct st as [c r l].
  unfold RegistryWalkthrough.generateStealthAddress, RegistryWalkthrough.lookupKeys.
  rewrite !sbind_log_at, sbind_sleep, sbind_log_at.
  unfold Script.bind at 1. rewrite lookupKeys_run. cbv zeta.
  cbn [console MockRegistry AnnouncementLog] in *. rewrite Hget.
  cbn [JSObject.truthy JSObject.fields option_map RegistryWalkthrough.shown].
  unfold TestStealthAddress.generateStealthAddress, RegistryWalkthrough.computeSharedSecret.
  cbv beta iota zeta delta
    [Script.bind Script.lift Script.ret Script.throw Script.withConsole
     bind call console_log sleep ret fst snd console MockRegistry AnnouncementLog].
  lockstep; eexists; reflexivity.
Qed.

End RegistrySender.

(** X20. For a recipient registered under [identifier], the sender of the
    registry walkthrough returns the three values the script's sender
    returns for the registered keys and the same draw, and throws what that
    one throws. *)
Theorem registry_sender_agrees_with_script {C : Crypto} (random : Entropy)
    (identifier spendingKey viewingKey : string) (st : Store) :
  let registered := fst (RegistryWalkthrough.registerKeys identifier spendingKey viewingKey st) in
  let recipientMetaAddress :=
    {| spendingPubKey := spendingKey; viewingPubKey := viewingKey |} in
  snd (RegistryWalkthrough.generateStealthAddress random identifier registered) =
  match result (TestStealthAddress.generateStealthAddress random recipientMetaAddress) with
  | Normal g =>
      Returned
        {| RegistryWalkthrough.stealthAddress := TestStealthAddress.stealthAddress g;
           RegistryWalkthrough.ephemeralPubKey := TestStealthAddress.ephemeralPubKey g;
           RegistryWalkthrough.viewTag := TestStealthAddress.viewTag g |}
  | Throw e => Raised (Library e)
  end.
Proof.
  cbv zeta. unfold RegistryWalkthrough.registerKeys. rewrite registerKeys_run. cbn [fst].
  match goal with |- context [RegistryWalkthrough.generateStealthAddress _ _ ?s] =>
    destruct (Registry_generateStealthAddress_result random identifier
                {| spendingPubKey := spendingKey; viewingPubKey := viewingKey |} s [])
      as (out & ->); [cbn [MockRegistry]; apply get_set_same | reflexivity]
  end.
Qed.

(** X21. Keys that are no keys.  When [lookupKeys] returns a value that is
    no stored object, the sender of the registry walkthrough prints the
    meta-address [st:eth:undefined:undefined], draws its key all the same,
    and throws: the library's error when the key is out of range, a
    [TypeError] at the shared secret otherwise.  The registry is as it
    was. *)
Theorem registry_sender_prints_undefined_keys {C : Crypto} (random : Entropy)
    (identifier : string) (st : Store) (keys : JSObject.value) :
  snd (RegistryWalkthrough.lookupKeys identifier st) = Returned keys ->
  JSObject.fields keys = None ->
  exists written : list Console,
    RegistryWalkthrough.generateStealthAddress random identifier st =
    ({| console := console st ++ written;
        MockRegistry := MockRegistry st;
        AnnouncementLog := AnnouncementLog st |},
     match TestStealthAddress.getPublicKey (TestStealthAddress.generatePrivateKey random) with
     | Normal _ => Raised TypeError
     | Throw e => Raised (Library e)
     end) /\
    In (log [Str "   [String] Full Meta-Address: st:eth:undefined:undefined"]) written.
Proof.
  intros Hk Hf. destruct st as [c r l].
  unfold RegistryWalkthrough.lookupKeys in Hk. rewrite lookupKeys_run in Hk. cbv zeta in Hk.
  cbn [console MockRegistry AnnouncementLog] in Hk.
  destruct (JSObject.truthy (JSObject.get r identifier)) eqn:Ht; [|discriminate].
  cbn [snd] in Hk. inversion Hk; subst keys; clear Hk.
  unfold RegistryWalkthrough.generateStealthAddress, RegistryWalkthrough.lookupKeys.
  rewrite !sbind_log_at, sbind_sleep, sbind_log_at.
  unfold Script.bind at 1. rewrite lookupKeys_run. cbv zeta.
  cbn [console MockRegistry AnnouncementLog] in *. rewrite Ht, Hf.
  cbn [option_map RegistryWalkthrough.shown].
  unfold Script.withConsole. cbn [console MockRegistry AnnouncementLog].
  rewrite !sbind_log_at, sbind_sleep.
  unfold TestStealthAddress.generatePrivateKey.
  destruct (TestStealthAddress.getPublicKey _) as [eph|e].
  - rewrite sbind_call_Normal, !sbind_log_at, sbind_sleep.
    rewrite hexToBytes_bytesToHex, sbind_call_Normal.
    unfold Script.throw. rewrite <- !app_assoc. cbn [app].
    eexists. split; [reflexivity|]. cbn [In]. do 6 right. left. reflexivity.
  - rewrite sbind_call_Throw. rewrite <- !app_assoc. cbn [app].
    eexists. split; [reflexivity|]. cbn [In]. do 6 right. left. reflexivity.
Qed.

Section WalkthroughScan.
Context {C : Crypto} {L : CryptoLaws C}.

(** The scan of a walkthrough, run on what the sender returned for the
    recipient's own keys. *)
Lemma walkthrough_scan_of_generated (V : EncoderValidates C)
    (scan : TestStealthAddress.Announcement -> RecipientKeys -> IO unit)
    (random : Entropy) (spend view : bytes) (spendingPub viewingPub : string)
    (o console0 : list Console) (g : TestStealthAddress.Generated) :
  (forall announcement recipientKeys out,
     exists written,
       scan announcement recipientKeys out =
         ((out ++ written)%list,
          snd (TestStealthAddress.scanAndRecover announcement recipientKeys [])) /\
       endAlike (written, snd (TestStealthAddress.scanAndRecover announcement recipientKeys []))
                (TestStealthAddress.scanAndRecover announcement recipientKeys []) /\
       (In walkthroughSuccess written ->
        exists w, written = (w ++ [walkthroughSuccess])%list)) ->
  TestStealthAddress.getPublicKey (Viem.bytesToHex spend) = Normal spendingPub ->
  TestStealthAddress.getPublicKey (Viem.bytesToHex view) = Normal viewingPub ->
  TestStealthAddress.generateStealthAddress random
    {| spendingPubKey := spendingPub; viewingPubKey := viewingPub |} [] = (o, Normal g) ->
  exists w,
    scan (TestStealthAddress.announcementOf g)
      {| spendingPrivKey := Viem.bytesToHex spend;
         viewingPrivKey := Viem.bytesToHex view;
         recipientSpendingPubKey := spendingPub;
         recipientViewingPubKey := viewingPub |} console0 =
    ((console0 ++ w ++ [walkthroughSuccess])%list, Normal tt) /\
    ~ In walkthroughFailure w /\ ~ In walkthroughNoMatch w.
Proof.
  intros Hsim Hs Hv Hg.
  destruct (scan_of_generated V random spend view _ _ [] o [] g Hs Hv Hg) as (d & a & Hscan).
  destruct (Hsim (TestStealthAddress.announcementOf g)
              {| spendingPrivKey := Viem.bytesToHex spend;
                 viewingPrivKey := Viem.bytesToHex view;
                 recipientSpendingPubKey := spendingPub;
                 recipientViewingPubKey := viewingPub |} console0)
    as (written & Hw & (_ & Hsucc & Hfail & Hno) & Hlast).
  rewrite Hscan in *. cbn [fst snd app] in *.
  destruct Hlast as (w & ->); [apply Hsucc; line_in|].
  exists w. rewrite Hw. split; [reflexivity|].
  split; intro H.
  - assert (Hin : In walkthroughFailure (w ++ [walkthroughSuccess])%list)
      by (apply in_or_app; left; exact H).
    apply Hfail in Hin. line_out Hin.
  - assert (Hin : In walkthroughNoMatch (w ++ [walkthroughSuccess])%list)
      by (apply in_or_app; left; exact H).
    apply Hno in Hin. line_out Hin.
Qed.

End WalkthroughScan.

(** X22. [main] of the registry walkthrough, run from the empty registry.
    When it returns, its last line is the one of a successful recovery and
    the registry answers both identifiers with the recipient's keys.  When
    it throws, a call of viem or noble has thrown. *)
Theorem registry_main_outcome {C : Crypto} {L : CryptoLaws C} (V : EncoderValidates C)
    (random1 random2 random3 : Entropy) :
  match RegistryWalkthrough.main random1 random2 random3 initial with
  | (st', Returned _) =>
      last (console st') walkthroughFailure = walkthroughSuccess /\
      (exists keys,
         JSObject.get (MockRegistry st') "alice.eth" = JSObject.Keys keys /\
         JSObject.get (MockRegistry st') "0x1234567890123456789012345678901234567890" =
           JSObject.Keys keys)
  | (st', Raised e) => exists le, e = Library le
  end.
Proof.
  unfold RegistryWalkthrough.main, RegistryWalkthrough.registerKeys, initial.
  rewrite sbind_log_at, sbind_sleep. cbv zeta. unfold TestStealthAddress.generatePrivateKey.
  set (spend := getRandomValues random1 32).
  set (view := getRandomValues random2 32).
  destruct (TestStealthAddress.getPublicKey (Viem.bytesToHex spend)) as [sp|e] eqn:Hs;
    [rewrite sbind_call_Normal | rewrite sbind_call_Throw; eauto].
  destruct (TestStealthAddress.getPublicKey (Viem.bytesToHex view)) as [vp|e] eqn:Hv;
    [rewrite sbind_call_Normal | rewrite sbind_call_Throw; eauto].
  rewrite !sbind_log_at.
  unfold Script.bind at 1. rewrite registerKeys_run.
  cbn [console MockRegistry AnnouncementLog].
  rewrite sbind_sleep, sbind_log_at.
  unfold Script.bind at 1. rewrite registerKeys_run.
  cbn [console MockRegistry AnnouncementLog].
  rewrite sbind_sleep, sbind_log_at, sbind_sleep, sbind_log_at.
  set (m := {| spendingPubKey := sp; viewingPubKey := vp |}).
  match goal with
  | |- context [Script.bind (RegistryWalkthrough.generateStealthAddress ?r ?i) ?k ?s] =>
    destruct (Registry_generateStealthAddress_result r i m s []) as (out & Hgen);
      [reflexivity|]
  end.
  unfold Script.bind at 1. rewrite Hgen. clear Hgen.
  cbn [console MockRegistry AnnouncementLog].
  destruct (TestStealthAddress.generateStealthAddress random3 m []) as [o [g|e]] eqn:Hg;
    cbn [snd]; [|eauto].
  cbn [RegistryWalkthrough.ephemeralPubKey RegistryWalkthrough.viewTag
       RegistryWalkthrough.stealthAddress].
  change {| TestStealthAddress.annEphemeralPubKey := TestStealthAddress.ephemeralPubKey g;
            TestStealthAddress.annViewTag := TestStealthAddress.viewTag g;
            TestStealthAddress.annStealthAddress := TestStealthAddress.stealthAddress g |}
    with (TestStealthAddress.announcementOf g).
  destruct (walkthrough_scan_of_generated V RegistryWalkthrough.scanAndRecover random3 spend view
              sp vp o out g Registry_scan_simulates Hs Hv Hg)
    as (w & Hscan & Hf & Hn).
  unfold Script.lift. cbn [console]. rewrite Hscan.
  cbn [console Script.withConsole MockRegistry].
  split.
  - rewrite !app_assoc. apply last_last.
  - exists m. split; reflexivity.
Qed.

(** ** The walkthrough without registry *)

Section PlainSender.
Context {C : Crypto}.

(** The sender of the walkthrough without registry computes what the script's sender computes. *)
Lemma Plain_generateStealthAddress_result (random : Entropy) (m : MetaAddress)
    (out out' : list Console) :
  snd (Walkthrough.generateStealthAddress random m out) =
  match snd (TestStealthAddress.generateStealthAddress random m out') with
  | Normal g =>
      Normal {| Walkthrough.stealthAddress := TestStealthAddress.stealthAddress g;
                Walkthrough.ephemeralPubKey := TestStealthAddress.ephemeralPubKey g;
                Walkthrough.viewTag := TestStealthAddress.viewTag g |}
  | Throw e => Throw e
  end.
Proof.
  unfold Walkthrough.generateStealthAddress, TestStealthAddress.generateStealthAddress,
    Walkthrough.computeSharedSecret.
  cbv beta iota zeta delta [bind call console_log sleep ret fst snd].
  lockstep; reflexivity.
Qed.

End PlainSender.

(** X23. The sender of the walkthrough without registry returns the three
    values the script's sender returns for the same meta-address and the
    same draw, and throws what that one throws. *)
Theorem plain_sender_agrees_with_script {C : Crypto} (random : Entropy)
    (recipientMetaAddress : MetaAddress) :
  result (Walkthrough.generateStealthAddress random recipientMetaAddress) =
  match result (TestStealthAddress.generateStealthAddress random recipientMetaAddress) with
  | Normal g =>
      Normal {| Walkthrough.stealthAddress := TestStealthAddress.stealthAddress g;
                Walkthrough.ephemeralPubKey := TestStealthAddress.ephemeralPubKey g;
                Walkthrough.viewTag := TestStealthAddress.viewTag g |}
  | Throw e => Throw e
  end.
Proof. apply Plain_generateStealthAddress_result. Qed.

Ltac distinct_walkthrough_lines :=
  split;
  (let H := fresh in
   intro H;
   first [discriminate H
         | cbv [nl append Announcer.rule walkthroughFailure walkthroughNoMatch] in H;
           discriminate H]).

Ltac walkthrough_writes_only :=
  repeat match goal with
         | |- writesOnly _ (bind _ _) => apply writesOnly_bind; [|intro]
         | |- writesOnly _ (let _ := _ in _) => cbv zeta
         | |- writesOnly _ (console_log _) => apply writesOnly_log; distinct_walkthrough_lines
         | |- writesOnly _ (call _) => apply writesOnly_call
         | |- writesOnly _ (sleep _) => apply writesOnly_sleep
         | |- writesOnly _ (ret _) => apply writesOnly_ret
         end.

(** The sender of the walkthrough writes no line of the scan. *)
Lemma Plain_sender_lines {C : Crypto} (random : Entropy) (meta : MetaAddress) :
  writesOnly unremarkableInWalkthrough (Walkthrough.generateStealthAddress random meta).
Proof. unfold Walkthrough.generateStealthAddress. walkthrough_writes_only. Qed.

Lemma unremarkableInWalkthrough_not_in (written : list Console) :
  Forall unremarkableInWalkthrough written ->
  ~ In walkthroughFailure written /\ ~ In walkthroughNoMatch written.
Proof.
  intro F. rewrite Forall_forall in F.
  split; intro H; apply F in H; destruct H as [H1 H2]; congruence.
Qed.

Section PlainMain.
Context {C : Crypto} {L : CryptoLaws C}.

Lemma Plain_generated (random : Entropy) (m : MetaAddress) (out out' : list Console)
    (data : Walkthrough.Generated) :
  Walkthrough.generateStealthAddress random m out = (out', Normal data) ->
  exists o g,
    TestStealthAddress.generateStealthAddress random m [] = (o, Normal g) /\
    data = {| Walkthrough.stealthAddress := TestStealthAddress.stealthAddress g;
              Walkthrough.ephemeralPubKey := TestStealthAddress.ephemeralPubKey g;
              Walkthrough.viewTag := TestStealthAddress.viewTag g |}.
Proof.
  intro H. pose proof (Plain_generateStealthAddress_result random m out []) as R.
  rewrite H in R. cbn [snd] in R.
  destruct (TestStealthAddress.generateStealthAddress random m []) as [o [g|e]];
    cbn [snd] in R; [|discriminate].
  exists o, g. split; [reflexivity | congruence].
Qed.

End PlainMain.

(** X24. [main] of the walkthrough without registry never reports a
    failure.  Whatever the three draws, it writes neither the line of a
    failed verification nor the line of a tag that does not match; when it
    does not throw, the last line it writes is the one of a successful
    recovery. *)
Theorem plain_main_ends_in_success {C : Crypto} {L : CryptoLaws C} (V : EncoderValidates C)
    (random1 random2 random3 : Entropy) :
  ~ In walkthroughFailure (output (Walkthrough.main random1 random2 random3)) /\
  ~ In walkthroughNoMatch (output (Walkthrough.main random1 random2 random3)) /\
  (result (Walkthrough.main random1 random2 random3) = Normal tt ->
   last (output (Walkthrough.main random1 random2 random3)) walkthroughFailure =
     walkthroughSuccess).
Proof.
  unfold output, result.
  set (p := run _). assert (Hp : p = run (Walkthrough.main random1 random2 random3))
    by reflexivity. clearbody p.
  unfold run, Walkthrough.main in Hp.
  rewrite bind_log, bind_sleep in Hp. cbv zeta in Hp.
  unfold TestStealthAddress.generatePrivateKey in Hp.
  set (spend := getRandomValues random1 32) in Hp.
  set (view := getRandomValues random2 32) in Hp.
  destruct (TestStealthAddress.getPublicKey (Viem.bytesToHex spend)) as [sp|e] eqn:Hs;
    [rewrite bind_call_Normal in Hp | rewrite bind_call_Throw in Hp; subst p; cbn [fst snd];
       refine (conj _ (conj _ _));
       [intro H; line_out H | intro H; line_out H | discriminate]].
  destruct (TestStealthAddress.getPublicKey (Viem.bytesToHex view)) as [vp|e] eqn:Hv;
    [rewrite bind_call_Normal in Hp | rewrite bind_call_Throw in Hp; subst p; cbn [fst snd];
       refine (conj _ (conj _ _));
       [intro H; line_out H | intro H; line_out H | discriminate]].
  do 6 rewrite bind_log in Hp. rewrite bind_sleep in Hp.
  match type of Hp with
  | context [bind (Walkthrough.generateStealthAddress ?r ?m) ?k ?o] =>
    set (before := o) in Hp;
    destruct (Plain_sender_lines r m before) as (written & Ew & Fw);
    unfold bind at 1 in Hp;
    destruct (Walkthrough.generateStealthAddress r m before) as [o' [data|e]] eqn:Hg
  end; cbn [fst] in Ew; subst o'.
  - destruct (Plain_generated _ _ _ _ _ Hg) as (o & g & Hcanon & ->).
    destruct (walkthrough_scan_of_generated V Walkthrough.scanAndRecover random3 spend view
                sp vp o (before ++ written)%list g Plain_scan_simulates Hs Hv Hcanon)
      as (w & Hscan & Hf & Hn).
    cbn [Walkthrough.ephemeralPubKey Walkthrough.viewTag Walkthrough.stealthAddress] in Hp.
    change {| TestStealthAddress.annEphemeralPubKey := TestStealthAddress.ephemeralPubKey g;
              TestStealthAddress.annViewTag := TestStealthAddress.viewTag g;
              TestStealthAddress.annStealthAddress := TestStealthAddress.stealthAddress g |}
      with (TestStealthAddress.announcementOf g) in Hp.
    rewrite Hscan in Hp. subst p. cbn [fst snd].
    apply unremarkableInWalkthrough_not_in in Fw as [F1 F2].
    refine (conj _ (conj _ _)).
    + intro H. rewrite !in_app_iff in H. destruct H as [[H|H]|[H|H]]; try contradiction.
      * subst before. line_out H.
      * line_out H.
    + intro H. rewrite !in_app_iff in H. destruct H as [[H|H]|[H|H]]; try contradiction.
      * subst before. line_out H.
      * line_out H.
    + intros _. rewrite !app_assoc. apply last_last.
  - subst p. cbn [fst snd]. apply unremarkableInWalkthrough_not_in in Fw as [F1 F2].
    refine (conj _ (conj _ _)); [| |discriminate].
    + intro H. apply in_app_or in H as [H|H]; [|contradiction]. subst before. line_out H.
    + intro H. apply in_app_or in H as [H|H]; [|contradiction]. subst before. line_out H.
Qed.

(** ** The properties above on examples *)

Lemma sender_view_tag_is_a_byte_witness :
  exists (sharedSecret : string) (S : bytes) (tag : byte),
    TestStealthAddress.computeSharedSecret (C := Residues)
      (TestStealthAddress.generatePrivateKey draw7)
      (viewingPubKey (metaAddressOf residueKeys)) = Normal sharedSecret /\
    Viem.hexToBytes sharedSecret = Normal S /\
    hd_error (keccak_256 (Crypto := Residues) S) = Some tag /\
    TestStealthAddress.viewTag residueGenerated = JS.Num (byteZ tag) /\
    0 <= byteZ tag < 256.
Proof.
  apply (sender_view_tag_is_a_byte (C := Residues) (L := ResiduesLaws) draw7
           (metaAddressOf residueKeys) (fst residueRun) residueGenerated).
  vm_compute. reflexivity.
Defined.

Lemma stealthAddress_is_twenty_bytes_witness :
  exists K : bytes,
    List.length K = 20%nat /\
    TestStealthAddress.stealthAddress residueGenerated = Viem.bytesToHex K /\
    String.length (TestStealthAddress.stealthAddress residueGenerated) = 42%nat /\
    JS.toLowerCase (TestStealthAddress.stealthAddress residueGenerated) =
      TestStealthAddress.stealthAddress residueGenerated /\
    Viem.hexToBytes (TestStealthAddress.stealthAddress residueGenerated) = Normal K.
Proof.
  apply (stealthAddress_is_twenty_bytes (C := Residues) (L := ResiduesLaws) draw7
           (metaAddressOf residueKeys) (fst residueRun) residueGenerated).
  vm_compute. reflexivity.
Defined.

Lemma sender_returns_iff_witness :
  exists out g,
    run (TestStealthAddress.generateStealthAddress (C := Residues) draw7
           {| spendingPubKey := Viem.bytesToHex (x02 :: spend3);
              viewingPubKey := Viem.bytesToHex (x02 :: view5) |}) = (out, Normal g).
Proof.
  apply (proj2 (sender_returns_iff (C := Residues) (L := ResiduesLaws) Residues_validates
                  draw7 (x02 :: spend3) (x02 :: view5) 3 5 eq_refl eq_refl)).
  split; [vm_compute; split; reflexivity|].
  exists (x02 :: numberToBytesBE 32 35).
  refine (conj _ (conj _ _)); [vm_compute; reflexivity | vm_compute; split; reflexivity |].
  vm_compute. discriminate.
Defined.

Lemma sender_throws_on_a_draw_out_of_range_witness :
  run (TestStealthAddress.generateStealthAddress (C := Real) (fun _ => x00)
         (metaAddressOf realKeys)) =
  ([log [Str (nl ++ "--- Sender: Generating Stealth Address ---")]], Throw InvalidPrivateKey).
Proof.
  apply (sender_throws_on_a_draw_out_of_range (C := Real) (fun _ => x00) (metaAddressOf realKeys)).
  vm_compute. intros [H _]. discriminate H.
Defined.

Lemma scan_throws_on_a_key_off_the_curve_witness :
  run (TestStealthAddress.scanAndRecover (C := Real) announcedOffCurve realKeys) =
  ([headerLine], Throw InvalidPoint).
Proof.
  apply (scan_throws_on_a_key_off_the_curve (C := Real) announcedOffCurve realKeys view5 [x00]);
    vm_compute; reflexivity.
Defined.

Lemma derived_key_is_written_on_64_digits_witness :
  let d_stealth :=
    "0x" ++ JS.padStart 64 "0"
              (JS.toString16 (TestStealthAddress.d_stealth_big (CURVE_ORDER - 1) 2)) in
  String.length d_stealth = 66%nat /\
  JS.BigInt d_stealth = Normal ((CURVE_ORDER - 1 + 2) mod CURVE_ORDER) /\
  exists key : bytes,
    Viem.hexToBytes d_stealth = Normal key /\
    List.length key = 32%nat /\
    bytesToNumberBE key = (CURVE_ORDER - 1 + 2) mod CURVE_ORDER.
Proof.
  apply (derived_key_is_written_on_64_digits (CURVE_ORDER - 1) 2); vm_compute; discriminate.
Defined.

Lemma scan_compares_addresses_ignoring_case_witness :
  run (TestStealthAddress.scanAndRecover (C := Real) announced realKeys) =
  run (TestStealthAddress.scanAndRecover (C := Real) announcedChecksummed realKeys).
Proof.
  apply (scan_compares_addresses_ignoring_case (C := Real) announced announcedChecksummed
           realKeys); vm_compute; reflexivity.
Defined.

Lemma main_ends_in_success_witness :
  ~ In failureLine
      (output (TestStealthAddress.main (C := Residues) (entropyOf spend3) (entropyOf view5)
                 draw7)) /\
  ~ In noMatchLine
      (output (TestStealthAddress.main (C := Residues) (entropyOf spend3) (entropyOf view5)
                 draw7)) /\
  (result (TestStealthAddress.main (C := Residues) (entropyOf spend3) (entropyOf view5) draw7)
     = Normal tt ->
   last (output (TestStealthAddress.main (C := Residues) (entropyOf spend3) (entropyOf view5)
                   draw7)) failureLine = successLine).
Proof.
  exact (main_ends_in_success (C := Residues) (L := ResiduesLaws) Residues_validates
           (entropyOf spend3) (entropyOf view5) draw7).
Defined.

Lemma registerKeys_keeps_other_identifiers_witness :
  snd (AnnouncerWalkthrough.lookupKeys "alice.eth"
         (fst (AnnouncerWalkthrough.registerKeys stranger "0x02" "0x03" registeredStore))) =
  snd (AnnouncerWalkthrough.lookupKeys "alice.eth" registeredStore).
Proof.
  apply (registerKeys_keeps_other_identifiers "alice.eth" stranger "0x02" "0x03"
           registeredStore); discriminate.
Defined.

Lemma lookupKeys_throws_iff_unregistered_witness :
  snd (AnnouncerWalkthrough.lookupKeys stranger
         (fst (registerAll [("alice.eth", metaAddressOf residueKeys)] initial))) =
    Raised (ErrorMessage "Recipient not found in registry!")
  <-> ~ In stranger (map fst [("alice.eth", metaAddressOf residueKeys)]).
Proof.
  apply (lookupKeys_throws_iff_unregistered [("alice.eth", metaAddressOf residueKeys)]
           stranger initial eq_refl); not_among.
Defined.

Lemma inherited_names_are_found_witness :
  snd (AnnouncerWalkthrough.lookupKeys "toString" initial) = Returned JSObject.Builtin /\
  snd (AnnouncerWalkthrough.generateStealthAddress (C := Residues) draw7 "toString" initial) =
    Raised TypeError.
Proof.
  apply (inherited_names_are_found (C := Residues) draw7 "toString" initial eq_refl).
  vm_compute. tauto.
Defined.

Lemma sender_stops_when_the_lookup_throws_witness :
  exists written : list Console,
    AnnouncerWalkthrough.generateStealthAddress (C := Residues) draw7 stranger registeredStore =
    ({| console := console registeredStore ++ written;
        MockRegistry := MockRegistry registeredStore;
        AnnouncementLog := AnnouncementLog registeredStore |},
     Raised (ErrorMessage "Recipient not found in registry!")) /\
    List.length written = 5%nat.
Proof.
  apply (sender_stops_when_the_lookup_throws (C := Residues) draw7 stranger registeredStore).
  vm_compute. reflexivity.
Defined.

Lemma sender_announces_what_it_returns_witness :
  Announcer.schemeId residueAnnouncement = SCHEME_ID /\
  Announcer.caller residueAnnouncement = "0x0000000000000000000000000000000000000001" /\
  AnnouncementLog (fst residueAnnounced) =
    (AnnouncementLog registeredStore ++ [residueAnnouncement])%list /\
  MockRegistry (fst residueAnnounced) = MockRegistry registeredStore /\
  exists tag : byte,
    Viem.hexToBytes (Announcer.metadata residueAnnouncement) = Normal [tag] /\
    String.length (Announcer.metadata residueAnnouncement) = 4%nat /\
    JS.parseInt16 (JS.slice 2 4 (Announcer.metadata residueAnnouncement)) = JS.Num (byteZ tag).
Proof.
  apply (sender_announces_what_it_returns (C := Residues) draw7 "alice.eth" registeredStore
           (fst residueAnnounced) residueAnnouncement).
  vm_compute. reflexivity.
Defined.

Lemma announcer_main_outcome_witness :
  match AnnouncerWalkthrough.main (C := Residues) (entropyOf spend3) (entropyOf view5) draw7 initial with
  | (st', Returned _) =>
      last (console st') (log []) =
        log [Str (nl ++ "   [SUCCESS] The derived key controls the stealth address!")] /\
      (exists a, AnnouncementLog st' = [a] /\ Announcer.schemeId a = SCHEME_ID) /\
      (exists keys,
         JSObject.get (MockRegistry st') "alice.eth" = JSObject.Keys keys /\
         JSObject.get (MockRegistry st') "0x1234567890123456789012345678901234567890" =
           JSObject.Keys keys)
  | (st', Raised e) => (exists le, e = Library le) /\ AnnouncementLog st' = []
  end.
Proof.
  exact (announcer_main_outcome (C := Residues) (L := ResiduesLaws) Residues_validates
           (entropyOf spend3) (entropyOf view5) draw7).
Defined.

Lemma registry_sender_prints_undefined_keys_witness :
  exists written : list Console,
    RegistryWalkthrough.generateStealthAddress (C := Residues) draw7 "toString" initial =
    ({| console := console initial ++ written;
        MockRegistry := MockRegistry initial;
        AnnouncementLog := AnnouncementLog initial |},
     match TestStealthAddress.getPublicKey (C := Residues)
             (TestStealthAddress.generatePrivateKey draw7) with
     | Normal _ => Raised TypeError
     | Throw e => Raised (Library e)
     end) /\
    In (log [Str "   [String] Full Meta-Address: st:eth:undefined:undefined"]) written.
Proof.
  apply (registry_sender_prints_undefined_keys (C := Residues) draw7 "toString" initial
           JSObject.Builtin); vm_compute; reflexivity.
Defined.

Lemma registry_main_outcome_witness :
  match RegistryWalkthrough.main (C := Residues) (entropyOf spend3) (entropyOf view5) draw7
          initial with
  | (st', Returned _) =>
      last (console st') walkthroughFailure = walkthroughSuccess /\
      (exists keys,
         JSObject.get (MockRegistry st') "alice.eth" = JSObject.Keys keys /\
         JSObject.get (MockRegistry st') "0x1234567890123456789012345678901234567890" =
           JSObject.Keys keys)
  | (st', Raised e) => exists le, e = Library le
  end.
Proof.
  exact (registry_main_outcome (C := Residues) (L := ResiduesLaws) Residues_validates
           (entropyOf spend3) (entropyOf view5) draw7).
Defined.

Lemma plain_main_ends_in_success_witness :
  ~ In walkthroughFailure
      (output (Walkthrough.main (C := Residues) (entropyOf spend3) (entropyOf view5) draw7)) /\
  ~ In walkthroughNoMatch
      (output (Walkthrough.main (C := Residues) (entropyOf spend3) (entropyOf view5) draw7)) /\
  (result (Walkthrough.main (C := Residues) (entropyOf spend3) (entropyOf view5) draw7)
     = Normal tt ->
   last (output (Walkthrough.main (C := Residues) (entropyOf spend3) (entropyOf view5) draw7))
        walkthroughFailure = walkthroughSuccess).
Proof.
  exact (plain_main_ends_in_success (C := Residues) (L := ResiduesLaws) Residues_validates
           (entropyOf spend3) (entropyOf view5) draw7).
Defined.
